(** * FantasyPros weekly statistics scraper: a shallow embedding

    This development embeds [fantasypros_scrape.py] in Rocq and proves
    properties of its four parts:

    - [parse_range_or_all], the selector parser ("all" / "N" / "A-B");
    - [fetch_week_data], the extraction of the data table of one page;
    - [scrape], the per (position, year) loop over weeks and its single
      write;
    - the default ranges computed by [main].

    Conventions.  Python [int] is [Z]; Python [str] is [string], read as a
    sequence of ASCII characters; a Python list is a [list].  A call that
    may raise returns a [result].  Console output, HTTP requests, sleeps
    and file-system effects are recorded, in program order, in a trace of
    [event]s; what the network and the file system answer is read from an
    [environment].

    Interpreter.  [int] is the one of CPython 3.11 and later with its
    default setting: a literal of more than 4300 digits is refused with a
    [ValueError].  The HTML parser may refuse a page, and then raises.

    Idealisations.  Lists are unbounded (no memory limit in [range]), and
    so are the integers that are formatted with [str].  [print] and
    [time.sleep] always return: a console that cannot encode a printed
    line is not modelled.  A request to a given URL has one outcome
    during a run.  Creating a directory or writing a file either happens
    or raises without any effect.  A table is a flat list of rows of cells;
    tables nested in cells are not represented. *)

From Stdlib Require Import List String Ascii ZArith NArith Lia Bool.
From Stdlib Require Import Decimal DecimalString DecimalPos DecimalN DecimalZ.
Import ListNotations.

#[local] Open Scope string_scope.
#[local] Open Scope Z_scope.

(* ================================================================== *)
(** ** Exceptions and results *)

(** The exception classes that the program can meet.  All of them derive
    from Python's [Exception] except [KeyboardInterrupt] and [SystemExit],
    which derive from [BaseException] only and are therefore not caught by
    [except Exception]. *)
Inductive exn : Type :=
| ValueError (msg : string)
| IndexError (msg : string)
| InvalidIndexError (msg : string)
| RequestException (msg : string)
| ParserRejectedMarkup (msg : string)
| OSError (msg : string)
| KeyboardInterrupt
| SystemExit (code : Z).

Definition is_Exception (e : exn) : bool :=
  match e with
  | KeyboardInterrupt | SystemExit _ => false
  | _ => true
  end.

Inductive result (A : Type) : Type :=
| Ok (a : A)
| Raise (e : exn).

Arguments Ok {A} a.
Arguments Raise {A} e.

Definition rbind {A B : Type} (r : result A) (k : A -> result B) : result B :=
  match r with
  | Ok a => k a
  | Raise e => Raise e
  end.

(* ================================================================== *)
(** ** Python string primitives *)

Module Py.

Definition dquote : ascii := ascii_of_nat 34.
Definition squote : ascii := ascii_of_nat 39.
Definition backslash : ascii := ascii_of_nat 92.
Definition newline : ascii := ascii_of_nat 10.

(** [c in s] for a one-character [c]. *)
Fixpoint contains (c : ascii) (s : string) : bool :=
  match s with
  | EmptyString => false
  | String a s' => Ascii.eqb a c || contains c s'
  end.

(** [s.split(sep)] for a one-character separator: every occurrence
    splits, so a string with [n] separators gives [n + 1] parts. *)
Fixpoint split (sep : ascii) (s : string) : list string :=
  match s with
  | EmptyString => [EmptyString]
  | String a s' =>
      if Ascii.eqb a sep then EmptyString :: split sep s'
      else match split sep s' with
           | [] => [String a EmptyString]
           | p :: ps => String a p :: ps
           end
  end.

(** Whitespace as [str.strip()] and [str.isspace()] see it on ASCII:
    TAB, LF, VT, FF, CR, the separators 0x1c..0x1f and the space. *)
Definition isspace (c : ascii) : bool :=
  let n := nat_of_ascii c in
  ((9 <=? n) && (n <=? 13) || (28 <=? n) && (n <=? 31) || (n =? 32))%nat.

(** Whitespace as the integer parser sees it (C's [isspace]):
    TAB, LF, VT, FF, CR and the space. *)
Definition c_isspace (c : ascii) : bool :=
  let n := nat_of_ascii c in
  ((9 <=? n) && (n <=? 13) || (n =? 32))%nat.

Fixpoint lstrip_with (sp : ascii -> bool) (s : string) : string :=
  match s with
  | EmptyString => EmptyString
  | String a s' => if sp a then lstrip_with sp s' else s
  end.

Fixpoint rstrip_with (sp : ascii -> bool) (s : string) : string :=
  match s with
  | EmptyString => EmptyString
  | String a s' =>
      match rstrip_with sp s' with
      | EmptyString => if sp a then EmptyString else String a EmptyString
      | r => String a r
      end
  end.

Definition strip_with (sp : ascii -> bool) (s : string) : string :=
  rstrip_with sp (lstrip_with sp s).

(** [s.strip()]. *)
Definition strip (s : string) : string := strip_with isspace s.

Definition is_digit (c : ascii) : bool :=
  let n := nat_of_ascii c in ((48 <=? n) && (n <=? 57))%nat.

Definition digit_val (c : ascii) : N := N.of_nat (nat_of_ascii c - 48).

(** The digits of an integer literal: decimal digits, with single
    underscores allowed between two digits. *)
Fixpoint scan_digits (s : string) (prev_underscore : bool) (acc : N)
  : option N :=
  match s with
  | EmptyString => if prev_underscore then None else Some acc
  | String c s' =>
      if is_digit c then scan_digits s' false (10 * acc + digit_val c)%N
      else if Ascii.eqb c "_" then
        if prev_underscore then None else scan_digits s' true acc
      else None
  end.

Definition digits_value (body : string) : option N :=
  match body with
  | EmptyString => None
  | String c _ => if Ascii.eqb c "_" then None else scan_digits body false 0%N
  end.

(** [sys.get_int_max_str_digits()]: the default of CPython 3.11 and
    later. *)
Definition int_max_str_digits : nat := 4300.

Fixpoint count_digits (s : string) : nat :=
  match s with
  | EmptyString => O
  | String c s' => if is_digit c then S (count_digits s') else count_digits s'
  end.

(** The value of [int(s)] when [s] is a valid base-10 literal:
    optional surrounding whitespace, an optional sign, then digits, of
    which there are no more than [int_max_str_digits]. *)
Definition int_literal (s : string) : option Z :=
  let t := strip_with c_isspace s in
  if (int_max_str_digits <? count_digits t)%nat then None
  else
    match t with
    | EmptyString => None
    | String c body =>
        if Ascii.eqb c "-"
        then option_map (fun n => - Z.of_N n) (digits_value body)
        else if Ascii.eqb c "+" then option_map Z.of_N (digits_value body)
        else option_map Z.of_N (digits_value t)
    end.

(** The run of digits and single underscores that the parser scans
    before it looks at anything else: the number of its digits, when the
    run is well formed. *)
Fixpoint digit_run (s : string) (prev_underscore : bool) (digits : nat)
  : option nat :=
  match s with
  | EmptyString => if prev_underscore then None else Some digits
  | String c s' =>
      if is_digit c then digit_run s' false (S digits)
      else if Ascii.eqb c "_" then
        if prev_underscore then None else digit_run s' true digits
      else if prev_underscore then None else Some digits
  end.

(** The number of digits that [int(s)] reports when it refuses [s] for
    its length: the limit is tested once the run of digits is scanned,
    before what follows the run is looked at. *)
Definition over_limit (s : string) : option nat :=
  let t := strip_with c_isspace s in
  let body :=
    match t with
    | String c body' =>
        if Ascii.eqb c "-" || Ascii.eqb c "+" then body' else t
    | EmptyString => t
    end in
  match body with
  | EmptyString => None
  | String c _ =>
      if Ascii.eqb c "_" then None
      else match digit_run body false O with
           | Some digits =>
               if (int_max_str_digits <? digits)%nat then Some digits else None
           | None => None
           end
  end.

Definition hex_digit (n : nat) : ascii :=
  if (n <? 10)%nat then ascii_of_nat (48 + n) else ascii_of_nat (87 + n).

(** [repr(s)] on ASCII strings. *)
Definition repr_char (quote c : ascii) : string :=
  let n := nat_of_ascii c in
  if Ascii.eqb c quote || Ascii.eqb c backslash
  then String backslash (String c EmptyString)
  else if (n =? 9)%nat then String backslash "t"
  else if (n =? 10)%nat then String backslash "n"
  else if (n =? 13)%nat then String backslash "r"
  else if (n <? 32)%nat || (n =? 127)%nat
  then String backslash
         (String "x" (String (hex_digit (n / 16))
                        (String (hex_digit (n mod 16)) EmptyString)))
  else String c EmptyString.

Definition repr (s : string) : string :=
  let quote :=
    if contains squote s && negb (contains dquote s) then dquote else squote in
  String quote
    (String.concat EmptyString
       (map (repr_char quote) (list_ascii_of_string s))
     ++ String quote EmptyString).

(** [str(n)] for an integer [n]. *)
Definition str (n : Z) : string := NilZero.string_of_int (Z.to_int n).

(** [int(s)].  Both refusals are [ValueError]s; the text of the one for
    the limit is that of CPython 3.11. *)
Definition int (s : string) : result Z :=
  match int_literal s with
  | Some z => Ok z
  | None =>
      match over_limit s with
      | Some digits =>
          Raise (ValueError
                   ("Exceeds the limit (" ++ str (Z.of_nat int_max_str_digits)
                    ++ ") for integer string conversion: value has "
                    ++ str (Z.of_nat digits)
                    ++ " digits; use sys.set_int_max_str_digits() "
                    ++ "to increase the limit"))
      | None =>
          Raise (ValueError
                   ("invalid literal for int() with base 10: " ++ repr s))
      end
  end.

(** [list(range(start, stop))]. *)
Definition range (start stop : Z) : list Z :=
  map (fun i => start + Z.of_nat i) (seq 0 (Z.to_nat (stop - start))).

Definition upper_char (c : ascii) : ascii :=
  let n := nat_of_ascii c in
  if ((97 <=? n) && (n <=? 122))%nat then ascii_of_nat (n - 32) else c.

Definition lower_char (c : ascii) : ascii :=
  let n := nat_of_ascii c in
  if ((65 <=? n) && (n <=? 90))%nat then ascii_of_nat (n + 32) else c.

Fixpoint map_string (f : ascii -> ascii) (s : string) : string :=
  match s with
  | EmptyString => EmptyString
  | String a s' => String (f a) (map_string f s')
  end.

(** [s.upper()] and [s.lower()] on ASCII strings. *)
Definition upper (s : string) : string := map_string upper_char s.
Definition lower (s : string) : string := map_string lower_char s.

(** [start, end = map(int, parts)]: the iterator is consumed lazily, so
    the conversions run left to right and one more element than expected
    is converted before the arity error is raised. *)
Definition unpack2_int (parts : list string) : result (Z * Z) :=
  match parts with
  | [] => Raise (ValueError "not enough values to unpack (expected 2, got 0)")
  | [a] =>
      rbind (int a) (fun _ =>
      Raise (ValueError "not enough values to unpack (expected 2, got 1)"))
  | [a; b] =>
      rbind (int a) (fun s => rbind (int b) (fun e => Ok (s, e)))
  | a :: b :: c :: _ =>
      rbind (int a) (fun _ => rbind (int b) (fun _ => rbind (int c) (fun _ =>
      Raise (ValueError "too many values to unpack (expected 2)"))))
  end.

End Py.

(** [str(e)]. *)
Definition exn_str (e : exn) : string :=
  match e with
  | ValueError m | IndexError m | InvalidIndexError m
  | RequestException m | ParserRejectedMarkup m | OSError m => m
  | KeyboardInterrupt => EmptyString
  | SystemExit code => Py.str code
  end.

(* ================================================================== *)
(** ** RangeSelector: [parse_range_or_all] *)

Definition parse_range_or_all (value : string) (full_range : list Z)
  : result (list Z) :=
  if String.eqb value "all" then Ok full_range
  else if Py.contains "-" value then
    rbind (Py.unpack2_int (Py.split "-" value)) (fun '(start, end_) =>
    Ok (Py.range start (end_ + 1)))
  else
    rbind (Py.int value) (fun n => Ok [n]).

(* ================================================================== *)
(** ** The page: what BeautifulSoup's queries see *)

Module Html.

Inductive cell_tag : Type := th | td.

(** A table cell with the text nodes below it, in document order. *)
Record cell : Type := { tag : cell_tag; strings : list string }.

(** A [<tr>] with its cells in document order. *)
Definition tr : Type := list cell.

(** A [<table>] with its [id] attribute and its rows, in document order.
    Tables nested in cells are not represented. *)
Record table : Type := { id : option string; trs : list tr }.

(** A parsed document, seen as its tables in document order. *)
Definition soup : Type := list table.

Definition has_id (name : string) (t : table) : bool :=
  match id t with
  | Some i => String.eqb i name
  | None => false
  end.

(** [soup.find("table", {"id": name})]: the first match or [None]. *)
Definition find_table (s : soup) (name : string) : option table :=
  List.find (has_id name) s.

Definition is_tag (k : cell_tag) (c : cell) : bool :=
  match tag c, k with
  | th, th | td, td => true
  | _, _ => false
  end.

(** [table.find_all("tr")]. *)
Definition find_all_tr (t : table) : list tr := trs t.

(** [table.find_all("th")]: every header cell of the table, whichever
    row it stands in. *)
Definition find_all_th (t : table) : list cell :=
  flat_map (filter (is_tag th)) (trs t).

(** [tr.find_all("td")]. *)
Definition find_all_td (r : tr) : list cell := filter (is_tag td) r.

Definition nonempty (s : string) : bool :=
  match s with
  | EmptyString => false
  | _ => true
  end.

(** [c.get_text(strip=True)]: each text node is stripped, empty ones are
    dropped, the rest are joined without separator. *)
Definition get_text_strip (c : cell) : string :=
  String.concat EmptyString (filter nonempty (map Py.strip (strings c))).

End Html.

(* ================================================================== *)
(** ** The part of pandas that the program uses *)

Module pd.

Inductive value : Type :=
| VInt (z : Z)
| VStr (s : string)
| NaN.

(** A frame is its column labels and its rows; row labels play no role
    here (every frame is built with the default index and combined with
    [ignore_index=True]). *)
Record DataFrame : Type := { columns : list string; data : list (list value) }.

(** [pd.DataFrame()]. *)
Definition DataFrame_ : DataFrame := {| columns := []; data := [] |}.

(** [pd.DataFrame(rows, columns=headers)], for rows of strings that all
    have [len(headers)] cells (the only way the program calls it). *)
Definition DataFrame_of_rows (rows : list (list string)) (headers : list string)
  : DataFrame :=
  {| columns := headers; data := map (map VStr) rows |}.

(** [df.empty]: some axis has length 0. *)
Definition empty (df : DataFrame) : bool :=
  match columns df, data df with
  | _ :: _, _ :: _ => false
  | _, _ => true
  end.

(** [len(df)]. *)
Definition len (df : DataFrame) : Z := Z.of_nat (List.length (data df)).

Definition mem (c : string) (cs : list string) : bool :=
  existsb (String.eqb c) cs.

Definition insert_at {A : Type} (loc : nat) (x : A) (l : list A) : list A :=
  (firstn loc l ++ x :: skipn loc l)%list.

(** [df.insert(loc, column, value)] with a scalar [value]: refuses a
    label that the frame already has. *)
Definition insert (loc : nat) (column : string) (v : value) (df : DataFrame)
  : result DataFrame :=
  if mem column (columns df) then
    Raise (ValueError ("cannot insert " ++ column ++ ", already exists"))
  else if (List.length (columns df) <? loc)%nat then
    Raise (IndexError ("index " ++ Py.str (Z.of_nat loc)
                       ++ " is out of bounds for axis 0 with size "
                       ++ Py.str (Z.of_nat (List.length (columns df)))))
  else
    Ok {| columns := insert_at loc column (columns df);
          data := map (insert_at loc v) (data df) |}.

Definition list_string_eqb (a b : list string) : bool :=
  if list_eq_dec string_dec a b then true else false.

Fixpoint unique (cs : list string) (seen : list string) : list string :=
  match cs with
  | [] => []
  | c :: cs' => if mem c seen then unique cs' seen
                else c :: unique cs' (c :: seen)
  end.

Fixpoint is_unique (cs : list string) : bool :=
  match cs with
  | [] => true
  | c :: cs' => negb (mem c cs') && is_unique cs'
  end.

(** The cell of [row] under label [c], where [cols] labels the row. *)
Fixpoint lookup (c : string) (cols : list string) (row : list value) : value :=
  match cols, row with
  | c' :: cols', v :: row' => if String.eqb c c' then v else lookup c cols' row'
  | _, _ => NaN
  end.

Definition reindex (new_cols : list string) (df : DataFrame) : list (list value) :=
  map (fun row => map (fun c => lookup c (columns df) row) new_cols) (data df).

(** [pd.concat(objs, ignore_index=True)] on frames.  Frames that all
    carry the same labels are stacked as they are.  Otherwise the result
    is labelled by the union of the labels in order of first appearance,
    missing cells are NaN, and a frame with a repeated label cannot be
    realigned. *)
Definition concat (objs : list DataFrame) : result DataFrame :=
  match objs with
  | [] => Raise (ValueError "No objects to concatenate")
  | first :: others =>
      if forallb (fun o => list_string_eqb (columns o) (columns first)) others
      then Ok {| columns := columns first; data := flat_map data objs |}
      else if forallb (fun o => is_unique (columns o)) objs
      then let cols := unique (flat_map columns objs) [] in
           Ok {| columns := cols; data := flat_map (reindex cols) objs |}
      else Raise (InvalidIndexError
                    "Reindexing only valid with uniquely valued Index objects")
  end.

End pd.

(* ================================================================== *)
(** ** Effects: the trace and the environment *)

Inductive file_kind : Type := csv | parquet | json.

Inductive event : Type :=
| EvPrint (line : string)
| EvGet (url : string)
| EvSleep
| EvMakedirs (path : string)
| EvToFile (kind : file_kind) (path : string) (df : pd.DataFrame).

Record response : Type := { status_code : Z; content : string }.

(** What the outside world answers.  [requests_get] is the outcome of
    [r.get(url, headers=...)]; [html_parser] is the document that the
    HTML parser builds from a page, or [None] when it gives up on the
    markup; [makedirs_error] and [to_file_error] say whether creating the
    output directory or writing the file raises (in which case nothing is
    written). *)
Record environment : Type := {
  requests_get : string -> list (string * string) -> result response;
  html_parser : string -> option Html.soup;
  makedirs_error : string -> option exn;
  to_file_error : file_kind -> string -> pd.DataFrame -> option exn
}.

(** A computation: the events it performed, in order, and how it ended. *)
Definition M (A : Type) : Type := list event * result A.

Definition ret {A : Type} (a : A) : M A := ([], Ok a).

Definition bind {A B : Type} (m : M A) (k : A -> M B) : M B :=
  match m with
  | (t, Ok a) => let '(t', r) := k a in ((t ++ t')%list, r)
  | (t, Raise e) => (t, Raise e)
  end.

Definition emit (e : event) : M unit := ([e], Ok tt).

Definition lift {A : Type} (r : result A) : M A := ([], r).

(** [try: body  except Exception as e: handler(e)]. *)
Definition try_except_Exception {A : Type} (body : M A) (handler : exn -> M A)
  : M A :=
  match body with
  | (t, Ok a) => (t, Ok a)
  | (t, Raise e) =>
      if is_Exception e then let '(t', r) := handler e in ((t ++ t')%list, r)
      else (t, Raise e)
  end.

Declare Scope monad_scope.
Delimit Scope monad_scope with monad.
Notation "x <- m ;; k" := (bind m (fun x => k))
  (at level 61, m at next level, right associativity) : monad_scope.
Notation "m ;; k" := (bind m (fun _ => k))
  (at level 61, right associativity) : monad_scope.
#[local] Open Scope monad_scope.

Definition print (line : string) : M unit := emit (EvPrint line).

Definition r_get (env : environment) (url : string)
  (headers : list (string * string)) : M response :=
  emit (EvGet url) ;; lift (requests_get env url headers).

Definition time_sleep : M unit := emit EvSleep.

(** [BeautifulSoup(markup, "html.parser")]: markup that the parser
    rejects makes the constructor raise. *)
Definition parser_rejected : exn :=
  ParserRejectedMarkup
    ("The markup you provided was rejected by the parser. "
     ++ "Trying a different parser or a different encoding may help.").

Definition BeautifulSoup (env : environment) (markup : string) : M Html.soup :=
  match html_parser env markup with
  | Some soup => ret soup
  | None => lift (Raise parser_rejected)
  end.

(** [os.makedirs(path, exist_ok=True)]. *)
Definition os_makedirs (env : environment) (path : string) : M unit :=
  match makedirs_error env path with
  | Some e => lift (Raise e)
  | None => emit (EvMakedirs path)
  end.

(** [df.to_csv(path, index=False)], [df.to_parquet(path, index=False)] and
    [df.to_json(path, orient="records", lines=True)]. *)
Definition to_file (env : environment) (kind : file_kind) (path : string)
  (df : pd.DataFrame) : M unit :=
  match to_file_error env kind path df with
  | Some e => lift (Raise e)
  | None => emit (EvToFile kind path df)
  end.

(** [os.path.join(a, b)] on POSIX. *)
Definition ends_with_sep (a : string) : bool :=
  match List.rev (list_ascii_of_string a) with
  | c :: _ => Ascii.eqb c "/"
  | [] => false
  end.

Definition starts_with_sep (b : string) : bool :=
  match b with
  | String c _ => Ascii.eqb c "/"
  | EmptyString => false
  end.

Definition os_path_join (a b : string) : string :=
  if starts_with_sep b then b
  else match a with
       | EmptyString => b
       | _ => if ends_with_sep a then a ++ b else a ++ "/" ++ b
       end.

(** [template.format(position=position)] for a template whose only
    replacement field is [{position}]. *)
Fixpoint format_field (skip : nat) (template : string) (position : string)
  : string :=
  match template with
  | EmptyString => EmptyString
  | String a rest =>
      match skip with
      | S n => format_field n rest position
      | O =>
          if String.prefix "{position}" template
          then position ++ format_field 9 rest position
          else String a (format_field 0 rest position)
      end
  end.

Definition format_position (template position : string) : string :=
  format_field 0 template position.

(* ================================================================== *)
(** ** The program *)

Definition BASE_URL : string :=
  "https://www.fantasypros.com/nfl/stats/{position}.php".
Definition HEADERS : list (string * string) := [("User-Agent", "Mozilla/5.0")].
Definition ALL_POSITIONS : list string := ["qb"; "rb"; "wr"; "te"; "k"; "dst"].

Definition week_url (position : string) (week year : Z) : string :=
  format_position
    (BASE_URL ++ "?range=week&week=" ++ Py.str week ++ "&year=" ++ Py.str year)
    position.

Definition nonempty_list {A : Type} (l : list A) : bool :=
  match l with
  | [] => false
  | _ :: _ => true
  end.

(** The loop of [fetch_week_data] over the rows after the first one: a row
    is kept when it has at least one [td] cell and as many of them as there
    are header labels. *)
Fixpoint rows_loop (headers : list string) (trs : list Html.tr)
  (rows : list (list string)) : list (list string) :=
  match trs with
  | [] => rows
  | tr :: rest =>
      let cells := map Html.get_text_strip (Html.find_all_td tr) in
      if nonempty_list cells && (List.length cells =? List.length headers)%nat
      then rows_loop headers rest (rows ++ [cells])%list
      else rows_loop headers rest rows
  end.

Definition table_headers (table : Html.table) : list string :=
  map Html.get_text_strip (Html.find_all_th table).

Definition table_rows (table : Html.table) : list (list string) :=
  rows_loop (table_headers table) (tl (Html.find_all_tr table)) [].

Definition fetch_week_data (env : environment) (position : string)
  (week year : Z) : M pd.DataFrame :=
  let url := week_url position week year in
  print ("Fetching " ++ Py.upper position ++ " stats: Week " ++ Py.str week
         ++ ", Year " ++ Py.str year) ;;
  response <- r_get env url HEADERS ;;
  if negb (status_code response =? 200) then
    print ("HTTP " ++ Py.str (status_code response) ++ " for " ++ url) ;;
    ret pd.DataFrame_
  else
    soup <- BeautifulSoup env (content response) ;;
    match Html.find_table soup "data" with
    | None =>
        print ("No table found for " ++ position ++ " week " ++ Py.str week
               ++ ", year " ++ Py.str year) ;;
        ret pd.DataFrame_
    | Some table =>
        let headers := table_headers table in
        let rows := table_rows table in
        if negb (nonempty_list rows) then ret pd.DataFrame_
        else
          let df := pd.DataFrame_of_rows rows headers in
          df <- lift (pd.insert 0 "week" (pd.VInt week) df) ;;
          df <- lift (pd.insert 0 "year" (pd.VInt year) df) ;;
          ret df
    end.

(** One iteration of the loop of [scrape]: the body of the [try] and its
    [except Exception] handler.  The result is the new [all_weeks]. *)
Definition scrape_week (env : environment) (position : string) (year : Z)
  (week : Z) (all_weeks : list pd.DataFrame) : M (list pd.DataFrame) :=
  try_except_Exception
    (df <- fetch_week_data env position week year ;;
     let all_weeks' :=
       if negb (pd.empty df) then (all_weeks ++ [df])%list else all_weeks in
     time_sleep ;;
     ret all_weeks')
    (fun e => print ("Error: " ++ exn_str e) ;; ret all_weeks).

Fixpoint scrape_loop (env : environment) (position : string) (year : Z)
  (weeks : list Z) (all_weeks : list pd.DataFrame) : M (list pd.DataFrame) :=
  match weeks with
  | [] => ret all_weeks
  | week :: rest =>
      all_weeks' <- scrape_week env position year week all_weeks ;;
      scrape_loop env position year rest all_weeks'
  end.

Definition scrape (env : environment) (position : string) (year : Z)
  (weeks : list Z) (output_dir : string) (file_format : string) : M unit :=
  print (String Py.newline "Scraping " ++ Py.upper position ++ " for "
         ++ Py.str year ++ "...") ;;
  all_weeks <- scrape_loop env position year weeks [] ;;
  if nonempty_list all_weeks then
    year_df <- lift (pd.concat all_weeks) ;;
    let out_dir := os_path_join output_dir position in
    os_makedirs env out_dir ;;
    let ext := Py.lower file_format in
    let output_path :=
      os_path_join out_dir (position ++ "_" ++ Py.str year ++ "." ++ ext) in
    (if String.eqb ext "csv" then to_file env csv output_path year_df
     else if String.eqb ext "parquet" then to_file env parquet output_path year_df
     else if String.eqb ext "json" then to_file env json output_path year_df
     else ret tt) ;;
    print ("Saved " ++ Py.str (pd.len year_df) ++ " rows → " ++ output_path)
  else
    print ("No data scraped for " ++ Py.upper position ++ " in " ++ Py.str year).

(** The command line after defaults have been filled in. *)
Record arguments : Type := {
  arg_position : string;
  arg_year : string;
  arg_week : string;
  arg_output : string;
  arg_format : string
}.

Definition default_arguments : arguments :=
  {| arg_position := "all"; arg_year := "all"; arg_week := "all";
     arg_output := "data"; arg_format := "csv" |}.

Definition format_choices : list string := ["csv"; "parquet"; "json"].

(** [parser.parse_args()]: a [--format] outside its [choices] ends the
    process with status 2. *)
Definition parse_args (args : arguments) : result arguments :=
  if pd.mem (arg_format args) format_choices then Ok args
  else Raise (SystemExit 2).

Fixpoint for_each {A : Type} (xs : list A) (body : A -> M unit) : M unit :=
  match xs with
  | [] => ret tt
  | x :: xs' => body x ;; for_each xs' body
  end.

(** The default year range of [main], the current calendar year being
    [now_year]. *)
Definition full_years (now_year : Z) : list Z := Py.range 2002 (now_year - 1).

Definition full_weeks : list Z := Py.range 1 18.

Definition main (env : environment) (argv : arguments) (now_year : Z) : M unit :=
  args <- lift (parse_args argv) ;;
  let positions :=
    if String.eqb (arg_position args) "all" then ALL_POSITIONS
    else [Py.lower (arg_position args)] in
  for_each positions (fun pos =>
    if negb (pd.mem pos ALL_POSITIONS)
    then lift (Raise (ValueError ("Invalid position: " ++ pos)))
    else ret tt) ;;
  years <- lift (parse_range_or_all (arg_year args) (full_years now_year)) ;;
  weeks <- lift (parse_range_or_all (arg_week args) full_weeks) ;;
  for_each positions (fun pos =>
    for_each years (fun year =>
      scrape env pos year weeks (arg_output args) (arg_format args))).

(* ================================================================== *)
(** ** Vocabulary of the statements *)

(** The ascending sequence [lo, lo+1, ..., hi], empty when [hi < lo]. *)
Fixpoint ascending_from (lo : Z) (n : nat) : list Z :=
  match n with
  | O => []
  | S k => lo :: ascending_from (lo + 1) k
  end.

Definition inclusive_sequence (lo hi : Z) : list Z :=
  ascending_from lo (Z.to_nat (hi - lo + 1)).

(** The number of occurrences of a character in a string. *)
Fixpoint count_char (c : ascii) (s : string) : nat :=
  match s with
  | EmptyString => O
  | String a s' => (if Ascii.eqb a c then 1 else 0) + count_char c s'
  end.

(** Every character of the string satisfies [p]. *)
Fixpoint all_chars (p : ascii -> bool) (s : string) : bool :=
  match s with
  | EmptyString => true
  | String a s' => p a && all_chars p s'
  end.

(** The characters that the digits of an integer literal may hold. *)
Definition digit_or_underscore (c : ascii) : bool :=
  Py.is_digit c || Ascii.eqb c "_".


(** The text of the [td] cells of a table row, as the extraction reads
    them. *)
Definition row_cells (r : Html.tr) : list string :=
  map Html.get_text_strip (Html.find_all_td r).

(** The test that a row passes to be kept. *)
Definition row_kept (headers cells : list string) : bool :=
  nonempty_list cells && (List.length cells =? List.length headers)%nat.

(** The weaker test "as many cells as header labels". *)
Definition count_matches (headers cells : list string) : bool :=
  (List.length cells =? List.length headers)%nat.

(** The row of a frame that a kept table row becomes (a StatRow). *)
Definition stat_row (year week : Z) (cells : list string) : list pd.value :=
  pd.VInt year :: pd.VInt week :: map pd.VStr cells.

(** The rows after the first one whose cell count equals the header
    count, as StatRows. *)
Definition count_matching_rows (year week : Z) (table : Html.table)
  : list (list pd.value) :=
  map (stat_row year week)
    (filter (count_matches (table_headers table))
       (map row_cells (tl (Html.find_all_tr table)))).

(** The data table of the page that a response carries. *)
Definition page_table (env : environment) (resp : response) : option Html.table :=
  match html_parser env (content resp) with
  | Some soup => Html.find_table soup "data"
  | None => None
  end.

(** The parser builds a document from the page. *)
Definition page_parsed (env : environment) (resp : response) : bool :=
  match html_parser env (content resp) with
  | Some _ => true
  | None => false
  end.

(** The lines that [fetch_week_data] prints. *)
Definition msg_fetching (position : string) (week year : Z) : string :=
  "Fetching " ++ Py.upper position ++ " stats: Week " ++ Py.str week
  ++ ", Year " ++ Py.str year.

Definition msg_http (resp : response) (url : string) : string :=
  "HTTP " ++ Py.str (status_code resp) ++ " for " ++ url.

Definition msg_no_table (position : string) (week year : Z) : string :=
  "No table found for " ++ position ++ " week " ++ Py.str week
  ++ ", year " ++ Py.str year.

(** The frame that [fetch_week_data] builds from a data table. *)
Definition table_frame (table : Html.table) (week year : Z)
  : result pd.DataFrame :=
  if negb (nonempty_list (table_rows table)) then Ok pd.DataFrame_
  else
    rbind (pd.insert 0 "week" (pd.VInt week)
             (pd.DataFrame_of_rows (table_rows table) (table_headers table)))
          (fun df => pd.insert 0 "year" (pd.VInt year) df).

(** How a call of [fetch_week_data] ends. *)
Definition week_frame (env : environment) (position : string) (week year : Z)
  : result pd.DataFrame :=
  snd (fetch_week_data env position week year).

(** The data table, if any, of the page fetched for a week: present when
    the request is answered with status 200 and the page has the table. *)
Definition week_table (env : environment) (position : string) (week year : Z)
  : option Html.table :=
  match requests_get env (week_url position week year) HEADERS with
  | Ok resp => if status_code resp =? 200 then page_table env resp else None
  | Raise _ => None
  end.

(** The frames that a week adds to [all_weeks]: its frame when the fetch
    returns one with rows, nothing otherwise. *)
Definition week_part (env : environment) (position : string) (year week : Z)
  : list pd.DataFrame :=
  match week_frame env position week year with
  | Ok df => if pd.empty df then [] else [df]
  | Raise _ => []
  end.

Definition yields_rows (env : environment) (position : string) (year week : Z)
  : bool :=
  nonempty_list (week_part env position year week).

(** The frames of all the weeks, in week-list order. *)
Definition collected (env : environment) (position : string) (year : Z)
  (weeks : list Z) : list pd.DataFrame :=
  flat_map (week_part env position year) weeks.

(** A per-week fetch failure: the request raises a request-level
    exception, or is answered with a status outside 200..299. *)
Definition fetch_fails (env : environment) (position : string) (year week : Z)
  : Prop :=
  match requests_get env (week_url position week year) HEADERS with
  | Ok resp => status_code resp < 200 \/ 299 < status_code resp
  | Raise (RequestException _) => True
  | Raise _ => False
  end.

(** The requests and the file writes of a trace, in order. *)
Fixpoint gets (tr : list event) : list string :=
  match tr with
  | [] => []
  | EvGet url :: tr' => url :: gets tr'
  | _ :: tr' => gets tr'
  end.

Fixpoint writes (tr : list event) : list (file_kind * string * pd.DataFrame) :=
  match tr with
  | [] => []
  | EvToFile kind path df :: tr' => (kind, path, df) :: writes tr'
  | _ :: tr' => writes tr'
  end.

(** The writer that an extension selects in [scrape]. *)
Definition format_kind (ext : string) : option file_kind :=
  if String.eqb ext "csv" then Some csv
  else if String.eqb ext "parquet" then Some parquet
  else if String.eqb ext "json" then Some json
  else None.

(** The path of the file of a (position, year) pair. *)
Definition output_path (output_dir position : string) (year : Z)
  (file_format : string) : string :=
  os_path_join (os_path_join output_dir position)
    (position ++ "_" ++ Py.str year ++ "." ++ Py.lower file_format).

Definition msg_scraping (position : string) (year : Z) : string :=
  String Py.newline "Scraping " ++ Py.upper position ++ " for "
  ++ Py.str year ++ "...".

Definition msg_saved (year_df : pd.DataFrame) (path : string) : string :=
  "Saved " ++ Py.str (pd.len year_df) ++ " rows → " ++ path.

Definition msg_no_data (position : string) (year : Z) : string :=
  "No data scraped for " ++ Py.upper position ++ " in " ++ Py.str year.

(** The part of [scrape] after its loop. *)
Definition write_phase (env : environment) (position : string) (year : Z)
  (output_dir file_format : string) (all_weeks : list pd.DataFrame) : M unit :=
  if nonempty_list all_weeks then
    year_df <- lift (pd.concat all_weeks) ;;
    os_makedirs env (os_path_join output_dir position) ;;
    match format_kind (Py.lower file_format) with
    | Some kind =>
        to_file env kind (output_path output_dir position year file_format)
          year_df
    | None => ret tt
    end ;;
    print (msg_saved year_df (output_path output_dir position year file_format))
  else print (msg_no_data position year).

(** How a call of [scrape] can end: without any write, or with one write
    that follows the requests of all the weeks. *)
Inductive scrape_outcome (env : environment) (position : string) (year : Z)
  (weeks : list Z) (output_dir file_format : string)
  (tr : list event) (r : result unit) : Prop :=
| NoWrite :
    writes tr = [] ->
    (r = Ok tt ->
       collected env position year weeks = []
       \/ format_kind (Py.lower file_format) = None) ->
    (forall e, r = Raise e ->
       (is_Exception e = false
        /\ exists week, In week weeks
             /\ requests_get env (week_url position week year) HEADERS = Raise e)
       \/ (collected env position year weeks <> []
           /\ (pd.concat (collected env position year weeks) = Raise e
               \/ exists year_df,
                    pd.concat (collected env position year weeks) = Ok year_df
                    /\ (makedirs_error env (os_path_join output_dir position)
                        = Some e
                        \/ exists kind,
                             to_file_error env kind
                               (output_path output_dir position year file_format)
                               year_df = Some e)))) ->
    scrape_outcome env position year weeks output_dir file_format tr r
| OneWrite (before : list event) (kind : file_kind) (year_df : pd.DataFrame)
    (saved : string) :
    tr = (before
          ++ EvToFile kind (output_path output_dir position year file_format)
               year_df
          :: [EvPrint saved])%list ->
    writes before = [] ->
    gets before = map (fun week => week_url position week year) weeks ->
    r = Ok tt ->
    format_kind (Py.lower file_format) = Some kind ->
    pd.concat (collected env position year weeks) = Ok year_df ->
    collected env position year weeks <> [] ->
    scrape_outcome env position year weeks output_dir file_format tr r.



(** The weeks of the list that yielded rows. *)
Definition yielding_week (env : environment) (position : string) (year : Z)
  (weeks : list Z) (week : Z) : Prop :=
  In week weeks /\ yields_rows env position year week = true.


(** No request for one of the weeks raises an exception that
    [except Exception] lets through. *)
Definition no_interrupt (env : environment) (position : string) (year : Z)
  (weeks : list Z) : Prop :=
  forall week e,
    In week weeks ->
    requests_get env (week_url position week year) HEADERS = Raise e ->
    is_Exception e = true.

(** ** Sample inputs *)

Definition text_cell (k : Html.cell_tag) (s : string) : Html.cell :=
  {| Html.tag := k; Html.strings := [s] |}.

Definition data_table (rows : list Html.tr) : Html.table :=
  {| Html.id := Some "data"; Html.trs := rows |}.

(** An environment that answers every request with status [status] and a
    page holding the tables [tables]; the file system never fails. *)
Definition static_site (status : Z) (tables : Html.soup) : environment :=
  {| requests_get := fun _ _ => Ok {| status_code := status; content := "page" |};
     html_parser := fun _ => Some tables;
     makedirs_error := fun _ => None;
     to_file_error := fun _ _ _ => None |}.

(** Header A, B; one well-formed row and one row with a single cell. *)
Definition table_AB : Html.table :=
  data_table [ [text_cell Html.th "A"; text_cell Html.th "B"];
               [text_cell Html.td "1"; text_cell Html.td "2"];
               [text_cell Html.td "x"] ].

(** Two rows without any cell. *)
Definition table_blank : Html.table := data_table [ []; [] ].

(** A table one of whose header labels is "week". *)
Definition table_week_label : Html.table :=
  data_table [ [text_cell Html.th "Player"; text_cell Html.th "week"];
               [text_cell Html.td "P. Manning"; text_cell Html.td "7"] ].

(** A site whose page for (qb, week 1, 2023) cannot be reached, while
    every other page holds [table_AB]. *)
Definition site_week1_down : environment :=
  {| requests_get := fun url _ =>
       if String.eqb url (week_url "qb" 1 2023)
       then Raise (RequestException "timed out")
       else Ok {| status_code := 200; content := "page" |};
     html_parser := fun _ => Some [table_AB];
     makedirs_error := fun _ => None;
     to_file_error := fun _ _ _ => None |}.

(** A site like [static_site 200 [table_AB]] whose output directory
    cannot be created. *)
Definition readonly_site : environment :=
  {| requests_get := fun _ _ => Ok {| status_code := 200; content := "page" |};
     html_parser := fun _ => Some [table_AB];
     makedirs_error := fun path =>
       Some (OSError ("[Errno 13] Permission denied: " ++ Py.repr path));
     to_file_error := fun _ _ _ => None |}.

(** A table whose [id] is not "data". *)
Definition table_other : Html.table :=
  {| Html.id := Some "other";
     Html.trs := [ [text_cell Html.th "A"]; [text_cell Html.td "1"] ] |}.

(** A site that answers every request with a page that holds no table
    and that the parser rejects. *)
Definition site_rejected : environment :=
  {| requests_get := fun _ _ =>
       Ok {| status_code := 200; content := "<![foo]><p>x</p>" |};
     html_parser := fun _ => None;
     makedirs_error := fun _ => None;
     to_file_error := fun _ _ _ => None |}.



(* ================================================================== *)
(** ** Vocabulary of the further properties *)

(** Every row of the frame has one cell per column label. *)
Definition rectangular (df : pd.DataFrame) : Prop :=
  Forall (fun row => List.length row = List.length (pd.columns df))
    (pd.data df).

(** A string without leading or trailing whitespace. *)
Definition trimmed (s : string) : Prop := Py.strip s = s.

Definition trimmed_value (v : pd.value) : Prop :=
  match v with
  | pd.VStr s => trimmed s
  | _ => True
  end.

(** The number of pauses of a trace. *)
Fixpoint sleeps (tr : list event) : nat :=
  match tr with
  | [] => O
  | EvSleep :: tr' => S (sleeps tr')
  | _ :: tr' => sleeps tr'
  end.

(** The fetch of the week returns a frame (possibly empty) instead of
    raising. *)
Definition fetch_returns (env : environment) (position : string) (year week : Z)
  : bool :=
  match week_frame env position week year with
  | Ok _ => true
  | Raise _ => false
  end.

(** The number of rows of a list of frames. *)
Definition total_rows (dfs : list pd.DataFrame) : Z :=
  fold_right (fun df n => pd.len df + n) 0 dfs.

(** The events of one iteration of the loop of [scrape]: those of the
    fetch, followed by the pause when the fetch returned, and by the error
    line when it raised. *)
Definition week_events (env : environment) (position : string) (year week : Z)
  : list event :=
  (fst (fetch_week_data env position week year)
   ++ match week_frame env position week year with
      | Ok _ => [EvSleep]
      | Raise e => [EvPrint ("Error: " ++ exn_str e)]
      end)%list.

(** The URLs of a (position, year) pair, in week order. *)
Definition pair_requests (position : string) (year : Z) (weeks : list Z)
  : list string :=
  map (fun week => week_url position week year) weeks.

(** The positions that [main] iterates over. *)
Definition resolved_positions (args : arguments) : list string :=
  if String.eqb (arg_position args) "all" then ALL_POSITIONS
  else [Py.lower (arg_position args)].

(** The (position, year) pairs in the order of the two loops of [main]. *)
Definition run_pairs (positions : list string) (years : list Z)
  : list (string * Z) :=
  flat_map (fun pos => map (pair pos) years) positions.

(** The position filter names "all" or a supported position. *)
Definition valid_position (args : arguments) : Prop :=
  arg_position args = "all" \/ In (Py.lower (arg_position args)) ALL_POSITIONS.

(** The check that [main] makes on each position. *)
Definition check_position (pos : string) : M unit :=
  if negb (pd.mem pos ALL_POSITIONS)
  then lift (Raise (ValueError ("Invalid position: " ++ pos)))
  else ret tt.

(** The call of [scrape] that [main] makes for a (position, year) pair. *)
Definition pair_scrape (env : environment) (args : arguments) (weeks : list Z)
  (pair : string * Z) : M unit :=
  scrape env (fst pair) (snd pair) weeks (arg_output args) (arg_format args).

(** The paths of the files written in a trace, in order. *)
Definition written_paths (tr : list event) : list string :=
  map (fun w => snd (fst w)) (writes tr).

(** What [os.path.join(output_dir, ...)] puts before a relative name. *)
Definition dir_prefix (output_dir : string) : string :=
  match output_dir with
  | EmptyString => EmptyString
  | _ => if ends_with_sep output_dir then output_dir else output_dir ++ "/"
  end.

(** A table whose cells carry surrounding whitespace. *)
Definition table_padded : Html.table :=
  data_table [ [text_cell Html.th "  Player "; text_cell Html.th " TD"];
               [ {| Html.tag := Html.td;
                    Html.strings := ["  P. Manning "; "  "] |};
                 text_cell Html.td " 7 " ] ].

(** A site where the request for (qb, week 2, 2023) is interrupted from
    the keyboard, while every other page holds [table_AB]. *)
Definition site_interrupt_week2 : environment :=
  {| requests_get := fun url _ =>
       if String.eqb url (week_url "qb" 2 2023)
       then Raise KeyboardInterrupt
       else Ok {| status_code := 200; content := "page" |};
     html_parser := fun _ => Some [table_AB];
     makedirs_error := fun _ => None;
     to_file_error := fun _ _ _ => None |}.

(** A site where only the page of week 1 holds [table_AB]; the pages of
    the other weeks have no data table. *)
Definition site_week1_only : environment :=
  {| requests_get := fun url _ =>
       Ok {| status_code := 200;
             content := if String.eqb url (week_url "qb" 1 2023)
                        then "week1" else "other" |};
     html_parser := fun page =>
       if String.eqb page "week1" then Some [table_AB] else Some [table_other];
     makedirs_error := fun _ => None;
     to_file_error := fun _ _ _ => None |}.

(* ================================================================== *)
(** * Properties *)

(** ** The model on small inputs *)

Example parse_3_6 : parse_range_or_all "3-6" [] = Ok [3; 4; 5; 6].
Proof. vm_compute. reflexivity. Qed.

Example digit_run_examples :
  Py.digit_run "1_2x" false 0 = Some 2%nat
  /\ Py.digit_run "1__2" false 0 = None
  /\ Py.over_limit "12x" = None.
Proof. vm_compute. auto. Qed.

(** A page that the parser rejects costs its week only: the loop of
    [scrape] catches the error and prints it. *)
Example scrape_rejected_page :
  scrape site_rejected "qb" 2023 [1] "data" "csv"
  = ([EvPrint (msg_scraping "qb" 2023);
      EvPrint (msg_fetching "qb" 1 2023); EvGet (week_url "qb" 1 2023);
      EvPrint ("Error: " ++ exn_str parser_rejected);
      EvPrint (msg_no_data "qb" 2023)], Ok tt).
Proof. vm_compute. reflexivity. Qed.

Example parse_5 : parse_range_or_all "5" [1; 2] = Ok [5].
Proof. vm_compute. reflexivity. Qed.

Example parse_6_3 : parse_range_or_all "6-3" [1; 2] = Ok [].
Proof. vm_compute. reflexivity. Qed.

Example parse_neg5 :
  parse_range_or_all "-5" [] =
  Raise (ValueError "invalid literal for int() with base 10: ''").
Proof. vm_compute. reflexivity. Qed.

Example parse_1_2_3 :
  parse_range_or_all "1-2-3" [] =
  Raise (ValueError "too many values to unpack (expected 2)").
Proof. vm_compute. reflexivity. Qed.

Example str_2023 : Py.str 2023 = "2023" /\ Py.str (-7) = "-7" /\ Py.str 0 = "0".
Proof. vm_compute. repeat split. Qed.

Example url_qb_1_2023 :
  week_url "qb" 1 2023
  = "https://www.fantasypros.com/nfl/stats/qb.php?range=week&week=1&year=2023".
Proof. vm_compute. reflexivity. Qed.

Example int_spaces_and_underscore :
  Py.int_literal " +1_0 " = Some 10 /\ Py.int_literal "1__0" = None
  /\ Py.int_literal "-7" = Some (-7) /\ Py.int_literal EmptyString = None.
Proof. vm_compute. repeat split. Qed.

Example split_leading_hyphen : Py.split "-" "-3-5" = [EmptyString; "3"; "5"].
Proof. vm_compute. reflexivity. Qed.

Example join_paths :
  os_path_join "data" "qb" = "data/qb" /\ os_path_join "data/" "qb" = "data/qb"
  /\ os_path_join "data" "/qb" = "/qb".
Proof. vm_compute. repeat split. Qed.

Example get_text_joins_stripped_nodes :
  Html.get_text_strip {| Html.tag := Html.td; Html.strings := [" a "; "  "; "b "] |}
  = "ab".
Proof. vm_compute. reflexivity. Qed.

Example fetch_table_AB :
  week_frame (static_site 200 [table_AB]) "qb" 1 2023
  = Ok {| pd.columns := ["year"; "week"; "A"; "B"];
          pd.data := [[pd.VInt 2023; pd.VInt 1; pd.VStr "1"; pd.VStr "2"]] |}.
Proof. vm_compute. reflexivity. Qed.

Example scrape_404 :
  scrape (static_site 404 [table_AB]) "qb" 2023 [1] "data" "csv"
  = ([EvPrint (msg_scraping "qb" 2023);
      EvPrint "Fetching QB stats: Week 1, Year 2023";
      EvGet (week_url "qb" 1 2023);
      EvPrint ("HTTP 404 for " ++ week_url "qb" 1 2023);
      EvSleep;
      EvPrint "No data scraped for QB in 2023"], Ok tt).
Proof. vm_compute. reflexivity. Qed.

(** ** Strings, literals and ranges *)

Section StringFacts.

Variable sep : ascii.

Lemma contains_app (s t : string) :
  Py.contains sep (s ++ t) = Py.contains sep s || Py.contains sep t.
Proof.
  induction s as [|a s IH]; simpl; [reflexivity|].
  now rewrite IH, orb_assoc.
Qed.

Lemma contains_count (s : string) :
  Py.contains sep s = true <-> (1 <= count_char sep s)%nat.
Proof.
  induction s as [|a s IH]; simpl.
  - split; [discriminate | lia].
  - destruct (Ascii.eqb a sep); simpl; [split; [lia | reflexivity] | exact IH].
Qed.

Lemma split_nonnil (s : string) : Py.split sep s <> [].
Proof.
  destruct s as [|a s]; simpl; [discriminate|].
  destruct (Ascii.eqb a sep); [discriminate|].
  destruct (Py.split sep s); discriminate.
Qed.

Lemma split_length (s : string) :
  List.length (Py.split sep s) = S (count_char sep s).
Proof.
  induction s as [|a s IH]; simpl; [reflexivity|].
  destruct (Ascii.eqb a sep); simpl; [now rewrite IH|].
  destruct (Py.split sep s) as [|p ps] eqn:E; simpl in *; [discriminate | exact IH].
Qed.

Lemma split_no_sep (s : string) :
  Py.contains sep s = false -> Py.split sep s = [s].
Proof.
  induction s as [|a s IH]; simpl; [reflexivity|].
  intros H. apply orb_false_iff in H as [Ha Hs].
  now rewrite Ha, (IH Hs).
Qed.

Lemma split_app_sep (s t : string) :
  Py.contains sep s = false ->
  Py.split sep (s ++ String sep t) = s :: Py.split sep t.
Proof.
  induction s as [|a s IH]; simpl.
  - intros _. now rewrite Ascii.eqb_refl.
  - intros H. apply orb_false_iff in H as [Ha Hs].
    now rewrite Ha, (IH Hs).
Qed.

End StringFacts.

Lemma all_chars_impl (p q : ascii -> bool) (s : string) :
  (forall c, p c = true -> q c = true) ->
  all_chars p s = true -> all_chars q s = true.
Proof.
  intros Hpq. induction s as [|a s IH]; simpl; [reflexivity|].
  intros H. apply andb_true_iff in H as [Ha Hs].
  now rewrite (Hpq _ Ha), (IH Hs).
Qed.

Lemma all_chars_app (p : ascii -> bool) (s t : string) :
  all_chars p (s ++ t) = all_chars p s && all_chars p t.
Proof.
  induction s as [|a s IH]; simpl; [reflexivity|].
  now rewrite IH, andb_assoc.
Qed.

Lemma all_chars_not_contains (p : ascii -> bool) (c : ascii) (s : string) :
  p c = false -> all_chars p s = true -> Py.contains c s = false.
Proof.
  intros Hc. induction s as [|a s IH]; simpl; [reflexivity|].
  intros H. apply andb_true_iff in H as [Ha Hs].
  rewrite (IH Hs), orb_false_r.
  destruct (Ascii.eqb a c) eqn:E; [|reflexivity].
  apply Ascii.eqb_eq in E. congruence.
Qed.

Lemma digit_not_space (c : ascii) :
  Py.is_digit c = true -> Py.c_isspace c = false.
Proof.
  unfold Py.is_digit, Py.c_isspace.
  generalize (nat_of_ascii c). intros n H.
  apply andb_true_iff in H as [H1 H2].
  apply Nat.leb_le in H1.
  destruct (9 <=? n)%nat, (n <=? 13)%nat eqn:E13, (n =? 32)%nat eqn:E32;
    simpl; try reflexivity;
    try (apply Nat.leb_le in E13; lia);
    try (apply Nat.eqb_eq in E32; lia).
Qed.

Lemma digit_not_sign (c : ascii) :
  Py.is_digit c = true ->
  Ascii.eqb c "-" = false /\ Ascii.eqb c "+" = false /\ Ascii.eqb c "_" = false.
Proof.
  intros H. repeat split;
    (match goal with |- Ascii.eqb c ?x = false =>
       destruct (Ascii.eqb c x) eqn:E; [|reflexivity];
       apply Ascii.eqb_eq in E; subst c; discriminate H
     end).
Qed.

Lemma rstrip_no_space (sp : ascii -> bool) (s : string) :
  all_chars (fun c => negb (sp c)) s = true -> Py.rstrip_with sp s = s.
Proof.
  induction s as [|a s IH]; simpl; [reflexivity|].
  intros H. apply andb_true_iff in H as [Ha Hs].
  rewrite (IH Hs). apply negb_true_iff in Ha.
  destruct s; [now rewrite Ha | reflexivity].
Qed.

Lemma lstrip_no_space (sp : ascii -> bool) (s : string) :
  all_chars (fun c => negb (sp c)) s = true -> Py.lstrip_with sp s = s.
Proof.
  destruct s as [|a s]; simpl; [reflexivity|].
  intros H. apply andb_true_iff in H as [Ha _].
  apply negb_true_iff in Ha. now rewrite Ha.
Qed.

Lemma uint_all_digits (d : uint) :
  all_chars Py.is_digit (NilEmpty.string_of_uint d) = true.
Proof. induction d; simpl; auto. Qed.

Lemma scan_digits_uint (d : uint) (acc : N) :
  Py.scan_digits (NilEmpty.string_of_uint d) false acc =
  Some (acc * 10 ^ DecimalPos.Unsigned.usize d + DecimalPos.Unsigned.of_lu (Decimal.rev d))%N.
Proof.
  revert acc. induction d; intros acc;
    [ simpl; f_equal; lia | .. ];
    cbn [NilEmpty.string_of_uint Py.scan_digits];
    (match goal with |- context [Py.is_digit ?c] =>
       change (Py.is_digit c) with true; cbv iota end);
    rewrite IHd; f_equal;
    unfold Decimal.rev; cbn [Decimal.revapp];
    rewrite (DecimalPos.Unsigned.of_lu_revapp d (_ Nil));
    cbn [DecimalPos.Unsigned.usize]; rewrite N.pow_succ_r';
    fold (Decimal.rev d);
    generalize (10 ^ DecimalPos.Unsigned.usize d)%N (DecimalPos.Unsigned.of_lu (Decimal.rev d));
    intros X Y; vm_compute Py.digit_val; cbn [DecimalPos.Unsigned.of_lu]; lia.
Qed.

(** [str] of a non-negative integer is a non-empty run of digits whose
    value is that integer. *)
Lemma str_nonneg (n : Z) :
  0 <= n ->
  exists d, Py.str n = NilEmpty.string_of_uint d /\ d <> Nil
            /\ DecimalPos.Unsigned.of_lu (Decimal.rev d) = Z.to_N n.
Proof.
  intros Hn. destruct n as [|p|p]; [| |lia].
  - exists (D0 Nil). repeat split. discriminate.
  - exists (Pos.to_uint p). split; [|split].
    + unfold Py.str. cbn [Z.to_int NilZero.string_of_int].
      pose proof (DecimalPos.Unsigned.to_uint_nonnil p) as Hnn.
      unfold NilZero.string_of_uint.
      destruct (Pos.to_uint p); [congruence | reflexivity ..].
    + apply DecimalPos.Unsigned.to_uint_nonnil.
    + rewrite <- DecimalPos.Unsigned.of_uint_alt. apply DecimalPos.Unsigned.of_to.
Qed.

Lemma str_nonneg_digits (n : Z) :
  0 <= n -> all_chars Py.is_digit (Py.str n) = true /\ Py.str n <> EmptyString.
Proof.
  intros Hn. destruct (str_nonneg n Hn) as (d & -> & Hd & _).
  split; [apply uint_all_digits|].
  destruct d; simpl; congruence.
Qed.

(** *** The number of digits of [str n] *)

Lemma count_digits_le (s : string) :
  (Py.count_digits s <= String.length s)%nat.
Proof.
  induction s as [|c s IH]; simpl; [lia|].
  destruct (Py.is_digit c); lia.
Qed.

Lemma count_digits_all (s : string) :
  all_chars Py.is_digit s = true -> Py.count_digits s = String.length s.
Proof.
  induction s as [|c s IH]; simpl; [reflexivity|].
  intros H. apply andb_true_iff in H as [Hc Hs].
  rewrite Hc. f_equal. auto.
Qed.

Lemma uint_length (d : uint) :
  String.length (NilEmpty.string_of_uint d)
  = N.to_nat (DecimalPos.Unsigned.usize d).
Proof.
  induction d; cbn [NilEmpty.string_of_uint String.length
                    DecimalPos.Unsigned.usize];
    [reflexivity | rewrite IHd; lia ..].
Qed.

Lemma uint_value_upper (d : uint) :
  (DecimalPos.Unsigned.of_lu (Decimal.rev d)
   < 10 ^ DecimalPos.Unsigned.usize d)%N.
Proof.
  induction d;
    [ vm_compute; reflexivity | .. ];
    unfold Decimal.rev; cbn [Decimal.revapp];
    rewrite (DecimalPos.Unsigned.of_lu_revapp d (_ Nil));
    cbn [DecimalPos.Unsigned.usize]; rewrite N.pow_succ_r';
    fold (Decimal.rev d);
    revert IHd;
    generalize (10 ^ DecimalPos.Unsigned.usize d)%N
               (DecimalPos.Unsigned.of_lu (Decimal.rev d));
    intros X Y HY; cbn [DecimalPos.Unsigned.of_lu]; lia.
Qed.

Lemma uint_value_lower (d : uint) :
  d <> Nil -> (forall d', d <> D0 d') ->
  (10 ^ DecimalPos.Unsigned.usize d
   <= 10 * DecimalPos.Unsigned.of_lu (Decimal.rev d))%N.
Proof.
  intros Hnil Hzero.
  destruct d; [ congruence | exfalso; eapply Hzero; reflexivity | .. ];
    unfold Decimal.rev; cbn [Decimal.revapp];
    rewrite (DecimalPos.Unsigned.of_lu_revapp d (_ Nil));
    cbn [DecimalPos.Unsigned.usize]; rewrite N.pow_succ_r';
    fold (Decimal.rev d);
    generalize (10 ^ DecimalPos.Unsigned.usize d)%N
               (DecimalPos.Unsigned.of_lu (Decimal.rev d));
    intros X Y; cbn [DecimalPos.Unsigned.of_lu]; lia.
Qed.

(** The decimal form of a positive number does not start with a zero. *)
Lemma to_uint_head (p : positive) (d' : uint) : Pos.to_uint p <> D0 d'.
Proof.
  intros E.
  pose proof (DecimalPos.Unsigned.to_of (Pos.to_uint p)) as H.
  rewrite DecimalPos.Unsigned.of_to in H. cbn [N.to_uint] in H.
  unfold unorm in H.
  destruct (nzhead (Pos.to_uint p)) eqn:En.
  - now apply (DecimalPos.Unsigned.to_uint_nonzero p).
  - apply (DecimalFacts.nzhead_nonzero _ _ En).
  - congruence.
  - congruence.
  - congruence.
  - congruence.
  - congruence.
  - congruence.
  - congruence.
  - congruence.
  - congruence.
Qed.

Lemma str_pos (p : positive) :
  Py.str (Zpos p) = NilEmpty.string_of_uint (Pos.to_uint p).
Proof.
  unfold Py.str. cbn [Z.to_int NilZero.string_of_int].
  pose proof (DecimalPos.Unsigned.to_uint_nonnil p) as Hnn.
  unfold NilZero.string_of_uint.
  destruct (Pos.to_uint p); [congruence | reflexivity ..].
Qed.

(** [str n] has at most [k] digits exactly when [n] is below [10 ^ k]. *)
Lemma str_length_bound (n : Z) (k : nat) :
  0 <= n -> (0 < k)%nat ->
  n < 10 ^ Z.of_nat k <-> (String.length (Py.str n) <= k)%nat.
Proof.
  intros Hn Hk. destruct n as [|p|p]; [| |lia].
  - change (Py.str 0) with "0". cbn [String.length].
    split; [lia|]. intros _. apply Z.pow_pos_nonneg; lia.
  - rewrite str_pos, uint_length.
    pose proof (uint_value_upper (Pos.to_uint p)) as Hup.
    pose proof (uint_value_lower (Pos.to_uint p)
                  (DecimalPos.Unsigned.to_uint_nonnil p) (to_uint_head p)) as Hlo.
    rewrite <- DecimalPos.Unsigned.of_uint_alt, DecimalPos.Unsigned.of_to
      in Hup, Hlo.
    assert (Hz : Zpos p < 10 ^ Z.of_nat k <-> (Npos p < 10 ^ N.of_nat k)%N).
    { rewrite N2Z.inj_lt, N2Z.inj_pow, nat_N_Z. reflexivity. }
    rewrite Hz. clear Hz.
    set (u := DecimalPos.Unsigned.usize (Pos.to_uint p)) in *.
    split; intros H.
    + assert (Hlt : (10 ^ u < 10 ^ N.succ (N.of_nat k))%N).
      { rewrite N.pow_succ_r'. revert Hlo H.
        generalize (10 ^ u)%N (10 ^ N.of_nat k)%N. intros; lia. }
      apply N.pow_lt_mono_r_iff in Hlt; lia.
    + assert (Hle : (10 ^ u <= 10 ^ N.of_nat k)%N)
        by (apply N.pow_le_mono_r; lia).
      revert Hup Hle. generalize (10 ^ u)%N (10 ^ N.of_nat k)%N. intros; lia.
Qed.

Lemma int_literal_digits (s : string) :
  all_chars Py.is_digit s = true -> s <> EmptyString ->
  Py.int_literal s
  = if (Py.int_max_str_digits <? String.length s)%nat then None
    else option_map Z.of_N (Py.scan_digits s false 0%N).
Proof.
  intros Hdig Hne. unfold Py.int_literal, Py.strip_with.
  assert (Hns : all_chars (fun c => negb (Py.c_isspace c)) s = true).
  { eapply all_chars_impl; [|exact Hdig].
    intros c Hc. now rewrite (digit_not_space c Hc). }
  rewrite (lstrip_no_space _ _ Hns), (rstrip_no_space _ _ Hns).
  cbv zeta. rewrite (count_digits_all _ Hdig).
  destruct (Py.int_max_str_digits <? String.length s)%nat; [reflexivity|].
  destruct s as [|c body]; [congruence|].
  simpl in Hdig. apply andb_true_iff in Hdig as [Hc _].
  destruct (digit_not_sign c Hc) as (-> & -> & Hu).
  unfold Py.digits_value. now rewrite Hu.
Qed.

Lemma int_literal_str (n : Z) :
  0 <= n -> n < 10 ^ 4300 -> Py.int_literal (Py.str n) = Some n.
Proof.
  intros Hn Hlim.
  apply (str_length_bound n Py.int_max_str_digits Hn) in Hlim;
    [|unfold Py.int_max_str_digits; lia].
  destruct (str_nonneg_digits n Hn) as [Hdig Hne].
  rewrite (int_literal_digits _ Hdig Hne).
  apply Nat.ltb_ge in Hlim. rewrite Hlim.
  destruct (str_nonneg n Hn) as (d & E & Hd & Hv).
  rewrite E, scan_digits_uint, Hv. simpl. f_equal. lia.
Qed.


Lemma int_str (n : Z) : 0 <= n -> n < 10 ^ 4300 -> Py.int (Py.str n) = Ok n.
Proof. intros Hn Hlim. unfold Py.int. now rewrite int_literal_str. Qed.

Lemma map_seq_ascending (lo : Z) (n : nat) :
  map (fun i => lo + Z.of_nat i) (seq 0 n) = ascending_from lo n.
Proof.
  revert lo. induction n as [|n IH]; intros lo; [reflexivity|].
  cbn [seq map ascending_from]. f_equal; [lia|].
  rewrite <- seq_shift, map_map, <- IH.
  apply map_ext. intros i. lia.
Qed.

Lemma range_inclusive (lo hi : Z) :
  Py.range lo (hi + 1) = inclusive_sequence lo hi.
Proof.
  unfold Py.range, inclusive_sequence.
  replace (hi + 1 - lo) with (hi - lo + 1) by lia.
  apply map_seq_ascending.
Qed.

Lemma ascending_from_In (lo : Z) (n : nat) (z : Z) :
  In z (ascending_from lo n) <-> lo <= z < lo + Z.of_nat n.
Proof.
  revert lo. induction n as [|n IH]; intros lo; simpl; [lia|].
  rewrite IH. lia.
Qed.

Lemma ascending_from_length (lo : Z) (n : nat) :
  List.length (ascending_from lo n) = n.
Proof. revert lo. induction n; intros; simpl; auto. Qed.

Lemma ascending_from_nth (lo : Z) (n i : nat) :
  (i < n)%nat -> nth i (ascending_from lo n) 0 = lo + Z.of_nat i.
Proof.
  revert lo i. induction n as [|n IH]; intros lo i Hi; [lia|].
  destruct i as [|i]; simpl; [lia|].
  rewrite IH by lia. lia.
Qed.

Lemma inclusive_sequence_empty (lo hi : Z) :
  hi < lo -> inclusive_sequence lo hi = [].
Proof.
  intros H. unfold inclusive_sequence.
  replace (Z.to_nat (hi - lo + 1)) with O by lia. reflexivity.
Qed.

Lemma lstrip_decompose (sp : ascii -> bool) (s : string) :
  exists ws, s = ws ++ Py.lstrip_with sp s /\ all_chars sp ws = true.
Proof.
  induction s as [|a s (ws & E & Hws)]; simpl.
  - now exists EmptyString.
  - destruct (sp a) eqn:Ha.
    + exists (String a ws). simpl. now rewrite Ha, Hws, <- E.
    + now exists EmptyString.
Qed.

Lemma rstrip_decompose (sp : ascii -> bool) (s : string) :
  exists ws, s = Py.rstrip_with sp s ++ ws /\ all_chars sp ws = true.
Proof.
  induction s as [|a s (ws & E & Hws)]; simpl.
  - now exists EmptyString.
  - destruct (Py.rstrip_with sp s) as [|b r] eqn:Er.
    + destruct (sp a) eqn:Ha.
      * exists (String a s). simpl in *. subst s. now rewrite Ha, Hws.
      * exists ws. simpl in *. now subst s.
    + exists ws. simpl in *. now rewrite <- E.
Qed.

Lemma strip_decompose (sp : ascii -> bool) (s : string) :
  exists ws1 ws2, s = ws1 ++ Py.strip_with sp s ++ ws2
                  /\ all_chars sp ws1 = true /\ all_chars sp ws2 = true.
Proof.
  destruct (lstrip_decompose sp s) as (ws1 & E1 & H1).
  destruct (rstrip_decompose sp (Py.lstrip_with sp s)) as (ws2 & E2 & H2).
  exists ws1, ws2. unfold Py.strip_with. now rewrite <- E2.
Qed.

Lemma strip_all_space (sp : ascii -> bool) (s : string) :
  all_chars sp s = true -> Py.strip_with sp s = EmptyString.
Proof.
  unfold Py.strip_with. intros H.
  assert (E : Py.lstrip_with sp s = EmptyString).
  { induction s as [|a s IH]; simpl in *; [reflexivity|].
    apply andb_true_iff in H as [Ha Hs]. now rewrite Ha, IH. }
  now rewrite E.
Qed.

Lemma int_literal_all_space (s : string) :
  all_chars Py.c_isspace s = true -> Py.int_literal s = None.
Proof.
  intros H. unfold Py.int_literal. now rewrite strip_all_space.
Qed.

Lemma scan_digits_chars (s : string) (b : bool) (acc n : N) :
  Py.scan_digits s b acc = Some n -> all_chars digit_or_underscore s = true.
Proof.
  revert b acc. induction s as [|c s IH]; intros b acc; simpl; [reflexivity|].
  unfold digit_or_underscore at 1.
  destruct (Py.is_digit c); simpl; [apply IH|].
  destruct (Ascii.eqb c "_"); [|discriminate].
  destruct b; [discriminate | apply IH].
Qed.

Lemma digits_value_chars (s : string) (n : N) :
  Py.digits_value s = Some n -> all_chars digit_or_underscore s = true.
Proof.
  unfold Py.digits_value. destruct s as [|c s]; [discriminate|].
  destruct (Ascii.eqb c "_"); [discriminate|]. apply scan_digits_chars.
Qed.

Lemma digits_value_no_hyphen (s : string) (n : N) :
  Py.digits_value s = Some n -> Py.contains "-" s = false.
Proof.
  intros H. apply (all_chars_not_contains digit_or_underscore);
    [reflexivity | eapply digits_value_chars; eauto].
Qed.

Lemma space_no_hyphen (s : string) :
  all_chars Py.c_isspace s = true -> Py.contains "-" s = false.
Proof. apply all_chars_not_contains. reflexivity. Qed.

(** A string that [int] accepts and that contains a hyphen is a negative
    literal: whitespace, the sign, and a hyphen-free rest. *)
Lemma negative_literal_shape (s : string) (n : Z) :
  Py.int_literal s = Some n -> Py.contains "-" s = true ->
  exists ws rest, s = ws ++ String "-" rest /\ all_chars Py.c_isspace ws = true.
Proof.
  intros Hn Hc.
  destruct (strip_decompose Py.c_isspace s) as (ws1 & ws2 & E & H1 & H2).
  unfold Py.int_literal in Hn. cbv zeta in Hn.
  destruct (Py.int_max_str_digits
            <? Py.count_digits (Py.strip_with Py.c_isspace s))%nat;
    [discriminate|].
  destruct (Py.strip_with Py.c_isspace s) as [|c body] eqn:Et; [discriminate|].
  assert (Ht : Py.contains "-" (String c body) = true).
  { rewrite E, !contains_app, (space_no_hyphen _ H1), (space_no_hyphen _ H2) in Hc.
    now rewrite orb_false_r in Hc. }
  destruct (Ascii.eqb c "-") eqn:Ec.
  - apply Ascii.eqb_eq in Ec. subst c.
    exists ws1, (body ++ ws2). split; [exact E | exact H1].
  - exfalso. simpl in Ht. rewrite Ec in Ht. simpl in Ht.
    destruct (Ascii.eqb c "+").
    + destruct (Py.digits_value body) as [m|] eqn:Ed; [|discriminate].
      rewrite (digits_value_no_hyphen _ _ Ed) in Ht. discriminate.
    + destruct (Py.digits_value (String c body)) as [m|] eqn:Ed; [|discriminate].
      apply digits_value_no_hyphen in Ed. simpl in Ed.
      rewrite Ec in Ed. simpl in Ed. congruence.
Qed.

Lemma int_None (s : string) :
  Py.int_literal s = None -> exists msg, Py.int s = Raise (ValueError msg).
Proof.
  intros H. unfold Py.int. rewrite H. destruct (Py.over_limit s); eauto.
Qed.

Lemma int_Some (s : string) (z : Z) :
  Py.int_literal s = Some z -> Py.int s = Ok z.
Proof. intros H. unfold Py.int. now rewrite H. Qed.

Lemma int_cases (s : string) :
  (exists z, Py.int s = Ok z /\ Py.int_literal s = Some z)
  \/ (exists msg, Py.int s = Raise (ValueError msg) /\ Py.int_literal s = None).
Proof.
  unfold Py.int. destruct (Py.int_literal s); eauto.
  destruct (Py.over_limit s); eauto.
Qed.

Lemma unpack2_first_invalid (a : string) (rest : list string) :
  Py.int_literal a = None ->
  exists msg, Py.unpack2_int (a :: rest) = Raise (ValueError msg).
Proof.
  intros H. destruct (int_None a H) as (msg & E).
  exists msg. destruct rest as [|b [|c r]]; simpl; now rewrite E.
Qed.

Lemma unpack2_too_many (a b c : string) (r : list string) :
  exists msg, Py.unpack2_int (a :: b :: c :: r) = Raise (ValueError msg).
Proof.
  simpl.
  destruct (int_cases a) as [(x & -> & _)|(m & -> & _)]; simpl; eauto.
  destruct (int_cases b) as [(y & -> & _)|(m & -> & _)]; simpl; eauto.
  destruct (int_cases c) as [(z & -> & _)|(m & -> & _)]; simpl; eauto.
Qed.

Lemma not_all_of_hyphen (value : string) :
  Py.contains "-" value = true -> String.eqb value "all" = false.
Proof.
  intros H. destruct (String.eqb value "all") eqn:E; [|reflexivity].
  apply String.eqb_eq in E. subst. discriminate.
Qed.

Lemma parse_range_branch (value : string) (D : list Z) :
  Py.contains "-" value = true ->
  parse_range_or_all value D =
  rbind (Py.unpack2_int (Py.split "-" value))
        (fun '(start, end_) => Ok (Py.range start (end_ + 1))).
Proof.
  intros H. unfold parse_range_or_all.
  now rewrite (not_all_of_hyphen _ H), H.
Qed.

Lemma two_parts_hyphen (value a b : string) :
  Py.split "-" value = [a; b] -> Py.contains "-" value = true.
Proof.
  intros H. destruct (Py.contains "-" value) eqn:E; [reflexivity|].
  rewrite (split_no_sep _ _ E) in H. discriminate.
Qed.

(* ------------------------------------------------------------------ *)
(** *** Claims about the range selector *)

(** C8. [parse_range_or_all "all" D] returns the default range [D]
    itself, whatever [D] is: same elements, same order. *)
Theorem resolve_all_is_identity (D : list Z) :
  parse_range_or_all "all" D = Ok D.
Proof. reflexivity. Qed.

Lemma digit_below_limit (n : Z) : n < 10 -> n < 10 ^ 4300.
Proof.
  intros H. apply Z.lt_le_trans with (10 ^ 1); [exact H|].
  apply Z.pow_le_mono_r; lia.
Qed.





(** C4. A selector that splits on "-" into two valid integers whose end
    precedes its start resolves to the empty sequence: no error is raised
    and the bounds are not swapped. *)
Theorem resolve_reversed_range_empty (value a b : string) (s e : Z)
  (D : list Z) :
  Py.split "-" value = [a; b] ->
  Py.int_literal a = Some s -> Py.int_literal b = Some e ->
  e < s ->
  parse_range_or_all value D = Ok [].
Proof.
  intros Hsplit Ha Hb Hlt.
  rewrite parse_range_branch by (eapply two_parts_hyphen; eauto).
  rewrite Hsplit. cbn [Py.unpack2_int].
  rewrite (int_Some _ _ Ha), (int_Some _ _ Hb). cbn [rbind].
  rewrite range_inclusive. f_equal. now apply inclusive_sequence_empty.
Qed.

Lemma resolve_reversed_range_empty_witness :
  parse_range_or_all "6-3" [1; 2; 3] = Ok [].
Proof.
  apply (resolve_reversed_range_empty "6-3" "6" "3" 6 3);
    [reflexivity | reflexivity | reflexivity | lia].
Defined.

(** C10. A selector other than "all" that contains a "-" is handled by
    the range branch only: either it splits on "-" into exactly two parts
    that [int] accepts, and the range between them is returned, or a
    [ValueError] is raised.  Hence a string that [int] would accept as a
    single (negative) integer is rejected, and so is every string with two
    or more "-". *)
Theorem hyphen_takes_range_branch (value : string) (D : list Z) :
  value <> "all" -> Py.contains "-" value = true ->
  ((exists a b s e,
       Py.split "-" value = [a; b]
       /\ Py.int_literal a = Some s /\ Py.int_literal b = Some e
       /\ parse_range_or_all value D = Ok (Py.range s (e + 1)))
   \/ ((forall a b, Py.split "-" value = [a; b] ->
          Py.int_literal a = None \/ Py.int_literal b = None)
       /\ exists msg, parse_range_or_all value D = Raise (ValueError msg)))
  /\ (forall n, Py.int_literal value = Some n ->
        exists msg, parse_range_or_all value D = Raise (ValueError msg))
  /\ ((2 <= count_char "-" value)%nat ->
        exists msg, parse_range_or_all value D = Raise (ValueError msg)).
Proof.
  intros _ Hc. rewrite (parse_range_branch value D Hc).
  pose proof (split_length "-" value) as Hlen.
  pose proof (proj1 (contains_count "-" value) Hc) as Hcount.
  assert (Hraise : forall parts msg,
             Py.unpack2_int parts = Raise (ValueError msg) ->
             rbind (Py.unpack2_int parts)
               (fun '(start, end_) => Ok (Py.range start (end_ + 1)))
             = Raise (ValueError msg)).
  { intros parts msg E. now rewrite E. }
  split; [|split].
  - destruct (Py.split "-" value) as [|a [|b [|c r]]] eqn:Es;
      simpl in Hlen; try lia.
    + destruct (Py.int_literal a) as [s|] eqn:Ha.
      * destruct (Py.int_literal b) as [e|] eqn:Hb.
        -- left. exists a, b, s, e. repeat split; auto.
           cbn [Py.unpack2_int].
           now rewrite (int_Some _ _ Ha), (int_Some _ _ Hb).
        -- right. split.
           ++ intros a' b' E. injection E as <- <-. now right.
           ++ destruct (int_None b Hb) as (msg & Eb). exists msg.
              cbn [Py.unpack2_int]. now rewrite (int_Some _ _ Ha), Eb.
      * right. split.
        -- intros a' b' E. injection E as <- <-. now left.
        -- destruct (unpack2_first_invalid a [b] Ha) as (msg & E).
           exists msg. now apply Hraise.
    + right. split; [discriminate|].
      destruct (unpack2_too_many a b c r) as (msg & E).
      exists msg. now apply Hraise.
  - intros n Hn.
    destruct (negative_literal_shape value n Hn Hc) as (ws & rest & E & Hws).
    rewrite E, (split_app_sep _ _ _ (space_no_hyphen _ Hws)).
    destruct (unpack2_first_invalid ws (Py.split "-" rest)
                (int_literal_all_space _ Hws)) as (msg & Em).
    exists msg. now apply Hraise.
  - intros H2.
    destruct (Py.split "-" value) as [|a [|b [|c r]]] eqn:Es;
      simpl in Hlen; try lia.
    destruct (unpack2_too_many a b c r) as (msg & E).
    exists msg. now apply Hraise.
Qed.

Lemma hyphen_takes_range_branch_witness :
  (exists msg, parse_range_or_all "-5" [1; 2] = Raise (ValueError msg))
  /\ (exists msg, parse_range_or_all "1-2-3" [1; 2] = Raise (ValueError msg)).
Proof.
  assert (H5 : "-5" <> "all") by discriminate.
  assert (H123 : "1-2-3" <> "all") by discriminate.
  split.
  - exact (proj1 (proj2 (hyphen_takes_range_branch "-5" [1; 2] H5 eq_refl))
             (-5) eq_refl).
  - exact (proj2 (proj2 (hyphen_takes_range_branch "1-2-3" [1; 2] H123 eq_refl))
             ltac:(simpl; lia)).
Defined.

(** C9. With the current calendar year [Y] given, the default year range
    of [main] is the ascending sequence 2002, 2003, ..., Y-2: it holds
    exactly the years from 2002 to Y-2, each once, in increasing order. *)
Theorem default_year_range (Y : Z) :
  full_years Y = inclusive_sequence 2002 (Y - 2)
  /\ (forall z, In z (full_years Y) <-> 2002 <= z <= Y - 2)
  /\ List.length (full_years Y) = Z.to_nat (Y - 2003)
  /\ (forall i, (i < List.length (full_years Y))%nat ->
        nth i (full_years Y) 0 = 2002 + Z.of_nat i).
Proof.
  assert (E : full_years Y = inclusive_sequence 2002 (Y - 2)).
  { unfold full_years. replace (Y - 1) with (Y - 2 + 1) by lia.
    apply range_inclusive. }
  rewrite E. unfold inclusive_sequence.
  replace (Y - 2 - 2002 + 1) with (Y - 2003) by lia.
  split; [reflexivity|]. split; [|split].
  - intros z. rewrite ascending_from_In. lia.
  - apply ascending_from_length.
  - intros i Hi. rewrite ascending_from_length in Hi.
    now apply ascending_from_nth.
Qed.

Lemma default_year_range_witness :
  full_years 2026 = inclusive_sequence 2002 2024
  /\ (In 2024 (full_years 2026) /\ ~ In 2025 (full_years 2026))
  /\ nth 0 (full_years 2026) 0 = 2002.
Proof.
  destruct (default_year_range 2026) as (E & Hin & Hlen & Hnth).
  split; [exact E|]. split.
  - split.
    + apply (proj2 (Hin 2024)). lia.
    + intros H. apply (proj1 (Hin 2025)) in H. lia.
  - apply (Hnth 0%nat). rewrite Hlen. lia.
Defined.

(* ------------------------------------------------------------------ *)
(** ** Extraction of one page *)

Lemma mem_In (c : string) (cs : list string) :
  pd.mem c cs = true <-> In c cs.
Proof.
  unfold pd.mem. rewrite existsb_exists. split.
  - intros (x & Hx & E). apply String.eqb_eq in E. now subst.
  - intros H. exists c. split; [exact H | apply String.eqb_refl].
Qed.

Lemma mem_not_In (c : string) (cs : list string) :
  ~ In c cs -> pd.mem c cs = false.
Proof.
  intros H. destruct (pd.mem c cs) eqn:E; [|reflexivity].
  now apply mem_In in E.
Qed.

Lemma rows_loop_filter (headers : list string) (trs : list Html.tr)
  (rows : list (list string)) :
  rows_loop headers trs rows
  = (rows ++ filter (row_kept headers) (map row_cells trs))%list.
Proof.
  revert rows. induction trs as [|tr rest IH]; intros rows; simpl.
  - now rewrite app_nil_r.
  - fold (row_cells tr). fold (row_kept headers (row_cells tr)).
    destruct (row_kept headers (row_cells tr)); rewrite IH; [|reflexivity].
    now rewrite <- app_assoc.
Qed.

Lemma table_rows_filter (table : Html.table) :
  table_rows table
  = filter (row_kept (table_headers table))
      (map row_cells (tl (Html.find_all_tr table))).
Proof. unfold table_rows. now rewrite rows_loop_filter. Qed.

Lemma table_rows_width (table : Html.table) :
  Forall (fun cells => List.length cells = List.length (table_headers table)
                       /\ cells <> [])
    (table_rows table).
Proof.
  rewrite table_rows_filter. apply Forall_forall. intros cells H.
  apply filter_In in H as [_ H]. unfold row_kept in H.
  apply andb_true_iff in H as [Hne Hlen]. apply Nat.eqb_eq in Hlen.
  split; [exact Hlen|]. destruct cells; [discriminate | discriminate].
Qed.

(** [fetch_week_data], case by case. *)
Lemma fetch_week_data_eq (env : environment) (position : string)
  (week year : Z) :
  fetch_week_data env position week year =
  let url := week_url position week year in
  let started := [EvPrint (msg_fetching position week year); EvGet url] in
  match requests_get env url HEADERS with
  | Raise e => (started, Raise e)
  | Ok resp =>
      if negb (status_code resp =? 200)
      then ((started ++ [EvPrint (msg_http resp url)])%list, Ok pd.DataFrame_)
      else match page_table env resp with
           | None =>
               if page_parsed env resp
               then ((started
                      ++ [EvPrint (msg_no_table position week year)])%list,
                     Ok pd.DataFrame_)
               else (started, Raise parser_rejected)
           | Some table => (started, table_frame table week year)
           end
  end.
Proof.
  unfold fetch_week_data, BeautifulSoup, r_get, print, emit, lift, bind, ret,
    page_table, page_parsed, table_frame, msg_fetching, msg_http, msg_no_table.
  cbv zeta.
  destruct (requests_get env (week_url position week year) HEADERS) as [resp|e];
    [|reflexivity].
  destruct (negb (status_code resp =? 200)); [reflexivity|].
  destruct (html_parser env (content resp)) as [soup|]; [|reflexivity].
  destruct (Html.find_table soup "data") as [table|]; [|reflexivity].
  destruct (negb (nonempty_list (table_rows table))); [reflexivity|].
  destruct (pd.insert 0 "week" (pd.VInt week)
              (pd.DataFrame_of_rows (table_rows table) (table_headers table)))
    as [df|e]; [|reflexivity].
  cbn [rbind]. destruct (pd.insert 0 "year" (pd.VInt year) df); reflexivity.
Qed.

Lemma insert_front_ok (column : string) (v : pd.value) (df : pd.DataFrame) :
  pd.mem column (pd.columns df) = false ->
  pd.insert 0 column v df
  = Ok {| pd.columns := column :: pd.columns df;
          pd.data := map (cons v) (pd.data df) |}.
Proof. intros H. unfold pd.insert. now rewrite H. Qed.

Lemma insert_clash (loc : nat) (column : string) (v : pd.value)
  (df : pd.DataFrame) :
  pd.mem column (pd.columns df) = true ->
  pd.insert loc column v df
  = Raise (ValueError ("cannot insert " ++ column ++ ", already exists")).
Proof. intros H. unfold pd.insert. now rewrite H. Qed.

Lemma insert_front_inv (column : string) (v : pd.value) (df df' : pd.DataFrame) :
  pd.insert 0 column v df = Ok df' ->
  pd.mem column (pd.columns df) = false
  /\ df' = {| pd.columns := column :: pd.columns df;
              pd.data := map (cons v) (pd.data df) |}.
Proof.
  intros H. destruct (pd.mem column (pd.columns df)) eqn:E.
  - rewrite (insert_clash _ _ _ _ E) in H. discriminate.
  - rewrite (insert_front_ok _ _ _ E) in H. injection H as <-. now split.
Qed.

(** The frame built from a table whose labels do not clash with the two
    added columns. *)
Lemma table_frame_ok (table : Html.table) (week year : Z) :
  ~ In "week" (table_headers table) -> ~ In "year" (table_headers table) ->
  table_frame table week year =
  Ok (if nonempty_list (table_rows table)
      then {| pd.columns := "year" :: "week" :: table_headers table;
              pd.data := map (stat_row year week) (table_rows table) |}
      else pd.DataFrame_).
Proof.
  intros Hw Hy. unfold table_frame.
  destruct (nonempty_list (table_rows table)); [|reflexivity].
  cbn [negb]. rewrite insert_front_ok by now apply mem_not_In.
  cbn [rbind]. rewrite insert_front_ok.
  - cbn [pd.DataFrame_of_rows pd.columns pd.data]. do 2 f_equal.
    rewrite !map_map. reflexivity.
  - apply mem_not_In. intros [E|H]; [discriminate | contradiction].
Qed.

(** A frame with rows comes from a data table, carries its labels after
    "year" and "week", and holds one StatRow per kept row. *)
Lemma table_frame_shape (table : Html.table) (week year : Z) (df : pd.DataFrame) :
  table_frame table week year = Ok df -> pd.empty df = false ->
  df = {| pd.columns := "year" :: "week" :: table_headers table;
          pd.data := map (stat_row year week) (table_rows table) |}
  /\ table_rows table <> []
  /\ ~ In "week" (table_headers table) /\ ~ In "year" (table_headers table).
Proof.
  unfold table_frame. intros H Hne.
  destruct (table_rows table) as [|r rs] eqn:Er.
  - cbn in H. injection H as <-. discriminate.
  - cbn [nonempty_list negb] in H.
    destruct (pd.insert 0 "week" (pd.VInt week)
                (pd.DataFrame_of_rows (r :: rs) (table_headers table)))
      as [df1|e] eqn:E1; [|discriminate].
    cbn [rbind] in H.
    apply insert_front_inv in E1 as [Hw ->].
    apply insert_front_inv in H as [Hy ->].
    cbn [pd.DataFrame_of_rows pd.columns pd.data] in *.
    repeat split.
    + f_equal. rewrite !map_map. reflexivity.
    + discriminate.
    + intros Hin. apply mem_In in Hin. congruence.
    + intros Hin. assert (H : In "year" ("week" :: table_headers table))
        by now right.
      apply mem_In in H. congruence.
Qed.

(** What a successful fetch of a page with a data table returns. *)
Lemma week_frame_table (env : environment) (position : string) (week year : Z)
  (resp : response) (table : Html.table) :
  requests_get env (week_url position week year) HEADERS = Ok resp ->
  status_code resp = 200 ->
  page_table env resp = Some table ->
  fetch_week_data env position week year
  = ([EvPrint (msg_fetching position week year);
      EvGet (week_url position week year)],
     table_frame table week year).
Proof.
  intros Hget Hst Htab. rewrite fetch_week_data_eq. cbv zeta.
  now rewrite Hget, Hst, Htab.
Qed.

(** C1, as amended.  From a fetched data table whose header labels are
    neither "year" nor "week", exactly the rows after the first one that
    have at least one cell and as many cells as there are header labels
    become StatRows, in table order; every other row is dropped without
    any message. *)
Theorem extract_keeps_matching_rows (env : environment) (position : string)
  (week year : Z) (resp : response) (table : Html.table) :
  requests_get env (week_url position week year) HEADERS = Ok resp ->
  status_code resp = 200 ->
  page_table env resp = Some table ->
  ~ In "week" (table_headers table) -> ~ In "year" (table_headers table) ->
  exists df,
    fetch_week_data env position week year
    = ([EvPrint (msg_fetching position week year);
        EvGet (week_url position week year)], Ok df)
    /\ pd.data df
       = map (stat_row year week)
           (filter (row_kept (table_headers table))
              (map row_cells (tl (Html.find_all_tr table)))).
Proof.
  intros Hget Hst Htab Hw Hy.
  rewrite (week_frame_table _ _ _ _ _ _ Hget Hst Htab),
    (table_frame_ok _ _ _ Hw Hy).
  eexists. split; [reflexivity|].
  rewrite <- table_rows_filter.
  destruct (table_rows table); reflexivity.
Qed.

Lemma extract_keeps_matching_rows_witness :
  exists df,
    fetch_week_data (static_site 200 [table_AB]) "qb" 1 2023
    = ([EvPrint "Fetching QB stats: Week 1, Year 2023";
        EvGet (week_url "qb" 1 2023)], Ok df)
    /\ pd.data df = [stat_row 2023 1 ["1"; "2"]].
Proof.
  refine (extract_keeps_matching_rows (static_site 200 [table_AB]) "qb" 1 2023
            {| status_code := 200; content := "page" |} table_AB
            eq_refl eq_refl eq_refl _ _);
    simpl; intuition discriminate.
Defined.

(** C1, as stated, fails in two ways.  A row without cells under a table
    without header labels has as many cells as labels (none), yet it is
    dropped; and a table that has "week" among its labels yields no
    StatRow at all, although its row has the right number of cells. *)
Lemma extract_drops_cell_less_row :
  (week_frame (static_site 200 [table_blank]) "qb" 1 2023 = Ok pd.DataFrame_
   /\ count_matching_rows 2023 1 table_blank = [stat_row 2023 1 []]
   /\ pd.data pd.DataFrame_ <> count_matching_rows 2023 1 table_blank)
  /\ (week_frame (static_site 200 [table_week_label]) "qb" 1 2023
      = Raise (ValueError "cannot insert week, already exists")
      /\ count_matching_rows 2023 1 table_week_label
         = [stat_row 2023 1 ["P. Manning"; "7"]]).
Proof.
  split; [split; [|split] | split]; try reflexivity.
  vm_compute. discriminate.
Qed.

(** C5, as amended.  When the parser accepts the fetched page and the
    document has no table whose id is "data", the extraction returns the
    empty frame and raises nothing; on a 200 response it prints the
    "No table found" line (otherwise the HTTP status line). *)
Theorem no_table_gives_empty_dataset (env : environment) (position : string)
  (week year : Z) (resp : response) (soup : Html.soup) :
  requests_get env (week_url position week year) HEADERS = Ok resp ->
  html_parser env (content resp) = Some soup ->
  Html.find_table soup "data" = None ->
  fetch_week_data env position week year
  = ([EvPrint (msg_fetching position week year);
      EvGet (week_url position week year);
      EvPrint (if status_code resp =? 200
               then msg_no_table position week year
               else msg_http resp (week_url position week year))],
     Ok pd.DataFrame_)
  /\ pd.empty pd.DataFrame_ = true.
Proof.
  intros Hget Hsoup Htab. split; [|reflexivity].
  rewrite fetch_week_data_eq. cbv zeta. unfold page_table, page_parsed.
  rewrite Hget, Hsoup, Htab.
  destruct (status_code resp =? 200); reflexivity.
Qed.

Lemma no_table_gives_empty_dataset_witness :
  fetch_week_data (static_site 200 [table_other]) "qb" 3 2023
  = ([EvPrint "Fetching QB stats: Week 3, Year 2023";
      EvGet "https://www.fantasypros.com/nfl/stats/qb.php?range=week&week=3&year=2023";
      EvPrint "No table found for qb week 3, year 2023"],
     Ok pd.DataFrame_)
  /\ pd.empty pd.DataFrame_ = true.
Proof.
  exact (no_table_gives_empty_dataset (static_site 200 [table_other]) "qb" 3 2023
           {| status_code := 200; content := "page" |} [table_other]
           eq_refl eq_refl eq_refl).
Defined.

(** C5, as stated, fails for a page that the parser rejects: the page
    holds no table, no document is built from it, and the extraction
    raises the parser's error instead of returning the empty frame. *)
Lemma extract_raises_on_rejected_page :
  requests_get site_rejected (week_url "qb" 1 2023) HEADERS
  = Ok {| status_code := 200; content := "<![foo]><p>x</p>" |}
  /\ String.index 0 "<table" "<![foo]><p>x</p>" = None
  /\ page_table site_rejected
       {| status_code := 200; content := "<![foo]><p>x</p>" |} = None
  /\ fetch_week_data site_rejected "qb" 1 2023
     = ([EvPrint "Fetching QB stats: Week 1, Year 2023";
         EvGet (week_url "qb" 1 2023)],
        Raise (ParserRejectedMarkup
                 ("The markup you provided was rejected by the parser. "
                  ++ "Trying a different parser or a different encoding "
                  ++ "may help.")))
  /\ week_frame site_rejected "qb" 1 2023 <> Ok pd.DataFrame_.
Proof.
  split; [reflexivity|]. split; [reflexivity|]. split; [reflexivity|].
  split; [vm_compute; reflexivity | vm_compute; discriminate].
Qed.

(** A frame with rows that [fetch_week_data] returns. *)
Lemma week_frame_shape (env : environment) (position : string) (week year : Z)
  (df : pd.DataFrame) :
  week_frame env position week year = Ok df -> pd.empty df = false ->
  exists resp table,
    requests_get env (week_url position week year) HEADERS = Ok resp
    /\ status_code resp = 200
    /\ page_table env resp = Some table
    /\ df = {| pd.columns := "year" :: "week" :: table_headers table;
               pd.data := map (stat_row year week) (table_rows table) |}
    /\ table_rows table <> []
    /\ ~ In "week" (table_headers table) /\ ~ In "year" (table_headers table).
Proof.
  unfold week_frame. rewrite fetch_week_data_eq. cbv zeta.
  destruct (requests_get env (week_url position week year) HEADERS)
    as [resp|e]; [|discriminate].
  destruct (status_code resp =? 200) eqn:Est; cbn [negb].
  - destruct (page_table env resp) as [table|] eqn:Etab.
    + cbn [snd]. intros H Hne.
      exists resp, table. apply Z.eqb_eq in Est.
      repeat split; auto; eapply table_frame_shape; eauto.
    + destruct (page_parsed env resp); cbn [snd]; [|discriminate].
      intros H. injection H as <-. discriminate.
  - cbn [snd]. intros H. injection H as <-. discriminate.
Qed.

(* ------------------------------------------------------------------ *)
(** ** The loop over weeks and the single write *)

Lemma bind_assoc {A B C : Type} (m : M A) (f : A -> M B) (g : B -> M C) :
  bind (bind m f) g = bind m (fun a => bind (f a) g).
Proof.
  destruct m as [t [a|e]]; simpl; [|reflexivity].
  destruct (f a) as [t1 [b|e]]; simpl; [|reflexivity].
  destruct (g b) as [t2 r]. now rewrite app_assoc.
Qed.

Lemma bind_ret_l {A B : Type} (a : A) (f : A -> M B) : bind (ret a) f = f a.
Proof. unfold ret, bind. now destruct (f a). Qed.

Lemma bind_inv {A B : Type} (m : M A) (k : A -> M B) (t : list event)
  (r : result B) :
  bind m k = (t, r) ->
  (exists e, m = (t, Raise e) /\ r = Raise e)
  \/ (exists t1 a t2, m = (t1, Ok a) /\ k a = (t2, r) /\ t = (t1 ++ t2)%list).
Proof.
  destruct m as [t1 [a|e]]; simpl.
  - destruct (k a) as [t2 r2] eqn:E. intros H. injection H as <- <-.
    right. now exists t1, a, t2.
  - intros H. injection H as <- <-. left. now exists e.
Qed.

Lemma gets_app (a b : list event) : gets (a ++ b) = (gets a ++ gets b)%list.
Proof.
  induction a as [|e a IH]; simpl; [reflexivity|].
  destruct e; simpl; now rewrite IH.
Qed.

Lemma writes_app (a b : list event) :
  writes (a ++ b) = (writes a ++ writes b)%list.
Proof.
  induction a as [|e a IH]; simpl; [reflexivity|].
  destruct e; simpl; now rewrite IH.
Qed.

(** A trace with a single write decomposes around it in one way only. *)
Lemma write_position_unique (a b pre post : list event)
  (x y : file_kind * string * pd.DataFrame) :
  writes a = [] -> writes b = [] ->
  (a ++ EvToFile (fst (fst x)) (snd (fst x)) (snd x) :: b
   = pre ++ EvToFile (fst (fst y)) (snd (fst y)) (snd y) :: post)%list ->
  pre = a /\ x = y /\ post = b.
Proof.
  intros Ha Hb. revert pre. induction a as [|e a IH]; intros pre H.
  - destruct pre as [|e' pre]; simpl in H.
    + injection H as E1 E2 E3 E4. subst.
      destruct x as [[? ?] ?], y as [[? ?] ?]. simpl in *. now subst.
    + injection H as _ H. subst b. rewrite writes_app in Hb. simpl in Hb.
      destruct (writes pre); discriminate.
  - destruct pre as [|e' pre]; simpl in H.
    + injection H as E _. subst e. discriminate.
    + injection H as E H. subst e'.
      assert (Ha' : writes a = []) by (destruct e; simpl in Ha; congruence).
      destruct (IH Ha' pre H) as (-> & -> & ->). auto.
Qed.

Lemma fetch_week_data_trace (env : environment) (position : string)
  (week year : Z) :
  gets (fst (fetch_week_data env position week year))
  = [week_url position week year]
  /\ writes (fst (fetch_week_data env position week year)) = [].
Proof.
  rewrite fetch_week_data_eq. cbv zeta.
  destruct (requests_get env (week_url position week year) HEADERS)
    as [resp|e]; [|now split].
  destruct (negb (status_code resp =? 200)); [now split|].
  destruct (page_table env resp); [now split|].
  destruct (page_parsed env resp); now split.
Qed.

Lemma insert_raise_caught (loc : nat) (column : string) (v : pd.value)
  (df : pd.DataFrame) (e : exn) :
  pd.insert loc column v df = Raise e -> is_Exception e = true.
Proof.
  unfold pd.insert. destruct (pd.mem column (pd.columns df)).
  - intros H. injection H as <-. reflexivity.
  - destruct (List.length (pd.columns df) <? loc)%nat; [|discriminate].
    intros H. injection H as <-. reflexivity.
Qed.

Lemma table_frame_raise_caught (table : Html.table) (week year : Z) (e : exn) :
  table_frame table week year = Raise e -> is_Exception e = true.
Proof.
  unfold table_frame.
  destruct (negb (nonempty_list (table_rows table))); [discriminate|].
  destruct (pd.insert 0 "week" (pd.VInt week) _) as [df|e'] eqn:E; cbn [rbind].
  - apply insert_raise_caught.
  - intros H. injection H as <-. eapply insert_raise_caught; eauto.
Qed.

(** The only exceptions of [fetch_week_data] that [except Exception] lets
    through are those of the request itself. *)
Lemma week_frame_uncaught (env : environment) (position : string)
  (week year : Z) (e : exn) :
  week_frame env position week year = Raise e -> is_Exception e = false ->
  requests_get env (week_url position week year) HEADERS = Raise e.
Proof.
  unfold week_frame. rewrite fetch_week_data_eq. cbv zeta.
  destruct (requests_get env (week_url position week year) HEADERS)
    as [resp|e']; [|cbn; congruence].
  destruct (negb (status_code resp =? 200)); [discriminate|].
  destruct (page_table env resp) as [table|].
  - cbn [snd]. intros H Hx. apply table_frame_raise_caught in H. congruence.
  - destruct (page_parsed env resp); cbn [snd]; [discriminate|].
    intros H Hx. injection H as <-. discriminate.
Qed.

Lemma bind_ext {A B : Type} (m : M A) (f g : A -> M B) :
  (forall a, f a = g a) -> bind m f = bind m g.
Proof.
  intros H. destruct m as [t [a|e]]; simpl; [now rewrite H | reflexivity].
Qed.

(** One iteration of the loop, case by case. *)
Lemma scrape_week_eq (env : environment) (position : string) (year week : Z)
  (all_weeks : list pd.DataFrame) :
  scrape_week env position year week all_weeks =
  let t := fst (fetch_week_data env position week year) in
  match week_frame env position week year with
  | Ok df => ((t ++ [EvSleep])%list,
              Ok (all_weeks ++ week_part env position year week)%list)
  | Raise e =>
      if is_Exception e
      then ((t ++ [EvPrint ("Error: " ++ exn_str e)])%list, Ok all_weeks)
      else (t, Raise e)
  end.
Proof.
  unfold scrape_week, week_part, week_frame, try_except_Exception, bind,
    time_sleep, print, emit, ret.
  destruct (fetch_week_data env position week year) as [t [df|e]]; cbn.
  - destruct (pd.empty df); cbn; [now rewrite app_nil_r | reflexivity].
  - destruct (is_Exception e); reflexivity.
Qed.

Lemma scrape_week_ok (env : environment) (position : string) (year week : Z)
  (all_weeks l : list pd.DataFrame) (t : list event) :
  scrape_week env position year week all_weeks = (t, Ok l) ->
  l = (all_weeks ++ week_part env position year week)%list
  /\ gets t = [week_url position week year] /\ writes t = [].
Proof.
  rewrite scrape_week_eq. cbv zeta.
  destruct (fetch_week_data_trace env position week year) as [Hg Hw].
  unfold week_part.
  destruct (week_frame env position week year) as [df|e].
  - intros H. injection H as <- <-.
    rewrite gets_app, writes_app, Hg, Hw. auto.
  - destruct (is_Exception e); [|discriminate].
    intros H. injection H as <- <-.
    rewrite gets_app, writes_app, Hg, Hw, app_nil_r. auto.
Qed.

Lemma scrape_week_raise (env : environment) (position : string) (year week : Z)
  (all_weeks : list pd.DataFrame) (t : list event) (e : exn) :
  scrape_week env position year week all_weeks = (t, Raise e) ->
  writes t = [] /\ is_Exception e = false
  /\ requests_get env (week_url position week year) HEADERS = Raise e.
Proof.
  rewrite scrape_week_eq. cbv zeta.
  destruct (fetch_week_data_trace env position week year) as [Hg Hw].
  destruct (week_frame env position week year) as [df|e'] eqn:E; [discriminate|].
  destruct (is_Exception e') eqn:Ex; [discriminate|].
  intros H. injection H as <- <-.
  repeat split; auto. now apply week_frame_uncaught.
Qed.

Lemma scrape_loop_ok (env : environment) (position : string) (year : Z)
  (weeks : list Z) (all_weeks l : list pd.DataFrame) (t : list event) :
  scrape_loop env position year weeks all_weeks = (t, Ok l) ->
  l = (all_weeks ++ collected env position year weeks)%list
  /\ gets t = map (fun week => week_url position week year) weeks
  /\ writes t = [].
Proof.
  revert all_weeks t. induction weeks as [|week rest IH]; intros all_weeks t.
  - cbn. intros H. injection H as <- <-. now rewrite app_nil_r.
  - cbn [scrape_loop]. intros H.
    apply bind_inv in H as [(e & _ & E)|(t1 & a & t2 & E1 & E2 & ->)];
      [discriminate|].
    apply scrape_week_ok in E1 as (-> & Hg1 & Hw1).
    apply IH in E2 as (-> & Hg2 & Hw2).
    rewrite gets_app, writes_app, Hg1, Hg2, Hw1, Hw2.
    cbn [collected flat_map map]. fold (collected env position year rest).
    now rewrite app_assoc.
Qed.

Lemma scrape_loop_raise (env : environment) (position : string) (year : Z)
  (weeks : list Z) (all_weeks : list pd.DataFrame) (t : list event) (e : exn) :
  scrape_loop env position year weeks all_weeks = (t, Raise e) ->
  writes t = [] /\ is_Exception e = false
  /\ exists week, In week weeks
       /\ requests_get env (week_url position week year) HEADERS = Raise e.
Proof.
  revert all_weeks t. induction weeks as [|week rest IH]; intros all_weeks t.
  - discriminate.
  - cbn [scrape_loop]. intros H.
    apply bind_inv in H as [(e' & E & Ee)|(t1 & a & t2 & E1 & E2 & ->)].
    + injection Ee as <-. apply scrape_week_raise in E as (Hw & Hx & Hr).
      repeat split; auto. exists week. split; [now left | exact Hr].
    + apply scrape_week_ok in E1 as (_ & _ & Hw1).
      apply IH in E2 as (Hw2 & Hx & week' & Hin & Hr).
      rewrite writes_app, Hw1, Hw2. repeat split; auto.
      exists week'. split; [now right | exact Hr].
Qed.

Lemma scrape_loop_app (env : environment) (position : string) (year : Z)
  (pre post : list Z) (all_weeks : list pd.DataFrame) :
  scrape_loop env position year (pre ++ post) all_weeks
  = bind (scrape_loop env position year pre all_weeks)
      (fun acc => scrape_loop env position year post acc).
Proof.
  revert all_weeks. induction pre as [|week pre IH]; intros all_weeks.
  - cbn [app scrape_loop]. now rewrite bind_ret_l.
  - cbn [app scrape_loop]. rewrite bind_assoc.
    apply bind_ext. intros acc. apply IH.
Qed.

Lemma scrape_eq (env : environment) (position : string) (year : Z)
  (weeks : list Z) (output_dir file_format : string) :
  scrape env position year weeks output_dir file_format
  = bind (print (msg_scraping position year)) (fun _ =>
    bind (scrape_loop env position year weeks [])
         (write_phase env position year output_dir file_format)).
Proof.
  unfold scrape, write_phase, msg_scraping, msg_saved, msg_no_data, output_path.
  apply bind_ext. intros _. apply bind_ext. intros all_weeks.
  destruct (nonempty_list all_weeks); [|reflexivity].
  apply bind_ext. intros year_df. apply bind_ext. intros _.
  f_equal. unfold format_kind.
  destruct (String.eqb (Py.lower file_format) "csv"); [reflexivity|].
  destruct (String.eqb (Py.lower file_format) "parquet"); [reflexivity|].
  destruct (String.eqb (Py.lower file_format) "json"); reflexivity.
Qed.

(** The write phase, case by case. *)
Lemma write_phase_eq (env : environment) (position : string) (year : Z)
  (output_dir file_format : string) (all_weeks : list pd.DataFrame) :
  write_phase env position year output_dir file_format all_weeks =
  let out_dir := os_path_join output_dir position in
  let path := output_path output_dir position year file_format in
  match all_weeks with
  | [] => ([EvPrint (msg_no_data position year)], Ok tt)
  | _ :: _ =>
      match pd.concat all_weeks with
      | Raise e => ([], Raise e)
      | Ok year_df =>
          match makedirs_error env out_dir with
          | Some e => ([], Raise e)
          | None =>
              match format_kind (Py.lower file_format) with
              | None =>
                  ([EvMakedirs out_dir; EvPrint (msg_saved year_df path)], Ok tt)
              | Some kind =>
                  match to_file_error env kind path year_df with
                  | Some e => ([EvMakedirs out_dir], Raise e)
                  | None =>
                      ([EvMakedirs out_dir; EvToFile kind path year_df;
                        EvPrint (msg_saved year_df path)], Ok tt)
                  end
              end
          end
      end
  end.
Proof.
  unfold write_phase, os_makedirs, to_file, print, emit, lift, ret, bind.
  cbv zeta. destruct all_weeks as [|df dfs]; [reflexivity|].
  cbn [nonempty_list].
  destruct (pd.concat (df :: dfs)) as [year_df|e]; [|reflexivity].
  destruct (makedirs_error env (os_path_join output_dir position));
    [reflexivity|].
  destruct (format_kind (Py.lower file_format)) as [kind|]; [|reflexivity].
  destruct (to_file_error env kind _ year_df); reflexivity.
Qed.

Lemma scrape_loop_returns (env : environment) (position : string) (year : Z)
  (weeks : list Z) (all_weeks : list pd.DataFrame) :
  no_interrupt env position year weeks ->
  exists t,
    scrape_loop env position year weeks all_weeks
    = (t, Ok (all_weeks ++ collected env position year weeks)%list)
    /\ gets t = pair_requests position year weeks /\ writes t = [].
Proof.
  intros Hno.
  destruct (scrape_loop env position year weeks all_weeks) as [t [l|e]] eqn:E.
  - apply scrape_loop_ok in E as (-> & Hg & Hw). now exists t.
  - apply scrape_loop_raise in E as (_ & Hx & week & Hin & Hr).
    rewrite (Hno week e Hin Hr) in Hx. discriminate.
Qed.

(** When nothing fails, [scrape] writes the combined frame once, to the
    path of the pair, and returns. *)
Lemma scrape_one_write (env : environment) (position : string) (year : Z)
  (weeks : list Z) (output_dir file_format : string) (kind : file_kind)
  (year_df : pd.DataFrame) :
  no_interrupt env position year weeks ->
  pd.concat (collected env position year weeks) = Ok year_df ->
  format_kind (Py.lower file_format) = Some kind ->
  makedirs_error env (os_path_join output_dir position) = None ->
  to_file_error env kind (output_path output_dir position year file_format)
    year_df = None ->
  writes (fst (scrape env position year weeks output_dir file_format))
  = [(kind, output_path output_dir position year file_format, year_df)]
  /\ snd (scrape env position year weeks output_dir file_format) = Ok tt.
Proof.
  intros Hno Hc Hk Hmk Hto.
  destruct (scrape_loop_returns env position year weeks [] Hno)
    as (t & Eloop & _ & Hw).
  rewrite scrape_eq. unfold print, emit. cbn [bind].
  rewrite Eloop. cbn [bind]. rewrite app_nil_l, write_phase_eq. cbv zeta.
  destruct (collected env position year weeks) as [|df dfs];
    [discriminate|].
  rewrite Hc, Hmk, Hk, Hto. cbn [fst snd].
  split; [|reflexivity].
  rewrite !writes_app, Hw. reflexivity.
Qed.

Lemma collected_nil (env : environment) (position : string) (year : Z)
  (weeks : list Z) :
  collected env position year weeks = [] <->
  (forall week, In week weeks -> yields_rows env position year week = false).
Proof.
  unfold collected, yields_rows. induction weeks as [|w ws IH]; simpl.
  - split; [intros _ ? [] | reflexivity].
  - split.
    + intros H. apply app_eq_nil in H as [Hw Hws].
      intros week [<-|Hin]; [now rewrite Hw | now apply IH].
    + intros H. rewrite (proj2 IH) by (intros; apply H; now right).
      specialize (H w (or_introl eq_refl)).
      destruct (week_part env position year w); [reflexivity | discriminate].
Qed.

Lemma format_kind_choices (ext : string) :
  In ext format_choices -> exists kind, format_kind ext = Some kind.
Proof.
  intros [<-|[<-|[<-|[]]]]; cbn; eauto.
Qed.

Lemma writes_mid_nonnil (pre post : list event) (kind : file_kind)
  (path : string) (df : pd.DataFrame) :
  writes (pre ++ EvToFile kind path df :: post) <> [].
Proof.
  rewrite writes_app. cbn. destruct (writes pre); discriminate.
Qed.

Lemma scrape_cases (env : environment) (position : string) (year : Z)
  (weeks : list Z) (output_dir file_format : string)
  (tr : list event) (r : result unit) :
  scrape env position year weeks output_dir file_format = (tr, r) ->
  scrape_outcome env position year weeks output_dir file_format tr r.
Proof.
  rewrite scrape_eq. unfold print, emit. cbn [bind].
  destruct (bind (scrape_loop env position year weeks [])
              (write_phase env position year output_dir file_format))
    as [t0 r0] eqn:E.
  intros H. injection H as <- <-.
  apply bind_inv in E as [(e & El & ->)|(t1 & l & t2 & El & Ew & ->)].
  - apply scrape_loop_raise in El as (Hw & Hx & Hweek).
    apply NoWrite; [cbn; exact Hw | discriminate |].
    intros e' He. injection He as <-. left. now split.
  - apply scrape_loop_ok in El as (-> & Hg & Hw). rewrite app_nil_l in Ew.
    rewrite write_phase_eq in Ew. cbv zeta in Ew.
    destruct (collected env position year weeks) as [|df dfs] eqn:Ec.
    { cbv beta iota in Ew. injection Ew as <- <-.
      apply NoWrite; [cbn; now rewrite writes_app, Hw | now left | discriminate]. }
    destruct (pd.concat (df :: dfs)) as [year_df|e] eqn:Econcat.
    2:{ cbv beta iota in Ew. injection Ew as <- <-.
        apply NoWrite; [cbn; now rewrite writes_app, Hw | discriminate |].
        intros e' He. injection He as <-. right. rewrite Ec. split; [discriminate | now left]. }
    destruct (makedirs_error env (os_path_join output_dir position))
      as [e|] eqn:Emk.
    { cbv beta iota in Ew. injection Ew as <- <-.
      apply NoWrite; [cbn; now rewrite writes_app, Hw | discriminate |].
      intros e' He. injection He as <-. right. rewrite Ec. split; [discriminate|].
      right. exists year_df. split; [exact Econcat | now left]. }
    destruct (format_kind (Py.lower file_format)) as [kind|] eqn:Ek.
    2:{ cbv beta iota in Ew. injection Ew as <- <-.
        apply NoWrite; [cbn; now rewrite writes_app, Hw | now right | discriminate]. }
    destruct (to_file_error env kind _ year_df) as [e|] eqn:Eto.
    { cbv beta iota in Ew. injection Ew as <- <-.
      apply NoWrite; [cbn; now rewrite writes_app, Hw | discriminate |].
      intros e' He. injection He as <-. right. rewrite Ec. split; [discriminate|].
      right. exists year_df. split; [exact Econcat|]. right. now exists kind. }
    cbv beta iota in Ew. injection Ew as <- <-.
    apply (OneWrite _ _ _ _ _ _ _ _
             (EvPrint (msg_scraping position year)
              :: t1 ++ [EvMakedirs (os_path_join output_dir position)])%list
             kind year_df
             (msg_saved year_df
                (output_path output_dir position year file_format)));
      rewrite ?Ec; auto.
    + cbn. now rewrite <- app_assoc.
    + cbn. now rewrite writes_app, Hw.
    + cbn. now rewrite gets_app, Hg, app_nil_r.
    + discriminate.
Qed.

(* ------------------------------------------------------------------ *)
(** *** Claims about the scrape of one (position, year) pair *)

(** C2, as amended.  A call of [scrape] writes at most one file.  When
    no week yields rows it writes none.  A write, when there is one, comes
    after the requests of all the weeks, goes to the path of the pair and
    carries the rows of all the weeks together, so that no file holding
    only part of the weeks is ever written.  When some week yields rows,
    the format is one of csv, parquet and json, and nothing fails fatally
    (no interrupt during a request, and combining the frames, creating the
    directory and writing succeed), the call returns and has written
    exactly one file. *)
Theorem scrape_writes_at_most_once (env : environment) (position : string)
  (year : Z) (weeks : list Z) (output_dir file_format : string)
  (tr : list event) (r : result unit) :
  scrape env position year weeks output_dir file_format = (tr, r) ->
  (List.length (writes tr) <= 1)%nat
  /\ ((forall week, In week weeks -> yields_rows env position year week = false)
      -> writes tr = [])
  /\ (forall pre kind path df post,
        tr = (pre ++ EvToFile kind path df :: post)%list ->
        gets pre = map (fun week => week_url position week year) weeks
        /\ gets post = [] /\ writes pre = [] /\ writes post = []
        /\ path = output_path output_dir position year file_format
        /\ pd.concat (collected env position year weeks) = Ok df)
  /\ ((exists week, In week weeks /\ yields_rows env position year week = true) ->
      In (Py.lower file_format) format_choices ->
      (forall week e, In week weeks ->
         requests_get env (week_url position week year) HEADERS = Raise e ->
         is_Exception e = true) ->
      forall year_df,
        pd.concat (collected env position year weeks) = Ok year_df ->
        makedirs_error env (os_path_join output_dir position) = None ->
        (forall kind,
           to_file_error env kind
             (output_path output_dir position year file_format) year_df = None) ->
        r = Ok tt
        /\ exists kind,
             writes tr
             = [(kind, output_path output_dir position year file_format,
                 year_df)]).
Proof.
  intros H. apply scrape_cases in H.
  destruct H as [Hw Hok Hraise | before kind year_df saved -> Hwb Hgb -> Hk Hc Hne].
  - rewrite Hw. split; [cbn; lia|]. split; [reflexivity|]. split.
    + intros pre kind path df post ->. now apply writes_mid_nonnil in Hw.
    + intros (week & Hin & Hy) Hfmt Hexn year_df Hconcat Hmk Hto.
      assert (Hne : collected env position year weeks <> []).
      { intros E. rewrite collected_nil in E. rewrite (E week Hin) in Hy.
        discriminate. }
      destruct (format_kind_choices _ Hfmt) as (kind & Hk).
      destruct r as [[]|e].
      * destruct (Hok eq_refl) as [E|E]; [contradiction | congruence].
      * exfalso. destruct (Hraise e eq_refl)
          as [(Hx & w & Hw' & Hr)|(_ & [Hc|(df & Hc & [Hm|(k & Ht)])])].
        -- rewrite (Hexn w e Hw' Hr) in Hx. discriminate.
        -- congruence.
        -- congruence.
        -- assert (df = year_df) by congruence. subst df.
           rewrite Hto in Ht. discriminate.
  - assert (Hw : writes (before
                 ++ EvToFile kind
                      (output_path output_dir position year file_format) year_df
                 :: [EvPrint saved])
                 = [(kind, output_path output_dir position year file_format,
                     year_df)]).
    { rewrite writes_app, Hwb. reflexivity. }
    rewrite Hw. split; [cbn; lia|]. split; [|split].
    + intros Hno. apply collected_nil in Hno. contradiction.
    + intros pre kind' path df post E.
      destruct (write_position_unique before [EvPrint saved] pre post
                  (kind, output_path output_dir position year file_format,
                   year_df)
                  (kind', path, df) Hwb eq_refl E) as (-> & Exy & ->).
      injection Exy as <- <- <-. auto 10.
    + intros _ _ _ df Hconcat _ _. split; [reflexivity|].
      exists kind. congruence.
Qed.

Lemma scrape_writes_at_most_once_witness :
  snd (scrape (static_site 200 [table_AB]) "qb" 2023 [1; 2] "data" "csv") = Ok tt
  /\ exists kind,
       writes (fst (scrape (static_site 200 [table_AB]) "qb" 2023 [1; 2]
                      "data" "csv"))
       = [(kind, "data/qb/qb_2023.csv",
           {| pd.columns := ["year"; "week"; "A"; "B"];
              pd.data := [stat_row 2023 1 ["1"; "2"];
                          stat_row 2023 2 ["1"; "2"]] |})].
Proof.
  destruct (scrape_writes_at_most_once (static_site 200 [table_AB]) "qb" 2023
              [1; 2] "data" "csv" _ _ (surjective_pairing _))
    as (_ & _ & _ & H).
  apply H.
  - exists 1. split; [simpl; auto | reflexivity].
  - simpl; auto.
  - intros week e _ Hr. discriminate Hr.
  - reflexivity.
  - reflexivity.
  - reflexivity.
Defined.

(** C2, as stated, fails in two ways.  When the output directory cannot
    be created, the error propagates to the caller and no file is written,
    although a week yielded rows; and with an extension other than csv,
    parquet and json no writer is called, although the call returns and
    reports the rows as saved. *)
Lemma scrape_without_file :
  (yields_rows readonly_site "qb" 2023 1 = true
   /\ snd (scrape readonly_site "qb" 2023 [1] "data" "csv")
      = Raise (OSError "[Errno 13] Permission denied: 'data/qb'")
   /\ writes (fst (scrape readonly_site "qb" 2023 [1] "data" "csv")) = [])
  /\ (yields_rows (static_site 200 [table_AB]) "qb" 2023 1 = true
      /\ snd (scrape (static_site 200 [table_AB]) "qb" 2023 [1] "data" "xml")
         = Ok tt
      /\ writes (fst (scrape (static_site 200 [table_AB]) "qb" 2023 [1]
                        "data" "xml")) = []
      /\ In (EvPrint "Saved 1 rows → data/qb/qb_2023.xml")
            (fst (scrape (static_site 200 [table_AB]) "qb" 2023 [1]
                    "data" "xml"))).
Proof.
  split; [repeat split; vm_compute; reflexivity|].
  split; [vm_compute; reflexivity|].
  split; [vm_compute; reflexivity|].
  split; [vm_compute; reflexivity|].
  vm_compute. auto 10.
Qed.

(** Called from [main], [scrape] only receives one of the three
    extensions. *)
Lemma parse_args_format (argv args : arguments) :
  parse_args argv = Ok args -> In (Py.lower (arg_format args)) format_choices.
Proof.
  unfold parse_args. destruct (pd.mem (arg_format argv) format_choices) eqn:E;
    [|discriminate].
  intros H. injection H as <-. apply mem_In in E.
  destruct E as [<-|[<-|[<-|[]]]]; cbn; auto.
Qed.

Lemma snd_bind {A B : Type} (m : M A) (k : A -> M B) :
  snd (bind m k)
  = match snd m with
    | Ok a => snd (k a)
    | Raise e => Raise e
    end.
Proof.
  destruct m as [t [a|e]]; simpl; [|reflexivity]. now destruct (k a).
Qed.

Lemma writes_bind {A B : Type} (m : M A) (k : A -> M B) :
  writes (fst (bind m k))
  = (writes (fst m)
     ++ match snd m with
        | Ok a => writes (fst (k a))
        | Raise e => []
        end)%list.
Proof.
  destruct m as [t [a|e]]; simpl; [|now rewrite app_nil_r].
  destruct (k a). simpl. apply writes_app.
Qed.

Lemma scrape_loop_no_write (env : environment) (position : string) (year : Z)
  (weeks : list Z) (all_weeks : list pd.DataFrame) :
  writes (fst (scrape_loop env position year weeks all_weeks)) = [].
Proof.
  destruct (scrape_loop env position year weeks all_weeks) as [t [l|e]] eqn:E.
  - now apply scrape_loop_ok in E.
  - now apply scrape_loop_raise in E.
Qed.

(** The outcome and the writes of [scrape] are determined by what its
    loop returns. *)
Lemma scrape_by_loop (env : environment) (position : string) (year : Z)
  (weeks : list Z) (output_dir file_format : string) :
  snd (scrape env position year weeks output_dir file_format)
  = match snd (scrape_loop env position year weeks []) with
    | Ok l => snd (write_phase env position year output_dir file_format l)
    | Raise e => Raise e
    end
  /\ writes (fst (scrape env position year weeks output_dir file_format))
     = match snd (scrape_loop env position year weeks []) with
       | Ok l => writes (fst (write_phase env position year output_dir
                                file_format l))
       | Raise e => []
       end.
Proof.
  rewrite scrape_eq. split.
  - rewrite snd_bind. cbn [print emit snd]. now rewrite snd_bind.
  - rewrite writes_bind. cbn [print emit snd fst writes app].
    now rewrite writes_bind, scrape_loop_no_write.
Qed.

(** A week whose fetch fails leaves [all_weeks] as it was. *)
Lemma failed_week_step (env : environment) (position : string) (year week : Z)
  (all_weeks : list pd.DataFrame) :
  fetch_fails env position year week ->
  exists diag rest,
    scrape_week env position year week all_weeks
    = (EvPrint (msg_fetching position week year)
       :: EvGet (week_url position week year) :: EvPrint diag :: rest,
       Ok all_weeks)
    /\ (rest = [] \/ rest = [EvSleep]).
Proof.
  unfold fetch_fails. intros Hfail.
  rewrite scrape_week_eq. unfold week_part, week_frame.
  rewrite fetch_week_data_eq. cbv zeta.
  destruct (requests_get env (week_url position week year) HEADERS)
    as [resp|e].
  - assert (Hst : (status_code resp =? 200) = false) by (apply Z.eqb_neq; lia).
    rewrite Hst. cbn.
    exists (msg_http resp (week_url position week year)), [EvSleep].
    rewrite app_nil_r. auto.
  - destruct e; try contradiction. cbn.
    exists ("Error: " ++ msg), []. auto.
Qed.

(* ------------------------------------------------------------------ *)
(** *** Claim about per-week failures *)

(** C7. When the fetch of a week fails (a status outside 200..299, or a
    request-level exception), the iteration for that week prints a
    diagnostic, leaves the collected frames unchanged and ends normally;
    the loop goes on with the weeks after it; and the call of [scrape]
    ends and writes as if that week had not been in the list. *)
Theorem failed_week_is_skipped (env : environment) (position : string)
  (year week : Z) :
  fetch_fails env position year week ->
  (forall all_weeks, exists diag rest,
      scrape_week env position year week all_weeks
      = (EvPrint (msg_fetching position week year)
         :: EvGet (week_url position week year) :: EvPrint diag :: rest,
         Ok all_weeks)
      /\ (rest = [] \/ rest = [EvSleep]))
  /\ (forall pre post all_weeks,
        scrape_loop env position year (pre ++ week :: post) all_weeks
        = (acc <- scrape_loop env position year pre all_weeks ;;
           scrape_week env position year week acc ;;
           scrape_loop env position year post acc))
  /\ (forall pre post output_dir file_format,
        snd (scrape env position year (pre ++ week :: post) output_dir
               file_format)
        = snd (scrape env position year (pre ++ post) output_dir file_format)
        /\ writes (fst (scrape env position year (pre ++ week :: post)
                          output_dir file_format))
           = writes (fst (scrape env position year (pre ++ post) output_dir
                            file_format))).
Proof.
  intros Hfail.
  assert (Hstep : forall pre post all_weeks,
             scrape_loop env position year (pre ++ week :: post) all_weeks
             = (acc <- scrape_loop env position year pre all_weeks ;;
                scrape_week env position year week acc ;;
                scrape_loop env position year post acc)).
  { intros pre post all_weeks. rewrite scrape_loop_app.
    apply bind_ext. intros acc. cbn [scrape_loop].
    destruct (failed_week_step env position year week acc Hfail)
      as (diag & rest & -> & _).
    reflexivity. }
  split; [|split].
  - intros all_weeks. now apply failed_week_step.
  - exact Hstep.
  - intros pre post output_dir file_format.
    assert (Hsnd : snd (scrape_loop env position year (pre ++ week :: post) [])
                   = snd (scrape_loop env position year (pre ++ post) [])).
    { rewrite Hstep, scrape_loop_app, !snd_bind.
      destruct (snd (scrape_loop env position year pre [])) as [acc|e];
        [|reflexivity].
      rewrite snd_bind.
      destruct (failed_week_step env position year week acc Hfail)
        as (diag & rest & -> & _).
      reflexivity. }
    destruct (scrape_by_loop env position year (pre ++ week :: post)
                output_dir file_format) as [-> ->].
    destruct (scrape_by_loop env position year (pre ++ post)
                output_dir file_format) as [-> ->].
    now rewrite Hsnd.
Qed.

Lemma failed_week_is_skipped_witness :
  snd (scrape site_week1_down "qb" 2023 [1; 2] "data" "csv")
  = snd (scrape site_week1_down "qb" 2023 [2] "data" "csv")
  /\ writes (fst (scrape site_week1_down "qb" 2023 [1; 2] "data" "csv"))
     = writes (fst (scrape site_week1_down "qb" 2023 [2] "data" "csv")).
Proof.
  assert (Hfail : fetch_fails site_week1_down "qb" 2023 1)
    by (vm_compute; exact I).
  exact (proj2 (proj2 (failed_week_is_skipped site_week1_down "qb" 2023 1 Hfail))
           [] [2] "data" "csv").
Defined.

(* ------------------------------------------------------------------ *)
(** ** The two leading columns *)

Lemma week_table_of_response (env : environment) (position : string)
  (week year : Z) (resp : response) (table : Html.table) :
  requests_get env (week_url position week year) HEADERS = Ok resp ->
  status_code resp = 200 -> page_table env resp = Some table ->
  week_table env position week year = Some table.
Proof.
  intros Hget Hst Htab. unfold week_table. now rewrite Hget, Hst, Htab.
Qed.


(** Every collected frame comes from the data table of one of the weeks. *)
Lemma collected_frames (env : environment) (position : string) (year : Z)
  (weeks : list Z) :
  Forall (fun df =>
            exists week table,
              yielding_week env position year weeks week
              /\ week_table env position week year = Some table
              /\ df = {| pd.columns := "year" :: "week" :: table_headers table;
                         pd.data := map (stat_row year week) (table_rows table) |})
    (collected env position year weeks).
Proof.
  apply Forall_forall. intros df H. unfold collected in H.
  apply in_flat_map in H as (week & Hin & H).
  assert (Hy : yields_rows env position year week = true).
  { unfold yields_rows. destruct (week_part env position year week);
      [destruct H | reflexivity]. }
  unfold week_part in H.
  destruct (week_frame env position week year) as [df'|e] eqn:E; [|destruct H].
  destruct (pd.empty df') eqn:Ee; [destruct H|].
  destruct H as [<-|[]].
  destruct (week_frame_shape _ _ _ _ _ E Ee)
    as (resp & table & Hget & Hst & Htab & -> & _).
  exists week, table. repeat split; auto.
  eapply week_table_of_response; eauto.
Qed.


Lemma list_string_eqb_eq (a b : list string) :
  pd.list_string_eqb a b = true <-> a = b.
Proof.
  unfold pd.list_string_eqb. destruct (list_eq_dec string_dec a b);
    split; congruence.
Qed.



Lemma Forall_flat_map_intro {A B : Type} (P : B -> Prop) (f : A -> list B)
  (l : list A) :
  Forall (fun a => Forall P (f a)) l -> Forall P (flat_map f l).
Proof.
  induction 1 as [|a l Ha _ IH]; cbn; [constructor|].
  apply Forall_app. now split.
Qed.


Lemma In_writes (tr : list event) (kind : file_kind) (path : string)
  (df : pd.DataFrame) :
  In (EvToFile kind path df) tr -> In (kind, path, df) (writes tr).
Proof.
  induction tr as [|e tr IH]; [intros []|].
  intros [->|H]; [now left|].
  destruct e; cbn; auto.
Qed.

(** The frame of a write is the combination of the collected frames. *)
Lemma scrape_written_frame (env : environment) (position : string) (year : Z)
  (weeks : list Z) (output_dir file_format : string) (kind : file_kind)
  (path : string) (year_df : pd.DataFrame) :
  In (EvToFile kind path year_df)
     (fst (scrape env position year weeks output_dir file_format)) ->
  pd.concat (collected env position year weeks) = Ok year_df
  /\ collected env position year weeks <> []
  /\ path = output_path output_dir position year file_format.
Proof.
  intros Hin. apply In_writes in Hin.
  destruct (scrape_cases env position year weeks output_dir file_format _ _
              (surjective_pairing _))
    as [Hw _ _ | before kind' df' saved E Hwb _ _ _ Hc Hne].
  - rewrite Hw in Hin. destruct Hin.
  - rewrite E, writes_app, Hwb in Hin. cbn in Hin.
    destruct Hin as [H|[]]. injection H as <- <- <-. auto.
Qed.

(* ------------------------------------------------------------------ *)
(** *** Claim about the two leading columns *)




(* ================================================================== *)
(** * Further properties *)

(** ** The selector parser *)

Lemma digits_not_all (s : string) :
  all_chars Py.is_digit s = true -> String.eqb s "all" = false.
Proof.
  intros H. destruct (String.eqb s "all") eqn:E; [|reflexivity].
  apply String.eqb_eq in E. subst. discriminate.
Qed.

(** X1. The decimal string of a non-negative integer [n] of at most 4300
    digits resolves to the one-element list [n], whatever the default
    range is. *)
Theorem resolve_single_nonneg (n : Z) (D : list Z) :
  0 <= n -> n < 10 ^ 4300 -> parse_range_or_all (Py.str n) D = Ok [n].
Proof.
  intros Hn Hlim. destruct (str_nonneg_digits n Hn) as [Hd _].
  unfold parse_range_or_all.
  rewrite (digits_not_all _ Hd).
  rewrite (all_chars_not_contains Py.is_digit "-" _ eq_refl Hd).
  now rewrite (int_str n Hn Hlim).
Qed.

Lemma resolve_single_nonneg_witness :
  parse_range_or_all "5" [1; 2; 3] = Ok [5].
Proof.
  apply (resolve_single_nonneg 5 [1; 2; 3]); [lia|].
  apply digit_below_limit. lia.
Defined.

Lemma ascending_from_NoDup (lo : Z) (n : nat) : NoDup (ascending_from lo n).
Proof.
  revert lo. induction n as [|n IH]; intros lo; cbn; constructor.
  - rewrite ascending_from_In. lia.
  - apply IH.
Qed.

(** X2. Whatever a selector other than "all" resolves to is a run of
    consecutive integers lo, lo+1, ..., hi: it never holds a value twice
    and never leaves a gap.  (The list returned for "all" is the caller's
    and may be anything.) *)
Theorem resolved_selector_consecutive (value : string) (D l : list Z) :
  value <> "all" -> parse_range_or_all value D = Ok l ->
  exists lo hi,
    l = inclusive_sequence lo hi
    /\ NoDup l
    /\ (forall z, In z l <-> lo <= z <= hi).
Proof.
  intros Hall. unfold parse_range_or_all.
  rewrite (proj2 (String.eqb_neq value "all") Hall).
  assert (Hseq : forall lo hi,
             exists lo' hi',
               inclusive_sequence lo hi = inclusive_sequence lo' hi'
               /\ NoDup (inclusive_sequence lo hi)
               /\ (forall z, In z (inclusive_sequence lo hi) <-> lo' <= z <= hi')).
  { intros lo hi. exists lo, hi. split; [reflexivity|]. split.
    - apply ascending_from_NoDup.
    - intros z. unfold inclusive_sequence. rewrite ascending_from_In. lia. }
  destruct (Py.contains "-" value).
  - destruct (Py.unpack2_int (Py.split "-" value)) as [[s e]|err];
      [|discriminate].
    cbn [rbind]. intros H. injection H as <-.
    rewrite range_inclusive. apply Hseq.
  - destruct (Py.int value) as [n|err]; [|discriminate].
    cbn [rbind]. intros H. injection H as <-.
    replace [n] with (inclusive_sequence n n); [apply Hseq|].
    unfold inclusive_sequence. replace (n - n + 1) with 1 by lia. reflexivity.
Qed.

Lemma resolved_selector_consecutive_witness :
  exists lo hi,
    [2020; 2021; 2022] = inclusive_sequence lo hi
    /\ NoDup [2020; 2021; 2022]
    /\ (forall z, In z [2020; 2021; 2022] <-> lo <= z <= hi).
Proof.
  apply (resolved_selector_consecutive "2020-2022" [1; 1]);
    [discriminate | vm_compute; reflexivity].
Defined.

(* ------------------------------------------------------------------ *)
(** ** The frame of one week *)

Lemma table_frame_cases (table : Html.table) (week year : Z) (df : pd.DataFrame) :
  table_frame table week year = Ok df ->
  (table_rows table = [] /\ df = pd.DataFrame_)
  \/ (table_rows table <> []
      /\ df = {| pd.columns := "year" :: "week" :: table_headers table;
                 pd.data := map (stat_row year week) (table_rows table) |}).
Proof.
  intros H. destruct (table_rows table) as [|r rs] eqn:Er.
  - left. unfold table_frame in H. rewrite Er in H. cbn in H.
    injection H as <-. now split.
  - right. split; [discriminate|].
    assert (Hne : pd.empty df = false).
    { unfold table_frame in H. rewrite Er in H. cbn [nonempty_list negb] in H.
      destruct (pd.insert 0 "week" (pd.VInt week) _) as [df1|e] eqn:E1;
        [|discriminate].
      cbn [rbind] in H.
      apply insert_front_inv in E1 as [_ ->].
      apply insert_front_inv in H as [_ ->]. reflexivity. }
    destruct (table_frame_shape _ _ _ _ H Hne) as (-> & _).
    now rewrite Er.
Qed.

Lemma week_table_inv (env : environment) (position : string) (week year : Z)
  (table : Html.table) :
  week_table env position week year = Some table ->
  exists resp,
    requests_get env (week_url position week year) HEADERS = Ok resp
    /\ status_code resp = 200 /\ page_table env resp = Some table.
Proof.
  unfold week_table.
  destruct (requests_get env (week_url position week year) HEADERS)
    as [resp|e]; [|discriminate].
  destruct (status_code resp =? 200) eqn:Est; [|discriminate].
  intros H. exists resp. apply Z.eqb_eq in Est. auto.
Qed.

(** A returned frame is the empty one or the frame of the week's table. *)
Lemma week_frame_cases (env : environment) (position : string) (week year : Z)
  (df : pd.DataFrame) :
  week_frame env position week year = Ok df ->
  df = pd.DataFrame_
  \/ exists table,
       week_table env position week year = Some table
       /\ table_rows table <> []
       /\ df = {| pd.columns := "year" :: "week" :: table_headers table;
                  pd.data := map (stat_row year week) (table_rows table) |}.
Proof.
  unfold week_frame. rewrite fetch_week_data_eq. cbv zeta.
  destruct (requests_get env (week_url position week year) HEADERS)
    as [resp|e] eqn:Hget; [|discriminate].
  destruct (status_code resp =? 200) eqn:Est; cbn [negb].
  - destruct (page_table env resp) as [table|] eqn:Etab; cbn [snd].
    + intros H. apply table_frame_cases in H as [[_ ->]|[Hne ->]]; [now left|].
      right. exists table. split; [|now split].
      apply Z.eqb_eq in Est. eapply week_table_of_response; eauto.
    + destruct (page_parsed env resp); cbn [snd]; [|discriminate].
      intros H. injection H as <-. now left.
  - cbn [snd]. intros H. injection H as <-. now left.
Qed.

Lemma stat_row_length (year week : Z) (cells : list string) :
  List.length (stat_row year week cells) = S (S (List.length cells)).
Proof. unfold stat_row. cbn. now rewrite length_map. Qed.

Lemma table_frame_rectangular (table : Html.table) (week year : Z) :
  rectangular {| pd.columns := "year" :: "week" :: table_headers table;
                 pd.data := map (stat_row year week) (table_rows table) |}.
Proof.
  unfold rectangular. cbn [pd.columns pd.data].
  apply Forall_forall. intros row H.
  apply in_map_iff in H as (cells & <- & Hin).
  pose proof (table_rows_width table) as Hw. rewrite Forall_forall in Hw.
  destruct (Hw cells Hin) as [Hlen _].
  rewrite stat_row_length, Hlen. reflexivity.
Qed.

(** X3. A frame that [fetch_week_data] returns is rectangular (every row
    has one cell per column label), and it is either the empty frame or a
    frame with at least one row and at least three columns: a table with
    a header and no usable row gives the empty frame, never a frame of
    labels without rows. *)
Theorem week_frame_rectangular (env : environment) (position : string)
  (week year : Z) (df : pd.DataFrame) :
  week_frame env position week year = Ok df ->
  rectangular df
  /\ (df = pd.DataFrame_
      \/ (pd.data df <> [] /\ (3 <= List.length (pd.columns df))%nat)).
Proof.
  intros H. apply week_frame_cases in H as [->|(table & _ & Hne & ->)].
  - split; [constructor | now left].
  - split; [apply table_frame_rectangular|]. right.
    cbn [pd.columns pd.data]. split.
    + destruct (table_rows table); [contradiction | discriminate].
    + pose proof (table_rows_width table) as Hw.
      destruct (table_rows table) as [|cells rest]; [contradiction|].
      inversion Hw as [|? ? [Hlen Hcells] _]; subst.
      cbn [List.length]. rewrite <- Hlen.
      destruct cells; [contradiction | cbn; lia].
Qed.

Lemma week_frame_rectangular_witness :
  rectangular {| pd.columns := ["year"; "week"; "A"; "B"];
                 pd.data := [stat_row 2023 1 ["1"; "2"]] |}
  /\ ({| pd.columns := ["year"; "week"; "A"; "B"];
         pd.data := [stat_row 2023 1 ["1"; "2"]] |} = pd.DataFrame_
      \/ ([stat_row 2023 1 ["1"; "2"]] <> [] /\ (3 <= 4)%nat)).
Proof.
  exact (week_frame_rectangular (static_site 200 [table_AB]) "qb" 1 2023
           {| pd.columns := ["year"; "week"; "A"; "B"];
              pd.data := [stat_row 2023 1 ["1"; "2"]] |} eq_refl).
Defined.

(** X4. When the data table of a week has a header label "week" or "year"
    and at least one usable row, [fetch_week_data] raises the ValueError of
    [df.insert]; the loop of [scrape] catches it, prints it after "Error: "
    and goes on without any row of that week. *)
Theorem label_clash_skips_week (env : environment) (position : string)
  (year week : Z) (table : Html.table) :
  week_table env position week year = Some table ->
  table_rows table <> [] ->
  In "week" (table_headers table) \/ In "year" (table_headers table) ->
  exists label,
    (label = "week" \/ label = "year")
    /\ week_frame env position week year
       = Raise (ValueError ("cannot insert " ++ label ++ ", already exists"))
    /\ forall all_weeks,
         scrape_week env position year week all_weeks
         = ([EvPrint (msg_fetching position week year);
             EvGet (week_url position week year);
             EvPrint ("Error: cannot insert " ++ label ++ ", already exists")],
            Ok all_weeks).
Proof.
  intros Htab Hne Hclash.
  apply week_table_inv in Htab as (resp & Hget & Hst & Hpage).
  pose proof (week_frame_table _ _ _ _ _ _ Hget Hst Hpage) as Hfetch.
  assert (Hframe : exists label,
             (label = "week" \/ label = "year")
             /\ table_frame table week year
                = Raise (ValueError ("cannot insert " ++ label
                                     ++ ", already exists"))).
  { unfold table_frame.
    destruct (table_rows table) as [|r rs]; [contradiction|].
    cbn [nonempty_list negb].
    destruct (pd.mem "week" (table_headers table)) eqn:Ew.
    - exists "week". split; [now left|].
      now rewrite insert_clash.
    - exists "year". split; [now right|].
      rewrite insert_front_ok by exact Ew. cbn [rbind].
      rewrite insert_clash; [reflexivity|].
      cbn [pd.columns pd.DataFrame_of_rows]. apply mem_In. right.
      destruct Hclash as [Hw|Hy]; [|exact Hy].
      apply mem_In in Hw. congruence. }
  destruct Hframe as (label & Hlabel & Hframe).
  exists label. split; [exact Hlabel|].
  assert (Hwf : week_frame env position week year
                = Raise (ValueError ("cannot insert " ++ label
                                     ++ ", already exists"))).
  { unfold week_frame. now rewrite Hfetch. }
  split; [exact Hwf|].
  intros all_weeks. rewrite scrape_week_eq. cbv zeta.
  rewrite Hwf, Hfetch. reflexivity.
Qed.

Lemma label_clash_skips_week_witness :
  exists label,
    (label = "week" \/ label = "year")
    /\ week_frame (static_site 200 [table_week_label]) "qb" 1 2023
       = Raise (ValueError ("cannot insert " ++ label ++ ", already exists"))
    /\ forall all_weeks,
         scrape_week (static_site 200 [table_week_label]) "qb" 2023 1 all_weeks
         = ([EvPrint (msg_fetching "qb" 1 2023);
             EvGet (week_url "qb" 1 2023);
             EvPrint ("Error: cannot insert " ++ label ++ ", already exists")],
            Ok all_weeks).
Proof.
  apply (label_clash_skips_week (static_site 200 [table_week_label]) "qb" 2023 1
           table_week_label).
  - reflexivity.
  - vm_compute. discriminate.
  - left. vm_compute. auto.
Defined.

(* ------------------------------------------------------------------ *)
(** ** Trimmed text *)

Section Strip.

Variable sp : ascii -> bool.

Lemma lstrip_length (s : string) :
  (String.length (Py.lstrip_with sp s) <= String.length s)%nat.
Proof.
  induction s as [|a s IH]; cbn; [lia|]. destruct (sp a); cbn; lia.
Qed.

Lemma lstrip_idem (s : string) :
  Py.lstrip_with sp (Py.lstrip_with sp s) = Py.lstrip_with sp s.
Proof.
  induction s as [|a s IH]; cbn; [reflexivity|].
  destruct (sp a) eqn:Ha; [exact IH | cbn; now rewrite Ha].
Qed.

Lemma rstrip_cons_fixed (a : ascii) (t : string) :
  t <> EmptyString -> Py.rstrip_with sp t = t ->
  Py.rstrip_with sp (String a t) = String a t.
Proof.
  intros Hne H. simpl. rewrite H. destruct t; [congruence | reflexivity].
Qed.

Lemma rstrip_idem (s : string) :
  Py.rstrip_with sp (Py.rstrip_with sp s) = Py.rstrip_with sp s.
Proof.
  induction s as [|a s IH]; [reflexivity|].
  simpl. destruct (Py.rstrip_with sp s) as [|b r] eqn:Er.
  - destruct (sp a) eqn:Ha; simpl; [reflexivity | now rewrite Ha].
  - apply rstrip_cons_fixed; [discriminate | exact IH].
Qed.

(** Stripping on the right keeps a string that does not start with
    whitespace free of leading whitespace. *)
Lemma lstrip_rstrip (s : string) :
  Py.lstrip_with sp s = s ->
  Py.lstrip_with sp (Py.rstrip_with sp s) = Py.rstrip_with sp s.
Proof.
  destruct s as [|a s]; [reflexivity|]. cbn.
  destruct (sp a) eqn:Ha.
  - intros H. exfalso.
    pose proof (lstrip_length s) as Hlen. rewrite H in Hlen.
    cbn in Hlen. lia.
  - intros _. destruct (Py.rstrip_with sp s); cbn; now rewrite Ha.
Qed.

Lemma strip_lfix (s : string) :
  Py.lstrip_with sp (Py.strip_with sp s) = Py.strip_with sp s.
Proof. unfold Py.strip_with. apply lstrip_rstrip, lstrip_idem. Qed.

Lemma strip_rfix (s : string) :
  Py.rstrip_with sp (Py.strip_with sp s) = Py.strip_with sp s.
Proof. unfold Py.strip_with. apply rstrip_idem. Qed.

Lemma lstrip_app (u v : string) :
  u <> EmptyString -> Py.lstrip_with sp u = u ->
  Py.lstrip_with sp (u ++ v) = u ++ v.
Proof.
  destruct u as [|a u]; [congruence|]. intros _. cbn.
  destruct (sp a) eqn:Ha; [|reflexivity].
  intros H. exfalso.
  pose proof (lstrip_length u) as Hlen. rewrite H in Hlen.
  cbn in Hlen. lia.
Qed.

Lemma rstrip_app (u v : string) :
  v <> EmptyString -> Py.rstrip_with sp v = v ->
  Py.rstrip_with sp (u ++ v) = u ++ v.
Proof.
  intros Hne Hv. induction u as [|a u IH]; cbn; [exact Hv|].
  rewrite IH. destruct (u ++ v) eqn:E; [|reflexivity].
  destruct u; cbn in E; [congruence | discriminate].
Qed.

(** Joining non-empty pieces that are free of leading and trailing
    whitespace gives such a string again. *)
Lemma concat_fixed (pieces : list string) :
  Forall (fun u => u <> EmptyString
                   /\ Py.lstrip_with sp u = u /\ Py.rstrip_with sp u = u)
    pieces ->
  Py.lstrip_with sp (String.concat EmptyString pieces)
  = String.concat EmptyString pieces
  /\ Py.rstrip_with sp (String.concat EmptyString pieces)
     = String.concat EmptyString pieces.
Proof.
  induction 1 as [|u rest (Hne & Hl & Hr) Hrest [IHl IHr]]; [now split|].
  destruct rest as [|v rest']; [now split|].
  change (String.concat EmptyString (u :: v :: rest'))
    with (u ++ String.concat EmptyString (v :: rest')).
  split; [now apply lstrip_app|].
  apply rstrip_app; [|exact IHr].
  inversion Hrest as [|? ? (Hv & _) _]; subst.
  destruct rest'; cbn; [exact Hv|].
  destruct v; [congruence | discriminate].
Qed.

End Strip.

Lemma get_text_strip_trimmed (c : Html.cell) : trimmed (Html.get_text_strip c).
Proof.
  unfold trimmed, Py.strip, Html.get_text_strip.
  destruct (concat_fixed Py.isspace
              (filter Html.nonempty (map Py.strip (Html.strings c))))
    as [Hl Hr].
  - apply Forall_forall. intros u Hu.
    apply filter_In in Hu as [Hin Hne].
    apply in_map_iff in Hin as (x & <- & _).
    split; [|split].
    + intros E. rewrite E in Hne. discriminate.
    + apply strip_lfix.
    + apply strip_rfix.
  - unfold Py.strip_with. now rewrite Hl, Hr.
Qed.

(** X5. Every column label and every cell of a frame that
    [fetch_week_data] returns is free of leading and trailing
    whitespace. *)
Theorem frame_text_trimmed (env : environment) (position : string)
  (week year : Z) (df : pd.DataFrame) :
  week_frame env position week year = Ok df ->
  Forall trimmed (pd.columns df)
  /\ Forall (Forall trimmed_value) (pd.data df).
Proof.
  intros H. apply week_frame_cases in H as [->|(table & _ & _ & ->)].
  - split; constructor.
  - cbn [pd.columns pd.data]. split.
    + constructor; [reflexivity|]. constructor; [reflexivity|].
      unfold table_headers. apply Forall_forall. intros label Hin.
      apply in_map_iff in Hin as (c & <- & _). apply get_text_strip_trimmed.
    + apply Forall_forall. intros row Hin.
      apply in_map_iff in Hin as (cells & <- & Hcells).
      unfold stat_row. constructor; [exact I|]. constructor; [exact I|].
      apply Forall_forall. intros v Hv.
      apply in_map_iff in Hv as (cell & <- & Hcell). cbn.
      rewrite table_rows_filter in Hcells.
      apply filter_In in Hcells as [Hcells _].
      apply in_map_iff in Hcells as (r & <- & _).
      unfold row_cells in Hcell.
      apply in_map_iff in Hcell as (c & <- & _). apply get_text_strip_trimmed.
Qed.

Lemma frame_text_trimmed_witness :
  Forall trimmed ["year"; "week"; "Player"; "TD"]
  /\ Forall (Forall trimmed_value)
       [[pd.VInt 2023; pd.VInt 1; pd.VStr "P. Manning"; pd.VStr "7"]].
Proof.
  exact (frame_text_trimmed (static_site 200 [table_padded]) "qb" 1 2023
           {| pd.columns := ["year"; "week"; "Player"; "TD"];
              pd.data := [[pd.VInt 2023; pd.VInt 1; pd.VStr "P. Manning";
                           pd.VStr "7"]] |}
           ltac:(vm_compute; reflexivity)).
Defined.

(* ------------------------------------------------------------------ *)
(** ** The trace of a scrape *)

Lemma gets_bind {A B : Type} (m : M A) (k : A -> M B) :
  gets (fst (bind m k))
  = (gets (fst m)
     ++ match snd m with
        | Ok a => gets (fst (k a))
        | Raise e => []
        end)%list.
Proof.
  destruct m as [t [a|e]]; simpl; [|now rewrite app_nil_r].
  destruct (k a). simpl. apply gets_app.
Qed.

Lemma scrape_week_gets (env : environment) (position : string) (year week : Z)
  (all_weeks : list pd.DataFrame) :
  gets (fst (scrape_week env position year week all_weeks))
  = [week_url position week year].
Proof.
  rewrite scrape_week_eq. cbv zeta.
  destruct (fetch_week_data_trace env position week year) as [Hg _].
  destruct (week_frame env position week year) as [df|e].
  - cbn [fst]. now rewrite gets_app, Hg.
  - destruct (is_Exception e); cbn [fst]; [|exact Hg].
    now rewrite gets_app, Hg.
Qed.

Lemma scrape_loop_gets_prefix (env : environment) (position : string)
  (year : Z) (weeks : list Z) (all_weeks : list pd.DataFrame) :
  exists n,
    gets (fst (scrape_loop env position year weeks all_weeks))
    = firstn n (pair_requests position year weeks).
Proof.
  revert all_weeks. induction weeks as [|week rest IH]; intros all_weeks.
  - exists O. reflexivity.
  - cbn [scrape_loop]. rewrite gets_bind, scrape_week_gets.
    destruct (snd (scrape_week env position year week all_weeks)) as [acc|e].
    + destruct (IH acc) as (n & ->). exists (S n). reflexivity.
    + exists 1%nat. reflexivity.
Qed.

Lemma write_phase_gets (env : environment) (position : string) (year : Z)
  (output_dir file_format : string) (all_weeks : list pd.DataFrame) :
  gets (fst (write_phase env position year output_dir file_format all_weeks))
  = [].
Proof.
  rewrite write_phase_eq. cbv zeta.
  destruct all_weeks as [|df dfs]; [reflexivity|].
  destruct (pd.concat (df :: dfs)) as [year_df|e]; [|reflexivity].
  destruct (makedirs_error env _); [reflexivity|].
  destruct (format_kind _) as [kind|]; [|reflexivity].
  destruct (to_file_error env kind _ year_df); reflexivity.
Qed.

Lemma scrape_gets (env : environment) (position : string) (year : Z)
  (weeks : list Z) (output_dir file_format : string) :
  gets (fst (scrape env position year weeks output_dir file_format))
  = gets (fst (scrape_loop env position year weeks [])).
Proof.
  rewrite scrape_eq, gets_bind. cbn [print emit fst snd gets app].
  rewrite gets_bind.
  destruct (snd (scrape_loop env position year weeks [])) as [l|e];
    [|now rewrite app_nil_r].
  now rewrite write_phase_gets, app_nil_r.
Qed.

Lemma scrape_requests_prefix (env : environment) (position : string)
  (year : Z) (weeks : list Z) (output_dir file_format : string) :
  exists n,
    gets (fst (scrape env position year weeks output_dir file_format))
    = firstn n (pair_requests position year weeks).
Proof. rewrite scrape_gets. apply scrape_loop_gets_prefix. Qed.

Lemma In_firstn {A : Type} (n : nat) (l : list A) (x : A) :
  In x (firstn n l) -> In x l.
Proof.
  intros H. rewrite <- (firstn_skipn n l). apply in_or_app. now left.
Qed.

(** X6. [scrape] sends its requests in week-list order, one per week and
    only for its own position and year: the URLs requested are always an
    initial part of the list of the weeks' URLs, and they are the whole
    list unless a request is interrupted. *)
Theorem scrape_requests_in_order (env : environment) (position : string)
  (year : Z) (weeks : list Z) (output_dir file_format : string) :
  (exists n,
      gets (fst (scrape env position year weeks output_dir file_format))
      = firstn n (pair_requests position year weeks))
  /\ (no_interrupt env position year weeks ->
      gets (fst (scrape env position year weeks output_dir file_format))
      = pair_requests position year weeks).
Proof.
  rewrite scrape_gets. split.
  - apply scrape_loop_gets_prefix.
  - intros Hno.
    destruct (scrape_loop_returns env position year weeks [] Hno)
      as (t & -> & Hg & _).
    exact Hg.
Qed.

Lemma scrape_requests_in_order_witness :
  gets (fst (scrape site_week1_down "qb" 2023 [1; 2; 3] "data" "csv"))
  = pair_requests "qb" 2023 [1; 2; 3].
Proof.
  apply (proj2 (scrape_requests_in_order site_week1_down "qb" 2023 [1; 2; 3]
                  "data" "csv")).
  intros week e _. unfold site_week1_down. cbn [requests_get].
  destruct (String.eqb _ _); [|discriminate].
  intros H. injection H as <-. reflexivity.
Defined.

Lemma scrape_week_interrupt (env : environment) (position : string)
  (year week : Z) (all_weeks : list pd.DataFrame) (e : exn) :
  requests_get env (week_url position week year) HEADERS = Raise e ->
  is_Exception e = false ->
  scrape_week env position year week all_weeks
  = ([EvPrint (msg_fetching position week year);
      EvGet (week_url position week year)], Raise e).
Proof.
  intros Hr Hx. rewrite scrape_week_eq. unfold week_frame.
  rewrite fetch_week_data_eq. cbv zeta. rewrite Hr. cbn [snd fst].
  now rewrite Hx.
Qed.

(** X7. An exception that [except Exception] does not catch (such as a
    keyboard interrupt during a request) ends [scrape] at once: the call
    raises it, the weeks after the interrupted one are never requested,
    and no file is written, whatever the earlier weeks had yielded. *)
Theorem interrupt_escapes_scrape (env : environment) (position : string)
  (year : Z) (pre : list Z) (week : Z) (post : list Z)
  (output_dir file_format : string) (e : exn) :
  no_interrupt env position year pre ->
  requests_get env (week_url position week year) HEADERS = Raise e ->
  is_Exception e = false ->
  snd (scrape env position year (pre ++ week :: post) output_dir file_format)
  = Raise e
  /\ writes (fst (scrape env position year (pre ++ week :: post) output_dir
                    file_format)) = []
  /\ gets (fst (scrape env position year (pre ++ week :: post) output_dir
                  file_format))
     = pair_requests position year (pre ++ [week]).
Proof.
  intros Hno Hr Hx.
  destruct (scrape_loop_returns env position year pre [] Hno)
    as (t & Epre & Hg & _).
  assert (Eloop : scrape_loop env position year (pre ++ week :: post) []
                  = ((t ++ [EvPrint (msg_fetching position week year);
                            EvGet (week_url position week year)])%list,
                     Raise e)).
  { rewrite scrape_loop_app, Epre. cbn [bind scrape_loop].
    now rewrite (scrape_week_interrupt _ _ _ _ _ _ Hr Hx). }
  destruct (scrape_by_loop env position year (pre ++ week :: post)
              output_dir file_format) as [-> ->].
  rewrite scrape_gets, Eloop. cbn [snd fst].
  repeat split.
  rewrite gets_app, Hg. unfold pair_requests. now rewrite map_app.
Qed.

Lemma interrupt_escapes_scrape_witness :
  snd (scrape site_interrupt_week2 "qb" 2023 ([1] ++ 2 :: [3]) "data" "csv")
  = Raise KeyboardInterrupt
  /\ writes (fst (scrape site_interrupt_week2 "qb" 2023 ([1] ++ 2 :: [3])
                    "data" "csv")) = []
  /\ gets (fst (scrape site_interrupt_week2 "qb" 2023 ([1] ++ 2 :: [3])
                  "data" "csv"))
     = pair_requests "qb" 2023 ([1] ++ [2]).
Proof.
  apply (interrupt_escapes_scrape site_interrupt_week2 "qb" 2023 [1] 2 [3]
           "data" "csv" KeyboardInterrupt).
  - intros week e [<-|[]] H. vm_compute in H. discriminate.
  - vm_compute. reflexivity.
  - reflexivity.
Defined.

Lemma sleeps_app (a b : list event) : sleeps (a ++ b) = (sleeps a + sleeps b)%nat.
Proof.
  induction a as [|e a IH]; simpl; [reflexivity|].
  destruct e; simpl; now rewrite IH.
Qed.

Lemma sleeps_bind {A B : Type} (m : M A) (k : A -> M B) :
  sleeps (fst (bind m k))
  = (sleeps (fst m)
     + match snd m with
       | Ok a => sleeps (fst (k a))
       | Raise e => O
       end)%nat.
Proof.
  destruct m as [t [a|e]]; simpl; [|lia].
  destruct (k a). simpl. apply sleeps_app.
Qed.

Lemma fetch_week_data_no_sleep (env : environment) (position : string)
  (week year : Z) :
  sleeps (fst (fetch_week_data env position week year)) = O.
Proof.
  rewrite fetch_week_data_eq. cbv zeta.
  destruct (requests_get env (week_url position week year) HEADERS)
    as [resp|e]; [|reflexivity].
  destruct (negb (status_code resp =? 200)); [reflexivity|].
  destruct (page_table env resp); [reflexivity|].
  destruct (page_parsed env resp); reflexivity.
Qed.

Lemma write_phase_no_sleep (env : environment) (position : string) (year : Z)
  (output_dir file_format : string) (all_weeks : list pd.DataFrame) :
  sleeps (fst (write_phase env position year output_dir file_format all_weeks))
  = O.
Proof.
  rewrite write_phase_eq. cbv zeta.
  destruct all_weeks as [|df dfs]; [reflexivity|].
  destruct (pd.concat (df :: dfs)) as [year_df|e]; [|reflexivity].
  destruct (makedirs_error env _); [reflexivity|].
  destruct (format_kind _) as [kind|]; [|reflexivity].
  destruct (to_file_error env kind _ year_df); reflexivity.
Qed.

Lemma scrape_week_events (env : environment) (position : string)
  (year week : Z) (all_weeks : list pd.DataFrame) :
  (forall e, requests_get env (week_url position week year) HEADERS = Raise e ->
             is_Exception e = true) ->
  scrape_week env position year week all_weeks
  = (week_events env position year week,
     Ok (all_weeks ++ week_part env position year week)%list).
Proof.
  intros Hno. rewrite scrape_week_eq. cbv zeta. unfold week_events, week_part.
  destruct (week_frame env position week year) as [df|e] eqn:E; [reflexivity|].
  destruct (is_Exception e) eqn:Ex; [now rewrite app_nil_r|].
  pose proof (week_frame_uncaught _ _ _ _ _ E Ex) as Hr.
  rewrite (Hno e Hr) in Ex. discriminate.
Qed.

Lemma scrape_loop_events (env : environment) (position : string) (year : Z)
  (weeks : list Z) (all_weeks : list pd.DataFrame) :
  no_interrupt env position year weeks ->
  scrape_loop env position year weeks all_weeks
  = (flat_map (week_events env position year) weeks,
     Ok (all_weeks ++ collected env position year weeks)%list).
Proof.
  revert all_weeks. induction weeks as [|week rest IH]; intros all_weeks Hno.
  - cbn. now rewrite app_nil_r.
  - cbn [scrape_loop flat_map].
    rewrite scrape_week_events
      by (intros e He; apply (Hno week e); [now left | exact He]).
    cbn [bind]. rewrite IH by (intros w e Hin; apply Hno; now right).
    unfold collected. cbn [flat_map]. now rewrite app_assoc.
Qed.

Lemma week_events_sleeps (env : environment) (position : string)
  (year week : Z) :
  sleeps (week_events env position year week)
  = if fetch_returns env position year week then 1%nat else O.
Proof.
  unfold week_events, fetch_returns.
  rewrite sleeps_app, fetch_week_data_no_sleep.
  destruct (week_frame env position week year); reflexivity.
Qed.

Lemma flat_map_week_events_sleeps (env : environment) (position : string)
  (year : Z) (weeks : list Z) :
  sleeps (flat_map (week_events env position year) weeks)
  = List.length (filter (fetch_returns env position year) weeks).
Proof.
  induction weeks as [|week rest IH]; [reflexivity|].
  cbn [flat_map filter]. rewrite sleeps_app, week_events_sleeps, IH.
  destruct (fetch_returns env position year week); reflexivity.
Qed.

(** X8. Unless a request is interrupted, the events of [scrape] are the
    "Scraping" line, then, week after week in list order, the events of
    the fetch of the week followed at once by one pause when the fetch
    returned (with rows, without a table or with a bad status) and by the
    error line, without a pause, when it raised; then the events of the
    write phase.  Neither a fetch nor the write phase pauses, so that the
    pauses are exactly those that end the returning weeks. *)
Theorem scrape_pauses (env : environment) (position : string) (year : Z)
  (weeks : list Z) (output_dir file_format : string) :
  no_interrupt env position year weeks ->
  fst (scrape env position year weeks output_dir file_format)
  = (EvPrint (msg_scraping position year)
     :: flat_map (week_events env position year) weeks
     ++ fst (write_phase env position year output_dir file_format
               (collected env position year weeks)))%list
  /\ (forall week,
        sleeps (fst (fetch_week_data env position week year)) = O
        /\ (fetch_returns env position year week = true ->
            week_events env position year week
            = (fst (fetch_week_data env position week year) ++ [EvSleep])%list)
        /\ (forall e,
              week_frame env position week year = Raise e ->
              week_events env position year week
              = (fst (fetch_week_data env position week year)
                 ++ [EvPrint ("Error: " ++ exn_str e)])%list))
  /\ sleeps (fst (write_phase env position year output_dir file_format
                    (collected env position year weeks))) = O
  /\ sleeps (fst (scrape env position year weeks output_dir file_format))
     = List.length (filter (fetch_returns env position year) weeks).
Proof.
  intros Hno.
  assert (Etr : fst (scrape env position year weeks output_dir file_format)
                = (EvPrint (msg_scraping position year)
                   :: flat_map (week_events env position year) weeks
                   ++ fst (write_phase env position year output_dir file_format
                             (collected env position year weeks)))%list).
  { rewrite scrape_eq. unfold print, emit. cbn [bind].
    rewrite (scrape_loop_events env position year weeks [] Hno).
    cbn [bind]. rewrite app_nil_l.
    destruct (write_phase env position year output_dir file_format
                (collected env position year weeks)) as [t r].
    reflexivity. }
  split; [exact Etr|]. split; [|split].
  - intros week. split; [apply fetch_week_data_no_sleep|].
    unfold week_events, fetch_returns. split.
    + destruct (week_frame env position week year);
        [reflexivity | discriminate].
    + intros e ->. reflexivity.
  - apply write_phase_no_sleep.
  - rewrite Etr. cbn [sleeps].
    now rewrite sleeps_app, flat_map_week_events_sleeps, write_phase_no_sleep,
      Nat.add_0_r.
Qed.

Lemma scrape_pauses_witness :
  fst (scrape site_week1_down "qb" 2023 [1; 2] "data" "csv")
  = [EvPrint (msg_scraping "qb" 2023);
     EvPrint (msg_fetching "qb" 1 2023); EvGet (week_url "qb" 1 2023);
     EvPrint "Error: timed out";
     EvPrint (msg_fetching "qb" 2 2023); EvGet (week_url "qb" 2 2023);
     EvSleep;
     EvMakedirs "data/qb";
     EvToFile csv "data/qb/qb_2023.csv"
       {| pd.columns := ["year"; "week"; "A"; "B"];
          pd.data := [stat_row 2023 2 ["1"; "2"]] |};
     EvPrint "Saved 1 rows → data/qb/qb_2023.csv"]
  /\ sleeps (fst (scrape site_week1_down "qb" 2023 [1; 2] "data" "csv"))
     = 1%nat.
Proof.
  assert (Hno : no_interrupt site_week1_down "qb" 2023 [1; 2]).
  { intros week e _. unfold site_week1_down. cbn [requests_get].
    destruct (String.eqb _ _); [|discriminate].
    intros H. injection H as <-. reflexivity. }
  destruct (scrape_pauses site_week1_down "qb" 2023 [1; 2] "data" "csv" Hno)
    as (Etr & _ & _ & Hn).
  split; [|exact Hn].
  rewrite Etr. vm_compute. reflexivity.
Defined.

(* ------------------------------------------------------------------ *)
(** ** The written file *)

(** The trace of a call that wrote a file. *)
Lemma scrape_write_tail (env : environment) (position : string) (year : Z)
  (weeks : list Z) (output_dir file_format : string) (kind : file_kind)
  (path : string) (year_df : pd.DataFrame) :
  In (EvToFile kind path year_df)
     (fst (scrape env position year weeks output_dir file_format)) ->
  exists before,
    scrape env position year weeks output_dir file_format
    = ((before
        ++ [EvMakedirs (os_path_join output_dir position);
            EvToFile kind path year_df;
            EvPrint (msg_saved year_df path)])%list, Ok tt)
    /\ writes before = []
    /\ gets before = pair_requests position year weeks.
Proof.
  intros Hin.
  destruct (scrape_written_frame _ _ _ _ _ _ _ _ _ Hin) as (Hc & Hne & ->).
  apply In_writes in Hin. revert Hin.
  rewrite scrape_eq. unfold print, emit. cbn [bind].
  destruct (scrape_loop env position year weeks []) as [t1 [l|e]] eqn:El.
  2:{ apply scrape_loop_raise in El as (Hw & _). cbn. rewrite Hw.
      intros []. }
  apply scrape_loop_ok in El as (-> & Hg & Hw). rewrite app_nil_l.
  cbn [bind]. rewrite write_phase_eq. cbv zeta.
  destruct (collected env position year weeks) as [|df dfs];
    [contradiction|].
  rewrite Hc.
  destruct (makedirs_error env (os_path_join output_dir position)).
  { cbn. rewrite app_nil_r, Hw. intros []. }
  destruct (format_kind (Py.lower file_format)) as [kind'|].
  2:{ cbn. rewrite writes_app, Hw. intros []. }
  destruct (to_file_error env kind' _ year_df).
  { cbn. rewrite writes_app, Hw. intros []. }
  cbn [fst]. rewrite !writes_app, Hw. cbn.
  intros [H|[]]. injection H as ->.
  exists (EvPrint (msg_scraping position year) :: t1).
  split; [reflexivity|]. split; cbn; [exact Hw | exact Hg].
Qed.

(** X9. Whenever [scrape] writes a file, all the requests of the weeks
    come before the write, the directory of the position is created
    immediately before it, and nothing follows it but the "Saved" line,
    which reports the number of rows of the written frame. *)
Theorem write_follows_makedirs (env : environment) (position : string)
  (year : Z) (weeks : list Z) (output_dir file_format : string)
  (kind : file_kind) (path : string) (year_df : pd.DataFrame) :
  In (EvToFile kind path year_df)
     (fst (scrape env position year weeks output_dir file_format)) ->
  exists before after,
    fst (scrape env position year weeks output_dir file_format)
    = (before
       ++ [EvMakedirs (os_path_join output_dir position);
           EvToFile kind path year_df]
       ++ after)%list
    /\ writes before = []
    /\ gets before = pair_requests position year weeks
    /\ (forall ev,
          In ev after ->
          ev = EvPrint ("Saved "
                        ++ Py.str (Z.of_nat (List.length (pd.data year_df)))
                        ++ " rows → " ++ path)).
Proof.
  intros Hin. apply scrape_write_tail in Hin as (before & -> & Hw & Hg).
  exists before, [EvPrint (msg_saved year_df path)].
  split; [reflexivity|]. split; [exact Hw|]. split; [exact Hg|].
  intros ev [<-|[]]. reflexivity.
Qed.

Lemma write_follows_makedirs_witness :
  exists before after,
    fst (scrape site_week1_only "qb" 2023 [1; 2] "out" "csv")
    = (before
       ++ [EvMakedirs (os_path_join "out" "qb");
           EvToFile csv "out/qb/qb_2023.csv"
             {| pd.columns := ["year"; "week"; "A"; "B"];
                pd.data := [stat_row 2023 1 ["1"; "2"]] |}]
       ++ after)%list
    /\ writes before = []
    /\ gets before = pair_requests "qb" 2023 [1; 2]
    /\ (forall ev,
          In ev after ->
          ev = EvPrint ("Saved " ++ Py.str (Z.of_nat 1)
                        ++ " rows → " ++ "out/qb/qb_2023.csv")).
Proof.
  apply (write_follows_makedirs site_week1_only "qb" 2023 [1; 2] "out" "csv"
           csv "out/qb/qb_2023.csv"
           {| pd.columns := ["year"; "week"; "A"; "B"];
              pd.data := [stat_row 2023 1 ["1"; "2"]] |}).
  vm_compute. auto 20.
Defined.

Lemma total_rows_flat_map (objs : list pd.DataFrame) :
  Z.of_nat (List.length (flat_map pd.data objs)) = total_rows objs.
Proof.
  induction objs as [|o objs IH]; [reflexivity|].
  cbn [flat_map total_rows fold_right]. fold (total_rows objs).
  rewrite length_app, <- IH. unfold pd.len. lia.
Qed.

Lemma total_rows_reindex (cols : list string) (objs : list pd.DataFrame) :
  Z.of_nat (List.length (flat_map (pd.reindex cols) objs)) = total_rows objs.
Proof.
  induction objs as [|o objs IH]; [reflexivity|].
  cbn [flat_map total_rows fold_right]. fold (total_rows objs).
  rewrite length_app, <- IH. unfold pd.len, pd.reindex.
  rewrite length_map. lia.
Qed.

(** Combining frames keeps every row. *)
Lemma concat_len (objs : list pd.DataFrame) (df : pd.DataFrame) :
  pd.concat objs = Ok df -> pd.len df = total_rows objs.
Proof.
  destruct objs as [|first others]; [discriminate|].
  unfold pd.concat.
  destruct (forallb _ others).
  - intros H. injection H as <-. unfold pd.len. cbn [pd.data].
    apply (total_rows_flat_map (first :: others)).
  - destruct (forallb _ (first :: others)); [|discriminate].
    cbv zeta. intros H. injection H as <-. unfold pd.len. cbn [pd.data].
    apply (total_rows_reindex _ (first :: others)).
Qed.

(** X10. The frame that [scrape] writes has as many rows as all the
    weeks' frames together: no row of a week that yielded rows is lost or
    repeated when the weeks are combined. *)
Theorem written_row_count (env : environment) (position : string)
  (year : Z) (weeks : list Z) (output_dir file_format : string)
  (kind : file_kind) (path : string) (year_df : pd.DataFrame) :
  In (EvToFile kind path year_df)
     (fst (scrape env position year weeks output_dir file_format)) ->
  pd.len year_df = total_rows (collected env position year weeks)
  /\ 1 <= pd.len year_df.
Proof.
  intros Hin. apply scrape_written_frame in Hin as (Hc & Hne & _).
  pose proof (concat_len _ _ Hc) as Hlen. split; [exact Hlen|].
  rewrite Hlen.
  pose proof (collected_frames env position year weeks) as Hall.
  destruct (collected env position year weeks) as [|df dfs]; [contradiction|].
  inversion Hall as [|? ? (week & table & [_ Hy] & Htab & ->) Hrest]; subst.
  cbn [total_rows fold_right]. fold (total_rows dfs).
  assert (Hpos : forall l, 0 <= total_rows l).
  { induction l as [|o l IH]; cbn; [lia|]. fold (total_rows l).
    unfold pd.len. lia. }
  specialize (Hpos dfs).
  assert (Hrows : table_rows table <> []).
  { unfold yields_rows, week_part in Hy.
    destruct (week_frame env position week year) as [df|e] eqn:E;
      [|discriminate].
    destruct (pd.empty df) eqn:Ee; [discriminate|].
    destruct (week_frame_shape _ _ _ _ _ E Ee)
      as (resp & table' & Hget & Hst & Hpage & _ & Hr & _).
    rewrite (week_table_of_response _ _ _ _ _ _ Hget Hst Hpage) in Htab.
    now injection Htab as <-. }
  unfold pd.len. cbn [pd.data]. rewrite length_map.
  destruct (table_rows table); [contradiction | cbn [List.length]; lia].
Qed.

Lemma written_row_count_witness :
  pd.len {| pd.columns := ["year"; "week"; "A"; "B"];
            pd.data := [stat_row 2023 1 ["1"; "2"];
                        stat_row 2023 2 ["1"; "2"]] |}
  = total_rows (collected (static_site 200 [table_AB]) "qb" 2023 [1; 2])
  /\ 1 <= pd.len {| pd.columns := ["year"; "week"; "A"; "B"];
                    pd.data := [stat_row 2023 1 ["1"; "2"];
                                stat_row 2023 2 ["1"; "2"]] |}.
Proof.
  apply (written_row_count (static_site 200 [table_AB]) "qb" 2023 [1; 2]
           "data" "csv" csv "data/qb/qb_2023.csv").
  vm_compute. auto 20.
Defined.

Lemma collected_rectangular (env : environment) (position : string) (year : Z)
  (weeks : list Z) :
  Forall rectangular (collected env position year weeks).
Proof.
  eapply Forall_impl; [|apply collected_frames].
  intros df (week & table & _ & _ & ->). apply table_frame_rectangular.
Qed.

(** Combining rectangular frames gives a rectangular frame. *)
Lemma concat_rectangular (objs : list pd.DataFrame) (df : pd.DataFrame) :
  Forall rectangular objs -> pd.concat objs = Ok df -> rectangular df.
Proof.
  intros Hall. destruct objs as [|first others]; [discriminate|].
  unfold pd.concat.
  destruct (forallb _ others) eqn:Esame.
  - intros H. injection H as <-. unfold rectangular. cbn [pd.columns pd.data].
    apply (Forall_flat_map_intro _ pd.data (first :: others)).
    rewrite forallb_forall in Esame.
    apply Forall_forall. intros o Ho.
    rewrite Forall_forall in Hall. specialize (Hall o Ho).
    assert (Ecols : pd.columns o = pd.columns first).
    { destruct Ho as [<-|Ho]; [reflexivity|].
      now apply list_string_eqb_eq, Esame. }
    unfold rectangular in Hall. now rewrite Ecols in Hall.
  - destruct (forallb _ (first :: others)); [|discriminate].
    cbv zeta. intros H. injection H as <-.
    unfold rectangular. cbn [pd.columns pd.data].
    set (cols := pd.unique (flat_map pd.columns (first :: others)) []).
    apply (Forall_flat_map_intro _ (pd.reindex cols) (first :: others)).
    apply Forall_forall. intros o _. unfold pd.reindex.
    apply Forall_forall. intros row Hrow.
    apply in_map_iff in Hrow as (row0 & <- & _). apply length_map.
Qed.

(** X11. Every frame that [scrape] writes is rectangular: each of its
    rows has exactly one cell per column label. *)
Theorem written_frame_rectangular (env : environment) (position : string)
  (year : Z) (weeks : list Z) (output_dir file_format : string)
  (kind : file_kind) (path : string) (year_df : pd.DataFrame) :
  In (EvToFile kind path year_df)
     (fst (scrape env position year weeks output_dir file_format)) ->
  Forall (fun row => List.length row = List.length (pd.columns year_df))
    (pd.data year_df).
Proof.
  intros Hin. apply scrape_written_frame in Hin as (Hc & _ & _).
  exact (concat_rectangular _ _ (collected_rectangular env position year weeks)
           Hc).
Qed.

Lemma written_frame_rectangular_witness :
  Forall (fun row => List.length row = 4%nat)
    [stat_row 2023 1 ["1"; "2"]; stat_row 2023 2 ["1"; "2"]].
Proof.
  apply (written_frame_rectangular (static_site 200 [table_AB]) "qb" 2023
           [1; 2] "data" "csv" csv "data/qb/qb_2023.csv"
           {| pd.columns := ["year"; "week"; "A"; "B"];
              pd.data := [stat_row 2023 1 ["1"; "2"];
                          stat_row 2023 2 ["1"; "2"]] |}).
  vm_compute. auto 20.
Defined.

Lemma collected_app (env : environment) (position : string) (year : Z)
  (a b : list Z) :
  collected env position year (a ++ b)
  = (collected env position year a ++ collected env position year b)%list.
Proof. unfold collected. apply flat_map_app. Qed.

(** X12. When a single week of the list yields rows, the written frame
    is exactly the frame of that week: the weeks without rows (no table,
    bad status, failed request) leave no trace in the file. *)
Theorem single_week_file (env : environment) (position : string) (year : Z)
  (pre : list Z) (week : Z) (post : list Z) (output_dir file_format : string)
  (df : pd.DataFrame) (kind : file_kind) (path : string)
  (year_df : pd.DataFrame) :
  (forall w, In w (pre ++ post) -> yields_rows env position year w = false) ->
  week_frame env position week year = Ok df -> pd.empty df = false ->
  In (EvToFile kind path year_df)
     (fst (scrape env position year (pre ++ week :: post) output_dir
             file_format)) ->
  year_df = df.
Proof.
  intros Hnone Hdf Hne Hin.
  apply scrape_written_frame in Hin as (Hc & _ & _).
  change (week :: post) with ([week] ++ post)%list in Hc.
  rewrite !collected_app in Hc.
  rewrite (proj2 (collected_nil env position year pre)) in Hc
    by (intros w Hw; apply Hnone, in_or_app; now left).
  rewrite (proj2 (collected_nil env position year post)) in Hc
    by (intros w Hw; apply Hnone, in_or_app; now right).
  unfold collected in Hc. cbn [flat_map] in Hc. unfold week_part in Hc.
  rewrite Hdf, Hne in Hc. cbn in Hc. rewrite !app_nil_r in Hc.
  injection Hc as <-. now destruct df.
Qed.

Lemma single_week_file_witness :
  {| pd.columns := ["year"; "week"; "A"; "B"];
     pd.data := [stat_row 2023 1 ["1"; "2"]] |}
  = {| pd.columns := ["year"; "week"; "A"; "B"];
       pd.data := [stat_row 2023 1 ["1"; "2"]] |}.
Proof.
  apply (single_week_file site_week1_only "qb" 2023 [] 1 [2; 3] "data" "csv"
           {| pd.columns := ["year"; "week"; "A"; "B"];
              pd.data := [stat_row 2023 1 ["1"; "2"]] |}
           csv "data/qb/qb_2023.csv").
  - intros w [<-|[<-|[]]]; vm_compute; reflexivity.
  - vm_compute. reflexivity.
  - reflexivity.
  - vm_compute. auto 20.
Defined.

(* ------------------------------------------------------------------ *)
(** ** The file format and the file path *)

Lemma lower_char_idem (c : ascii) :
  Py.lower_char (Py.lower_char c) = Py.lower_char c.
Proof.
  destruct c as [b0 b1 b2 b3 b4 b5 b6 b7].
  destruct b0, b1, b2, b3, b4, b5, b6, b7; reflexivity.
Qed.

Lemma lower_idem (s : string) : Py.lower (Py.lower s) = Py.lower s.
Proof.
  unfold Py.lower. induction s as [|a s IH]; cbn; [reflexivity|].
  now rewrite lower_char_idem, IH.
Qed.

Lemma scrape_written_kind (env : environment) (position : string) (year : Z)
  (weeks : list Z) (output_dir file_format : string) (kind : file_kind)
  (path : string) (year_df : pd.DataFrame) :
  In (EvToFile kind path year_df)
     (fst (scrape env position year weeks output_dir file_format)) ->
  format_kind (Py.lower file_format) = Some kind.
Proof.
  intros Hin. apply In_writes in Hin.
  destruct (scrape_cases env position year weeks output_dir file_format _ _
              (surjective_pairing _))
    as [Hw _ _ | before kind' df' saved E Hwb _ _ Hk _ _].
  - rewrite Hw in Hin. destruct Hin.
  - rewrite E, writes_app, Hwb in Hin. cbn in Hin.
    destruct Hin as [H|[]]. now injection H as <- _ _.
Qed.

(** X13. [scrape] reads its format without regard to letter case: a
    format and its lower-case form give the same run.  The writer is the
    one that the lower-case form of the format names, and the file name
    ends with that lower-case form, whatever the case of the format
    given; and when nothing fails, the file is written under that
    name. *)
Theorem scrape_format_case_insensitive (env : environment) (position : string)
  (year : Z) (weeks : list Z) (output_dir file_format : string) :
  scrape env position year weeks output_dir file_format
  = scrape env position year weeks output_dir (Py.lower file_format)
  /\ (forall kind path year_df,
        In (EvToFile kind path year_df)
           (fst (scrape env position year weeks output_dir file_format)) ->
        format_kind (Py.lower file_format) = Some kind
        /\ path = os_path_join (os_path_join output_dir position)
                    (position ++ "_" ++ Py.str year ++ "."
                     ++ Py.lower file_format))
  /\ (forall kind year_df,
        format_kind (Py.lower file_format) = Some kind ->
        no_interrupt env position year weeks ->
        pd.concat (collected env position year weeks) = Ok year_df ->
        makedirs_error env (os_path_join output_dir position) = None ->
        to_file_error env kind
          (os_path_join (os_path_join output_dir position)
             (position ++ "_" ++ Py.str year ++ "." ++ Py.lower file_format))
          year_df = None ->
        writes (fst (scrape env position year weeks output_dir file_format))
        = [(kind,
            os_path_join (os_path_join output_dir position)
              (position ++ "_" ++ Py.str year ++ "." ++ Py.lower file_format),
            year_df)]).
Proof.
  split; [|split].
  - rewrite !scrape_eq. apply bind_ext. intros _. apply bind_ext. intros l.
    unfold write_phase, output_path. now rewrite lower_idem.
  - intros kind path year_df Hin. split.
    + eapply scrape_written_kind; eauto.
    + now apply scrape_written_frame in Hin as (_ & _ & ->).
  - intros kind year_df Hk Hno Hc Hmk Hto.
    exact (proj1 (scrape_one_write env position year weeks output_dir
                    file_format kind year_df Hno Hc Hk Hmk Hto)).
Qed.

Lemma scrape_format_case_insensitive_witness :
  writes (fst (scrape (static_site 200 [table_AB]) "qb" 2023 [1] "data" "CSV"))
  = [(csv, "data/qb/qb_2023.csv",
      {| pd.columns := ["year"; "week"; "A"; "B"];
         pd.data := [stat_row 2023 1 ["1"; "2"]] |})].
Proof.
  apply (proj2 (proj2 (scrape_format_case_insensitive
                         (static_site 200 [table_AB]) "qb" 2023 [1]
                         "data" "CSV")) csv).
  - reflexivity.
  - intros week e _ Hr. discriminate Hr.
  - reflexivity.
  - reflexivity.
  - reflexivity.
Defined.

(** X14. With an extension other than csv, parquet and json (in any
    letter case), [scrape] never writes a file; yet, when rows were
    collected and nothing fails, it still creates the directory, prints
    the "Saved" line and returns normally. *)
Theorem unsupported_extension_writes_nothing (env : environment)
  (position : string) (year : Z) (weeks : list Z)
  (output_dir file_format : string) :
  format_kind (Py.lower file_format) = None ->
  writes (fst (scrape env position year weeks output_dir file_format)) = []
  /\ (forall year_df,
        no_interrupt env position year weeks ->
        pd.concat (collected env position year weeks) = Ok year_df ->
        makedirs_error env (os_path_join output_dir position) = None ->
        exists before,
          scrape env position year weeks output_dir file_format
          = ((before
              ++ [EvMakedirs (os_path_join output_dir position);
                  EvPrint (msg_saved year_df
                             (output_path output_dir position year
                                file_format))])%list,
             Ok tt)).
Proof.
  intros Hk. split.
  - destruct (scrape_cases env position year weeks output_dir file_format _ _
                (surjective_pairing _))
      as [Hw _ _ | before kind df saved _ _ _ _ Hk' _ _]; [exact Hw|].
    congruence.
  - intros year_df Hno Hc Hmk.
    destruct (scrape_loop_returns env position year weeks [] Hno)
      as (t & Eloop & _).
    rewrite scrape_eq. unfold print, emit. cbn [bind].
    rewrite Eloop, app_nil_l. cbn [bind].
    rewrite write_phase_eq. cbv zeta.
    destruct (collected env position year weeks) as [|df dfs];
      [discriminate|].
    rewrite Hc, Hmk, Hk.
    exists (EvPrint (msg_scraping position year) :: t). reflexivity.
Qed.

Lemma unsupported_extension_writes_nothing_witness :
  writes (fst (scrape (static_site 200 [table_AB]) "qb" 2023 [1] "data" "XML"))
  = [].
Proof.
  exact (proj1 (unsupported_extension_writes_nothing
                  (static_site 200 [table_AB]) "qb" 2023 [1] "data" "XML"
                  eq_refl)).
Defined.

Lemma append_assoc (a b c : string) : (a ++ b) ++ c = a ++ b ++ c.
Proof. induction a as [|x a IH]; cbn; [reflexivity | now rewrite IH]. Qed.

Lemma append_length (a b : string) :
  String.length (a ++ b) = (String.length a + String.length b)%nat.
Proof. induction a as [|x a IH]; cbn; [reflexivity | now rewrite IH]. Qed.

Lemma append_inv_head (u a b : string) : u ++ a = u ++ b -> a = b.
Proof.
  induction u as [|x u IH]; cbn; [auto|]. intros H. injection H as H. auto.
Qed.

Lemma append_inv_tail (a b t : string) : a ++ t = b ++ t -> a = b.
Proof.
  intros H.
  assert (Hlen : String.length a = String.length b).
  { apply (f_equal String.length) in H. rewrite !append_length in H. lia. }
  revert b H Hlen. induction a as [|x a IH]; intros [|y b] H Hlen;
    try discriminate; [reflexivity|].
  cbn in H. injection H as -> H. f_equal. apply IH; [exact H|].
  cbn in Hlen. lia.
Qed.

Lemma str_inj (a b : Z) : Py.str a = Py.str b -> a = b.
Proof.
  unfold Py.str. intros H.
  assert (Hd : forall z, NilZero.int_of_string
                           (NilZero.string_of_int (Z.to_int z))
                         = Some (Z.to_int z)).
  { intros z. apply NilZero.isi; destruct z as [|p|p]; cbn; try discriminate;
      intros E; injection E as E;
      now apply (DecimalPos.Unsigned.to_uint_nonnil p). }
  apply (f_equal NilZero.int_of_string) in H. rewrite !Hd in H.
  injection H as H. now apply DecimalZ.to_int_inj.
Qed.

Lemma list_ascii_app (a b : string) :
  list_ascii_of_string (a ++ b)
  = (list_ascii_of_string a ++ list_ascii_of_string b)%list.
Proof. induction a as [|x a IH]; cbn; [reflexivity | now rewrite IH]. Qed.

Lemma ends_with_sep_app (x p : string) (c : ascii) (p' : list ascii) :
  List.rev (list_ascii_of_string p) = c :: p' ->
  ends_with_sep (x ++ p) = Ascii.eqb c "/".
Proof.
  intros H. unfold ends_with_sep. now rewrite list_ascii_app, rev_app_distr, H.
Qed.

(** The path of a supported position: the directory prefix, the
    position's directory, and the file name. *)
Lemma output_path_supported (output_dir position : string) (year : Z)
  (file_format : string) :
  In position ALL_POSITIONS ->
  output_path output_dir position year file_format
  = dir_prefix output_dir
    ++ position ++ "/" ++ position ++ "_" ++ Py.str year ++ "."
    ++ Py.lower file_format.
Proof.
  intros Hp. unfold output_path.
  assert (Hdir : os_path_join output_dir position
                 = dir_prefix output_dir ++ position).
  { unfold os_path_join, dir_prefix.
    destruct Hp as [<-|[<-|[<-|[<-|[<-|[<-|[]]]]]]]; cbn [starts_with_sep];
      (destruct output_dir as [|a d]; [reflexivity|]);
      (destruct (ends_with_sep (String a d));
       [reflexivity | now rewrite append_assoc]). }
  rewrite Hdir. unfold os_path_join.
  assert (Hstart : starts_with_sep
                     (position ++ "_" ++ Py.str year ++ "."
                      ++ Py.lower file_format) = false).
  { destruct Hp as [<-|[<-|[<-|[<-|[<-|[<-|[]]]]]]]; reflexivity. }
  assert (Hend : ends_with_sep (dir_prefix output_dir ++ position) = false).
  { destruct Hp as [<-|[<-|[<-|[<-|[<-|[<-|[]]]]]]];
      (erewrite ends_with_sep_app; [|reflexivity]); reflexivity. }
  rewrite Hstart, Hend.
  destruct (dir_prefix output_dir ++ position) eqn:E.
  - exfalso. apply (f_equal String.length) in E.
    rewrite append_length in E.
    destruct Hp as [<-|[<-|[<-|[<-|[<-|[<-|[]]]]]]]; cbn in E; lia.
  - rewrite <- E. now rewrite append_assoc.
Qed.

(** X15. Two different (position, year) pairs of supported positions
    never share a file: for a given output directory and format, the file
    path determines the position and the year. *)
Theorem output_path_injective (output_dir file_format : string)
  (p1 p2 : string) (y1 y2 : Z) :
  In p1 ALL_POSITIONS -> In p2 ALL_POSITIONS ->
  output_path output_dir p1 y1 file_format
  = output_path output_dir p2 y2 file_format ->
  p1 = p2 /\ y1 = y2.
Proof.
  intros H1 H2 E.
  rewrite (output_path_supported _ _ _ _ H1),
    (output_path_supported _ _ _ _ H2) in E.
  apply append_inv_head in E.
  destruct H1 as [<-|[<-|[<-|[<-|[<-|[<-|[]]]]]]];
    destruct H2 as [<-|[<-|[<-|[<-|[<-|[<-|[]]]]]]];
    cbn in E; try discriminate E;
    (split; [reflexivity|]);
    repeat (injection E as E);
    apply append_inv_tail in E; now apply str_inj.
Qed.

Lemma output_path_injective_witness :
  "qb" = "qb" /\ 2023 = 2023.
Proof.
  apply (output_path_injective "data" "csv" "qb" "qb" 2023 2023);
    [cbn; auto | cbn; auto | reflexivity].
Defined.

(* ------------------------------------------------------------------ *)
(** ** The driver *)

Lemma for_each_app {A : Type} (a b : list A) (body : A -> M unit) :
  for_each (a ++ b) body = bind (for_each a body) (fun _ => for_each b body).
Proof.
  induction a as [|x a IH]; cbn [app for_each].
  - now rewrite bind_ret_l.
  - rewrite bind_assoc. apply bind_ext. intros _. exact IH.
Qed.

Lemma for_each_map {A B : Type} (g : A -> B) (xs : list A) (body : B -> M unit) :
  for_each (map g xs) body = for_each xs (fun x => body (g x)).
Proof.
  induction xs as [|x xs IH]; cbn [map for_each]; [reflexivity|].
  apply bind_ext. intros _. exact IH.
Qed.

(** The two nested loops of [main] visit the pairs in [run_pairs] order. *)
Lemma for_each_pairs (positions : list string) (years : list Z)
  (body : string * Z -> M unit) :
  for_each positions (fun pos => for_each years (fun year => body (pos, year)))
  = for_each (run_pairs positions years) body.
Proof.
  induction positions as [|pos rest IH]; cbn [for_each run_pairs flat_map];
    [reflexivity|].
  fold (run_pairs rest years).
  rewrite for_each_app, for_each_map. apply bind_ext. intros _. exact IH.
Qed.

Lemma for_each_ok {A : Type} (xs : list A) (body : A -> M unit) :
  Forall (fun x => snd (body x) = Ok tt) xs ->
  for_each xs body = (flat_map (fun x => fst (body x)) xs, Ok tt).
Proof.
  induction 1 as [|x xs Hx _ IH]; [reflexivity|].
  cbn [for_each flat_map]. rewrite IH.
  destruct (body x) as [t r]. cbn in Hx. subst r. reflexivity.
Qed.

Lemma for_each_ok_inv {A : Type} (xs : list A) (body : A -> M unit)
  (t : list event) :
  for_each xs body = (t, Ok tt) ->
  Forall (fun x => snd (body x) = Ok tt) xs.
Proof.
  revert t. induction xs as [|x xs IH]; intros t H; [constructor|].
  cbn [for_each] in H.
  apply bind_inv in H as [(e & _ & E)|(t1 & [] & t2 & E1 & E2 & _)];
    [discriminate|].
  constructor; [now rewrite E1 | eapply IH; eauto].
Qed.

(** The loop stops at the first iteration that raises. *)
Lemma for_each_raise {A : Type} (pre : list A) (x : A) (post : list A)
  (body : A -> M unit) (e : exn) :
  Forall (fun y => snd (body y) = Ok tt) pre ->
  snd (body x) = Raise e ->
  for_each (pre ++ x :: post) body
  = ((flat_map (fun y => fst (body y)) pre ++ fst (body x))%list, Raise e).
Proof.
  intros Hpre Hx. rewrite for_each_app, (for_each_ok _ _ Hpre).
  cbn [bind for_each]. destruct (body x) as [t r]. cbn in Hx. subst r.
  reflexivity.
Qed.

Lemma parse_args_ok (argv : arguments) :
  In (arg_format argv) format_choices -> parse_args argv = Ok argv.
Proof.
  intros H. unfold parse_args. now rewrite (proj2 (mem_In _ _) H).
Qed.

Lemma check_positions_ok (positions : list string) :
  Forall (fun pos => In pos ALL_POSITIONS) positions ->
  for_each positions check_position = ([], Ok tt).
Proof.
  induction 1 as [|pos rest Hpos _ IH]; [reflexivity|].
  cbn [for_each]. rewrite IH. unfold check_position.
  now rewrite (proj2 (mem_In _ _) Hpos).
Qed.

Lemma resolved_positions_valid (argv : arguments) :
  valid_position argv ->
  Forall (fun pos => In pos ALL_POSITIONS) (resolved_positions argv).
Proof.
  unfold valid_position, resolved_positions. intros [->|H].
  - cbn [String.eqb]. apply Forall_forall. auto.
  - destruct (String.eqb (arg_position argv) "all").
    + apply Forall_forall. auto.
    + now constructor.
Qed.

(** [main] up to the two loops. *)
Lemma main_eq (env : environment) (argv : arguments) (now_year : Z) :
  main env argv now_year
  = (args <- lift (parse_args argv) ;;
     for_each (resolved_positions args) check_position ;;
     years <- lift (parse_range_or_all (arg_year args) (full_years now_year)) ;;
     weeks <- lift (parse_range_or_all (arg_week args) full_weeks) ;;
     for_each (run_pairs (resolved_positions args) years)
       (pair_scrape env args weeks)).
Proof.
  unfold main. apply bind_ext. intros args. cbv zeta.
  fold (resolved_positions args).
  apply bind_ext. intros _. apply bind_ext. intros years.
  apply bind_ext. intros weeks.
  apply (for_each_pairs (resolved_positions args) years
           (pair_scrape env args weeks)).
Qed.

(** [main] once its arguments have passed validation. *)
Lemma main_validated (env : environment) (argv : arguments) (now_year : Z)
  (years weeks : list Z) :
  In (arg_format argv) format_choices -> valid_position argv ->
  parse_range_or_all (arg_year argv) (full_years now_year) = Ok years ->
  parse_range_or_all (arg_week argv) full_weeks = Ok weeks ->
  main env argv now_year
  = for_each (run_pairs (resolved_positions argv) years)
      (pair_scrape env argv weeks).
Proof.
  intros Hf Hp Hy Hw. rewrite main_eq, (parse_args_ok _ Hf).
  unfold lift at 1. cbn [bind].
  rewrite (check_positions_ok _ (resolved_positions_valid _ Hp)).
  cbn [bind]. rewrite Hy. unfold lift at 1. cbn [bind app].
  rewrite Hw. unfold lift. cbn [bind app].
  destruct (for_each _ _) as [t r]. reflexivity.
Qed.

(** X16. A rejected command line ends [main] before anything happens: an
    unsupported format, a position that is neither "all" nor (in any
    letter case) one of the six codes, or a malformed year or week
    selector makes [main] raise without a single print, request or
    file-system effect. *)
Theorem main_rejects_before_any_effect (env : environment) (argv : arguments)
  (now_year : Z) :
  (~ In (arg_format argv) format_choices ->
   main env argv now_year = ([], Raise (SystemExit 2)))
  /\ (In (arg_format argv) format_choices ->
      arg_position argv <> "all" ->
      ~ In (Py.lower (arg_position argv)) ALL_POSITIONS ->
      main env argv now_year
      = ([], Raise (ValueError ("Invalid position: "
                                ++ Py.lower (arg_position argv)))))
  /\ (forall e,
        In (arg_format argv) format_choices -> valid_position argv ->
        parse_range_or_all (arg_year argv) (full_years now_year) = Raise e ->
        main env argv now_year = ([], Raise e))
  /\ (forall e years,
        In (arg_format argv) format_choices -> valid_position argv ->
        parse_range_or_all (arg_year argv) (full_years now_year) = Ok years ->
        parse_range_or_all (arg_week argv) full_weeks = Raise e ->
        main env argv now_year = ([], Raise e)).
Proof.
  rewrite main_eq. split; [|split; [|split]].
  - intros Hf. unfold parse_args.
    rewrite (mem_not_In _ _ Hf). reflexivity.
  - intros Hf Hall Hpos. rewrite (parse_args_ok _ Hf).
    unfold lift at 1. cbn [bind]. unfold resolved_positions.
    rewrite (proj2 (String.eqb_neq _ _) Hall).
    cbn [for_each]. unfold check_position.
    now rewrite (mem_not_In _ _ Hpos).
  - intros e Hf Hp Hy. rewrite (parse_args_ok _ Hf).
    unfold lift at 1. cbn [bind].
    rewrite (check_positions_ok _ (resolved_positions_valid _ Hp)).
    cbn [bind]. now rewrite Hy.
  - intros e years Hf Hp Hy Hw. rewrite (parse_args_ok _ Hf).
    unfold lift at 1. cbn [bind].
    rewrite (check_positions_ok _ (resolved_positions_valid _ Hp)).
    cbn [bind]. rewrite Hy. unfold lift at 1. cbn [bind].
    now rewrite Hw.
Qed.

Lemma main_rejects_before_any_effect_witness :
  main (static_site 200 [table_AB])
    {| arg_position := "ALL"; arg_year := "all"; arg_week := "all";
       arg_output := "data"; arg_format := "csv" |} 2026
  = ([], Raise (ValueError "Invalid position: all")).
Proof.
  apply (proj1 (proj2 (main_rejects_before_any_effect
                         (static_site 200 [table_AB])
                         {| arg_position := "ALL"; arg_year := "all";
                            arg_week := "all"; arg_output := "data";
                            arg_format := "csv" |} 2026))).
  - cbn. auto.
  - discriminate.
  - cbn. intuition discriminate.
Defined.

Lemma parse_args_inv (argv args : arguments) :
  parse_args argv = Ok args ->
  args = argv /\ In (arg_format argv) format_choices.
Proof.
  unfold parse_args.
  destruct (pd.mem (arg_format argv) format_choices) eqn:E; [|discriminate].
  intros H. injection H as <-. split; [reflexivity | now apply mem_In].
Qed.

(** How [main] can end: rejected before any effect, or run over the pairs
    of the resolved filters. *)
Lemma main_inv (env : environment) (argv : arguments) (now_year : Z) :
  (exists e, main env argv now_year = ([], Raise e))
  \/ (exists years weeks,
        In (arg_format argv) format_choices /\ valid_position argv
        /\ parse_range_or_all (arg_year argv) (full_years now_year) = Ok years
        /\ parse_range_or_all (arg_week argv) full_weeks = Ok weeks
        /\ main env argv now_year
           = for_each (run_pairs (resolved_positions argv) years)
               (pair_scrape env argv weeks)).
Proof.
  destruct (pd.mem (arg_format argv) format_choices) eqn:Ef.
  2:{ left. exists (SystemExit 2). rewrite main_eq. unfold parse_args.
      now rewrite Ef. }
  apply mem_In in Ef.
  assert (Hpos : valid_position argv
                 \/ (arg_position argv <> "all"
                     /\ ~ In (Py.lower (arg_position argv)) ALL_POSITIONS)).
  { unfold valid_position.
    destruct (String.eqb (arg_position argv) "all") eqn:Ea.
    - apply String.eqb_eq in Ea. auto.
    - apply String.eqb_neq in Ea.
      destruct (pd.mem (Py.lower (arg_position argv)) ALL_POSITIONS) eqn:Em.
      + apply mem_In in Em. auto.
      + right. split; [exact Ea|]. intros H. apply mem_In in H. congruence. }
  destruct Hpos as [Hp|[Hall Hbad]].
  2:{ left. eexists. rewrite main_eq, (parse_args_ok _ Ef).
      unfold lift at 1. cbn [bind]. unfold resolved_positions.
      rewrite (proj2 (String.eqb_neq _ _) Hall).
      cbn [for_each]. unfold check_position.
      rewrite (mem_not_In _ _ Hbad). reflexivity. }
  destruct (parse_range_or_all (arg_year argv) (full_years now_year))
    as [years|e] eqn:Ey.
  2:{ left. exists e. rewrite main_eq, (parse_args_ok _ Ef).
      unfold lift at 1. cbn [bind].
      rewrite (check_positions_ok _ (resolved_positions_valid _ Hp)).
      cbn [bind]. now rewrite Ey. }
  destruct (parse_range_or_all (arg_week argv) full_weeks) as [weeks|e] eqn:Ew.
  2:{ left. exists e. rewrite main_eq, (parse_args_ok _ Ef).
      unfold lift at 1. cbn [bind].
      rewrite (check_positions_ok _ (resolved_positions_valid _ Hp)).
      cbn [bind]. rewrite Ey. unfold lift at 1. cbn [bind]. now rewrite Ew. }
  right. exists years, weeks. repeat split; auto.
  now apply main_validated.
Qed.

Lemma gets_flat_map {A : Type} (f : A -> list event) (xs : list A) :
  gets (flat_map f xs) = flat_map (fun x => gets (f x)) xs.
Proof.
  induction xs as [|x xs IH]; [reflexivity|].
  cbn [flat_map]. now rewrite gets_app, IH.
Qed.

Lemma scrape_ok_gets (env : environment) (position : string) (year : Z)
  (weeks : list Z) (output_dir file_format : string) :
  snd (scrape env position year weeks output_dir file_format) = Ok tt ->
  gets (fst (scrape env position year weeks output_dir file_format))
  = pair_requests position year weeks.
Proof.
  intros H. rewrite scrape_gets.
  rewrite (proj1 (scrape_by_loop _ _ _ _ _ _)) in H.
  destruct (scrape_loop env position year weeks []) as [t [l|e]] eqn:E;
    [|discriminate].
  now apply scrape_loop_ok in E.
Qed.

Lemma flat_map_of_map {A B C : Type} (g : B -> list C) (h : A -> B)
  (l : list A) :
  flat_map g (map h l) = flat_map (fun x => g (h x)) l.
Proof.
  induction l as [|x l IH]; [reflexivity|]. cbn. now rewrite IH.
Qed.

Lemma flat_map_run_pairs {C : Type} (g : string * Z -> list C)
  (positions : list string) (years : list Z) :
  flat_map g (run_pairs positions years)
  = flat_map (fun pos => flat_map (fun year => g (pos, year)) years) positions.
Proof.
  induction positions as [|pos rest IH]; [reflexivity|].
  cbn [run_pairs flat_map]. fold (run_pairs rest years).
  now rewrite flat_map_app, flat_map_of_map, IH.
Qed.

Lemma flat_map_Forall_ext {A B : Type} (f g : A -> list B) (l : list A) :
  Forall (fun x => f x = g x) l -> flat_map f l = flat_map g l.
Proof.
  induction 1 as [|x l Hx _ IH]; [reflexivity|]. cbn. now rewrite Hx, IH.
Qed.

(** X17. When [main] returns normally, it has requested every
    (position, year, week) of the resolved filters exactly once, positions
    outermost, then years, then weeks, each in the order of its list, and
    every position it used is one of the six supported codes. *)
Theorem main_request_order (env : environment) (argv : arguments)
  (now_year : Z) (tr : list event) :
  main env argv now_year = (tr, Ok tt) ->
  exists years weeks,
    parse_range_or_all (arg_year argv) (full_years now_year) = Ok years
    /\ parse_range_or_all (arg_week argv) full_weeks = Ok weeks
    /\ Forall (fun pos => In pos ALL_POSITIONS) (resolved_positions argv)
    /\ gets tr
       = flat_map (fun pos =>
                     flat_map (fun year => pair_requests pos year weeks) years)
           (resolved_positions argv).
Proof.
  intros H.
  destruct (main_inv env argv now_year)
    as [(e & E)|(years & weeks & Hf & Hp & Hy & Hw & E)];
    [rewrite E in H; discriminate|].
  exists years, weeks. split; [exact Hy|]. split; [exact Hw|].
  split; [now apply resolved_positions_valid|].
  rewrite E in H. pose proof (for_each_ok_inv _ _ _ H) as Hall.
  rewrite (for_each_ok _ _ Hall) in H. injection H as <-.
  rewrite gets_flat_map.
  rewrite <- (flat_map_run_pairs
                (fun pair => pair_requests (fst pair) (snd pair) weeks)).
  apply flat_map_Forall_ext.
  eapply Forall_impl; [|exact Hall].
  intros [pos year] Hok. now apply scrape_ok_gets.
Qed.

Lemma main_request_order_witness :
  exists years weeks,
    parse_range_or_all "2022-2023" (full_years 2026) = Ok years
    /\ parse_range_or_all "1-2" full_weeks = Ok weeks
    /\ Forall (fun pos => In pos ALL_POSITIONS) ["qb"]
    /\ [week_url "qb" 1 2022; week_url "qb" 2 2022;
        week_url "qb" 1 2023; week_url "qb" 2 2023]
       = flat_map (fun pos =>
                     flat_map (fun year => pair_requests pos year weeks) years)
           ["qb"].
Proof.
  apply (main_request_order (static_site 404 [])
           {| arg_position := "QB"; arg_year := "2022-2023"; arg_week := "1-2";
              arg_output := "data"; arg_format := "csv" |} 2026
           (fst (main (static_site 404 [])
                   {| arg_position := "QB"; arg_year := "2022-2023";
                      arg_week := "1-2"; arg_output := "data";
                      arg_format := "csv" |} 2026))).
  vm_compute. reflexivity.
Defined.

(** X18. A fatal error in one (position, year) pair ends the whole run:
    when the scrape of a pair raises while those of the pairs before it
    returned, [main] raises the same exception, its trace ends with the
    trace of that scrape, and no later pair is processed. *)
Theorem main_stops_at_failing_pair (env : environment) (argv : arguments)
  (now_year : Z) (years weeks : list Z)
  (before : list (string * Z)) (pair : string * Z) (after : list (string * Z))
  (e : exn) :
  In (arg_format argv) format_choices -> valid_position argv ->
  parse_range_or_all (arg_year argv) (full_years now_year) = Ok years ->
  parse_range_or_all (arg_week argv) full_weeks = Ok weeks ->
  run_pairs (resolved_positions argv) years = (before ++ pair :: after)%list ->
  Forall (fun q =>
            snd (scrape env (fst q) (snd q) weeks (arg_output argv)
                   (arg_format argv)) = Ok tt) before ->
  snd (scrape env (fst pair) (snd pair) weeks (arg_output argv)
         (arg_format argv)) = Raise e ->
  main env argv now_year
  = ((flat_map (fun q =>
                  fst (scrape env (fst q) (snd q) weeks (arg_output argv)
                         (arg_format argv))) before
      ++ fst (scrape env (fst pair) (snd pair) weeks (arg_output argv)
                (arg_format argv)))%list,
     Raise e).
Proof.
  intros Hf Hp Hy Hw Hpairs Hbefore Hpair.
  rewrite (main_validated _ _ _ _ _ Hf Hp Hy Hw), Hpairs.
  exact (for_each_raise before pair after (pair_scrape env argv weeks) e
           Hbefore Hpair).
Qed.

Lemma main_stops_at_failing_pair_witness :
  main readonly_site
    {| arg_position := "qb"; arg_year := "2022-2023"; arg_week := "1";
       arg_output := "data"; arg_format := "csv" |} 2026
  = ((flat_map (fun q => fst (scrape readonly_site (fst q) (snd q) [1]
                                "data" "csv")) []
      ++ fst (scrape readonly_site "qb" 2022 [1] "data" "csv"))%list,
     Raise (OSError "[Errno 13] Permission denied: 'data/qb'")).
Proof.
  apply (main_stops_at_failing_pair readonly_site
           {| arg_position := "qb"; arg_year := "2022-2023"; arg_week := "1";
              arg_output := "data"; arg_format := "csv" |} 2026
           [2022; 2023] [1] [] ("qb", 2022) [("qb", 2023)]).
  - cbn. auto.
  - right. cbn. auto.
  - vm_compute. reflexivity.
  - vm_compute. reflexivity.
  - reflexivity.
  - constructor.
  - vm_compute. reflexivity.
Defined.

Lemma for_each_gets_incl {A : Type} (xs : list A) (body : A -> M unit)
  (url : string) :
  In url (gets (fst (for_each xs body))) ->
  exists x, In x xs /\ In url (gets (fst (body x))).
Proof.
  induction xs as [|x xs IH]; [intros []|].
  cbn [for_each]. rewrite gets_bind. intros H.
  apply in_app_or in H as [H|H].
  - exists x. split; [now left | exact H].
  - destruct (snd (body x)); [|destruct H].
    destruct (IH H) as (y & Hy & Hin). exists y. split; [now right | exact Hin].
Qed.

Lemma In_run_pairs (positions : list string) (years : list Z)
  (pair : string * Z) :
  In pair (run_pairs positions years) <->
  In (fst pair) positions /\ In (snd pair) years.
Proof.
  unfold run_pairs. rewrite in_flat_map. split.
  - intros (pos & Hpos & H). apply in_map_iff in H as (year & <- & Hy).
    now split.
  - intros [Hp Hy]. exists (fst pair). split; [exact Hp|].
    apply in_map_iff. exists (snd pair). split; [now destruct pair | exact Hy].
Qed.

Lemma main_gets_within (env : environment) (argv : arguments) (now_year : Z)
  (years weeks : list Z) (url : string) :
  In (arg_format argv) format_choices -> valid_position argv ->
  parse_range_or_all (arg_year argv) (full_years now_year) = Ok years ->
  parse_range_or_all (arg_week argv) full_weeks = Ok weeks ->
  In url (gets (fst (main env argv now_year))) ->
  exists pos year week,
    In pos (resolved_positions argv) /\ In year years /\ In week weeks
    /\ url = week_url pos week year.
Proof.
  intros Hf Hp Hy Hw Hin.
  rewrite (main_validated _ _ _ _ _ Hf Hp Hy Hw) in Hin.
  apply for_each_gets_incl in Hin as ([pos year] & Hpair & Hin).
  apply In_run_pairs in Hpair as [Hpos Hyear]. cbn [fst snd] in *.
  unfold pair_scrape in Hin. cbn [fst snd] in Hin.
  destruct (scrape_requests_prefix env pos year weeks
              (arg_output argv) (arg_format argv)) as (n & Hn).
  rewrite Hn in Hin. apply In_firstn in Hin.
  unfold pair_requests in Hin. apply in_map_iff in Hin as (week & <- & Hweek).
  now exists pos, year, week.
Qed.

(** X19. [main] never requests anything outside its resolved filters:
    every URL it requests is the URL of a position, a year and a week of
    the resolved lists.  With the three filters left at "all", these are
    the six supported positions, the years 2002 to two years before the
    current one, and the weeks 1 to 17: week 18 is never requested. *)
Theorem main_requests_within_filters (env : environment) (argv : arguments)
  (now_year : Z) (url : string) :
  In (arg_format argv) format_choices ->
  In url (gets (fst (main env argv now_year))) ->
  (forall years weeks,
      valid_position argv ->
      parse_range_or_all (arg_year argv) (full_years now_year) = Ok years ->
      parse_range_or_all (arg_week argv) full_weeks = Ok weeks ->
      exists pos year week,
        In pos (resolved_positions argv) /\ In year years /\ In week weeks
        /\ url = week_url pos week year)
  /\ (arg_position argv = "all" -> arg_year argv = "all" ->
      arg_week argv = "all" ->
      exists pos year week,
        In pos ALL_POSITIONS /\ 2002 <= year <= now_year - 2
        /\ 1 <= week <= 17
        /\ url = week_url pos week year).
Proof.
  intros Hf Hin. split.
  - intros years weeks Hp Hy Hw.
    exact (main_gets_within env argv now_year years weeks url Hf Hp Hy Hw Hin).
  - intros Hpos Hyear Hweek.
    destruct (main_gets_within env argv now_year (full_years now_year)
                full_weeks url Hf)
      as (pos & year & week & Hp & Hy & Hw & ->); auto.
    + now left.
    + now rewrite Hyear.
    + now rewrite Hweek.
    + exists pos, year, week. repeat split.
      * unfold resolved_positions in Hp. now rewrite Hpos in Hp.
      * unfold full_years, Py.range in Hy.
        apply in_map_iff in Hy as (i & <- & Hi). lia.
      * unfold full_years, Py.range in Hy.
        apply in_map_iff in Hy as (i & <- & Hi). apply in_seq in Hi. lia.
      * unfold full_weeks, Py.range in Hw.
        apply in_map_iff in Hw as (i & <- & Hi). lia.
      * unfold full_weeks, Py.range in Hw.
        apply in_map_iff in Hw as (i & <- & Hi). apply in_seq in Hi.
        cbn in Hi. lia.
Qed.

Lemma main_requests_within_filters_witness :
  exists pos year week,
    In pos ALL_POSITIONS /\ 2002 <= year <= 2005 - 2 /\ 1 <= week <= 17
    /\ week_url "qb" 1 2002 = week_url pos week year.
Proof.
  apply (proj2 (main_requests_within_filters (static_site 404 [])
                  default_arguments 2005 (week_url "qb" 1 2002)
                  ltac:(cbn; auto)
                  ltac:(vm_compute; left; reflexivity)));
    reflexivity.
Defined.

Lemma writes_flat_map {A : Type} (f : A -> list event) (xs : list A) :
  writes (flat_map f xs) = flat_map (fun x => writes (f x)) xs.
Proof.
  induction xs as [|x xs IH]; [reflexivity|].
  cbn [flat_map]. now rewrite writes_app, IH.
Qed.

Lemma for_each_writes_prefix {A : Type} (xs : list A) (body : A -> M unit) :
  exists n,
    writes (fst (for_each xs body))
    = flat_map (fun x => writes (fst (body x))) (firstn n xs).
Proof.
  induction xs as [|x xs (n & IH)]; [exists O; reflexivity|].
  cbn [for_each]. rewrite writes_bind.
  destruct (snd (body x)).
  - exists (S n). cbn [firstn flat_map]. now rewrite IH.
  - exists 1%nat. reflexivity.
Qed.

Lemma scrape_writes_cases (env : environment) (position : string) (year : Z)
  (weeks : list Z) (output_dir file_format : string) :
  written_paths (fst (scrape env position year weeks output_dir file_format))
  = []
  \/ written_paths (fst (scrape env position year weeks output_dir file_format))
     = [output_path output_dir position year file_format].
Proof.
  unfold written_paths.
  destruct (scrape_cases env position year weeks output_dir file_format _ _
              (surjective_pairing _))
    as [Hw _ _ | before kind df saved E Hwb _ _ _ _ _].
  - left. now rewrite Hw.
  - right. rewrite E, writes_app, Hwb. reflexivity.
Qed.

Lemma NoDup_firstn {A : Type} (n : nat) (l : list A) :
  NoDup l -> NoDup (firstn n l).
Proof.
  intros H. rewrite <- (firstn_skipn n l) in H. now apply NoDup_app_remove_r in H.
Qed.

Lemma NoDup_run_pairs (positions : list string) (years : list Z) :
  NoDup positions -> NoDup years -> NoDup (run_pairs positions years).
Proof.
  intros Hp Hy. induction Hp as [|pos rest Hnot _ IH]; [constructor|].
  cbn [run_pairs flat_map]. fold (run_pairs rest years).
  apply NoDup_app.
  - clear IH. induction Hy as [|year ys Hnew _ IHy]; cbn; constructor;
      [|exact IHy].
    intros Hin. apply in_map_iff in Hin as (y & E & Hin).
    injection E as ->. contradiction.
  - exact IH.
  - intros pair Hin Hin'. apply in_map_iff in Hin as (year & <- & _).
    apply In_run_pairs in Hin' as [Hin' _]. contradiction.
Qed.

(** Mapping each element to at most one value, injectively, keeps a list
    free of repetitions. *)
Lemma NoDup_flat_map_single {A B : Type} (f : A -> list B) (g : A -> B)
  (l : list A) :
  NoDup l ->
  (forall x, In x l -> f x = [] \/ f x = [g x]) ->
  (forall x y, In x l -> In y l -> g x = g y -> x = y) ->
  NoDup (flat_map f l).
Proof.
  induction 1 as [|x l Hx Hl IH]; intros Hf Hg; [constructor|].
  cbn [flat_map].
  assert (Hrest : NoDup (flat_map f l)).
  { apply IH; intros; [apply Hf | apply Hg]; auto; now right. }
  destruct (Hf x (or_introl eq_refl)) as [->| ->]; [exact Hrest|].
  cbn. constructor; [|exact Hrest].
  intros Hin. apply in_flat_map in Hin as (y & Hy & Hin).
  destruct (Hf y (or_intror Hy)) as [E|E]; rewrite E in Hin; [destruct Hin|].
  destruct Hin as [Hin|[]].
  assert (y = x) by (apply Hg; auto; [now right | now left]).
  subst y. contradiction.
Qed.

Lemma parse_NoDup (value : string) (D l : list Z) :
  NoDup D -> parse_range_or_all value D = Ok l -> NoDup l.
Proof.
  intros HD. unfold parse_range_or_all.
  destruct (String.eqb value "all"); [intros H; now injection H as <-|].
  destruct (Py.contains "-" value).
  - destruct (Py.unpack2_int (Py.split "-" value)) as [[s e]|err];
      [|discriminate].
    cbn [rbind]. intros H. injection H as <-.
    rewrite range_inclusive. apply ascending_from_NoDup.
  - destruct (Py.int value) as [n|err]; [|discriminate].
    cbn [rbind]. intros H. injection H as <-.
    constructor; [intros [] | constructor].
Qed.

Lemma full_years_NoDup (now_year : Z) : NoDup (full_years now_year).
Proof.
  unfold full_years. replace (now_year - 1) with (now_year - 2 + 1) by lia.
  rewrite range_inclusive. apply ascending_from_NoDup.
Qed.

Lemma resolved_positions_NoDup (argv : arguments) :
  NoDup (resolved_positions argv).
Proof.
  unfold resolved_positions.
  destruct (String.eqb (arg_position argv) "all").
  - unfold ALL_POSITIONS.
    repeat (constructor; [cbn; intuition discriminate|]). constructor.
  - constructor; [intros [] | constructor].
Qed.

Lemma pair_path_inj (output_dir file_format : string) (q1 q2 : string * Z) :
  In (fst q1) ALL_POSITIONS -> In (fst q2) ALL_POSITIONS ->
  output_path output_dir (fst q1) (snd q1) file_format
  = output_path output_dir (fst q2) (snd q2) file_format ->
  q1 = q2.
Proof.
  destruct q1 as [p1 y1], q2 as [p2 y2]. cbn [fst snd]. intros H1 H2 E.
  rewrite (output_path_supported _ _ _ _ H1),
    (output_path_supported _ _ _ _ H2) in E.
  apply append_inv_head in E.
  destruct H1 as [<-|[<-|[<-|[<-|[<-|[<-|[]]]]]]];
    destruct H2 as [<-|[<-|[<-|[<-|[<-|[<-|[]]]]]]];
    cbn in E; try discriminate E;
    repeat (injection E as E);
    apply append_inv_tail in E; apply str_inj in E; now subst.
Qed.

(** X20. A run of [main] never writes the same file twice: the paths of
    the files it writes are pairwise different, whatever the command line
    and the site are and however the run ends. *)
Theorem main_never_rewrites_a_file (env : environment) (argv : arguments)
  (now_year : Z) :
  NoDup (written_paths (fst (main env argv now_year))).
Proof.
  destruct (main_inv env argv now_year)
    as [(e & ->)|(years & weeks & Hf & Hp & Hy & Hw & ->)]; [constructor|].
  unfold written_paths.
  destruct (for_each_writes_prefix (run_pairs (resolved_positions argv) years)
              (pair_scrape env argv weeks)) as (n & ->).
  rewrite flat_map_concat_map, concat_map, map_map, <- flat_map_concat_map.
  pose proof (resolved_positions_valid _ Hp) as Hvalid.
  rewrite Forall_forall in Hvalid.
  assert (Hin : forall q,
             In q (firstn n (run_pairs (resolved_positions argv) years)) ->
             In (fst q) ALL_POSITIONS).
  { intros q Hq. apply In_firstn, In_run_pairs in Hq as [Hq _]. auto. }
  apply (NoDup_flat_map_single _
           (fun q => output_path (arg_output argv) (fst q) (snd q)
                       (arg_format argv))).
  - apply NoDup_firstn, NoDup_run_pairs.
    + apply resolved_positions_NoDup.
    + exact (parse_NoDup _ _ _ (full_years_NoDup now_year) Hy).
  - intros q _. unfold pair_scrape.
    apply (scrape_writes_cases env (fst q) (snd q) weeks (arg_output argv)
             (arg_format argv)).
  - intros q1 q2 H1 H2. apply pair_path_inj; auto.
Qed.
